(** * cdclient: the [/connections] endpoint of [server.js]

    A shallow embedding of the request handler of [server.js] and of the
    helpers it calls ([postJSON], [searchStation], [createSession],
    [searchJourneys], [getPrices], [fetchCzkRate], [parseDate]), with the
    properties of the written specification stated over it.

    How the program is modelled:
    - A JavaScript number is an IEEE-754 binary64 value, represented by
      [spec_float] of the standard library.  Division and subtraction are
      the binary64 operations of that library; they are proved below to
      be the exact rational result rounded to nearest, ties to even.
      [toFixed(2)] and the reading of its output by [Number] are exact
      decimal arithmetic followed by that rounding.
    - A value is untyped, as [JSON.parse] gives it; property access,
      truthiness, [||], [?.] and the conversions to number and string
      follow the language, including the [TypeError]s on [undefined] and
      [null].
    - A string is the byte sequence of its UTF-8 encoding.
    - An [async] function is a computation that returns its outcome and
      the list of remote calls it issued; the reply of the remote service
      to each call is a parameter ([world]), so a theorem about every
      [world] is about every behaviour of the services.
    - A query parameter is absent or a string, as the specification has
      it; parameters repeated or written with brackets, which the
      framework may parse to arrays or objects, are outside the model.
    - Reading a string as a number and printing a number are left to the
      runtime (section variables [StringToNumber] and [NumberToString]). *)

From Stdlib Require Import ZArith List String Ascii Bool Lia.
From Stdlib Require Import Floats.SpecFloat.
Import ListNotations.

Local Open Scope Z_scope.

(** ** Numbers: binary64 *)

Module Num.

(** A JavaScript number. *)
Definition number : Type := spec_float.

(** Smallest and largest exponent of a binary64 mantissa of 53 bits. *)
Definition emin : Z := -1074.
Definition etop : Z := 971.

(** [valid x]: [x] is a binary64 value in canonical form. *)
Definition valid (x : number) : bool := valid_binary 53 1024 x.

(** The number nearest to the integer [z]: what a numeric literal
    denotes.  It is the conversion of the standard library. *)
Definition of_Z (z : Z) : number := binary_normalize 53 1024 z 0 false.

(** [x / y] and [x - y] are the binary64 operations of the standard
    library ([SpecFloat], the reference implementation that specifies the
    hardware operations). *)
Definition fdiv (x y : number) : number := SFdiv 53 1024 x y.

Definition fsub (x y : number) : number := SFsub 53 1024 x y.

(** *** Rounding a fraction

    The binary64 value nearest to a positive rational, ties to even, by
    exact integer arithmetic.  It gives the meaning of a decimal literal,
    and the operations above are proved to round their exact result this
    way. *)

(** [pow2_le k a b] decides [2^k <= a / b] (for [0 < b]). *)
Definition pow2_le (k a b : Z) : bool :=
  if 0 <=? k then 2 ^ k * b <=? a else b <=? 2 ^ (- k) * a.

(** [ilog2 a b] is the integer part of the binary logarithm of [a / b]. *)
Definition ilog2 (a b : Z) : Z :=
  let k := Z.log2 a - Z.log2 b in
  if pow2_le k a b then k else k - 1.

(** [(a / b) / 2^e] as the fraction [scale_num a e / scale_den b e]. *)
Definition scale_num (a e : Z) : Z := if 0 <=? e then a else a * 2 ^ (- e).
Definition scale_den (b e : Z) : Z := if 0 <=? e then b * 2 ^ e else b.

(** The integer nearest to [n / d], ties to the even one. *)
Definition rne (n d : Z) : Z :=
  let q := n / d in
  let r := n mod d in
  if 2 * r <? d then q
  else if d <? 2 * r then q + 1
  else if Z.even q then q else q + 1.

(** [round_ratio neg a b]: the binary64 value nearest to the positive
    rational [a / b] (ties to even), with sign [neg]. *)
Definition round_ratio (neg : bool) (a b : Z) : number :=
  let e := Z.max emin (ilog2 a b - 52) in
  let m := rne (scale_num a e) (scale_den b e) in
  if m =? 0 then S754_zero neg
  else if m =? 2 ^ 53 then
    if etop <? e + 1 then S754_infinity neg
    else S754_finite neg (Z.to_pos (2 ^ 52)) (e + 1)
  else if etop <? e then S754_infinity neg
  else S754_finite neg (Z.to_pos m) e.

(** The rounding of the library keeps the integer part of a number and
    the place of the rest; these notions read that state.

    The place of the remainder [r] of a division by [d] in the unit
    interval: zero, below, at or above one half. *)
Definition classify (r d : Z) : location :=
  if r =? 0 then loc_Exact else loc_Inexact (2 * r ?= d).

(** [mrs] is the integer part of [n / d], with the place of the rest. *)
Definition locates (n d : Z) (mrs : shr_record) : Prop :=
  shr_m mrs = n / d /\ loc_of_shr_record mrs = classify (n mod d) d.

(** The exponent of a binary64 number of magnitude [2^k]. *)
Definition fexp64 (k : Z) : Z := Z.max (k - 53) emin.

(** The exact value [m * 2^e] of a finite number as the fraction
    [fnum m e / fden e]. *)
Definition fnum (m : positive) (e : Z) : Z :=
  if 0 <=? e then Zpos m * 2 ^ e else Zpos m.
Definition fden (e : Z) : Z := if 0 <=? e then 1 else 2 ^ (- e).

(** The signed numerator of a finite number over [fden e]. *)
Definition snum (s : bool) (m : positive) (e : Z) : Z :=
  if s then - fnum m e else fnum m e.

(** JavaScript truthiness of a number: [NaN], [0] and [-0] are falsy. *)
Definition truthy (x : number) : bool :=
  match x with
  | S754_nan | S754_zero _ => false
  | _ => true
  end.

(** [Number.isInteger]. *)
Definition is_integer (x : number) : bool :=
  match x with
  | S754_zero _ => true
  | S754_finite _ m e => (0 <=? e) || (Zpos m mod 2 ^ (- e) =? 0)
  | _ => false
  end.

(** The integer value of a number that [is_integer]. *)
Definition int_of (m : positive) (e : Z) : Z :=
  if 0 <=? e then Zpos m * 2 ^ e else Zpos m / 2 ^ (- e).

(** *** [Number(x.toFixed(2))]

    [toFixed(2)] of a finite [x] below [10^21] in magnitude is the decimal
    string of [n / 100], where [n] is the integer nearest to the exact
    value of [|x| * 100], the larger one on a tie; the string carries a
    minus sign exactly when [x < 0].  [Number] reads the string back as the
    binary64 value nearest to [n / 100].  For the other numbers [toFixed]
    gives [String(x)], which [Number] reads back as [x]. *)

(** What [x.toFixed(2)] denotes. *)
Inductive fixed2 : Type :=
| FxString (x : number)          (* [String(x)]: [NaN], infinities, [|x| >= 1e21] *)
| FxDecimal (neg : bool) (n : Z) (* sign, and the digits of [n / 100] *).

Definition toFixed2 (x : number) : fixed2 :=
  match x with
  | S754_zero _ => FxDecimal false 0
  | S754_finite s m e =>
      if 10 ^ 21 * fden e <=? fnum m e then FxString x
      else FxDecimal s ((2 * 100 * fnum m e + fden e) / (2 * fden e))
  | _ => FxString x
  end.

(** [Number(str)] for the strings [toFixed] produces. *)
Definition Number_of_fixed2 (f : fixed2) : number :=
  match f with
  | FxString x => x
  | FxDecimal neg n => if n =? 0 then S754_zero neg else round_ratio neg n 100
  end.

Definition round2 (x : number) : number := Number_of_fixed2 (toFixed2 x).

End Num.

Import Num.

Local Open Scope string_scope.

(** ** Values, exceptions, coercions *)

#[local] Set Warnings "-register-all".

(** A JavaScript value as [JSON.parse] and the source build them.  An
    object is the list of its own properties in order, each name once. *)
Inductive value : Type :=
| VUndefined
| VNull
| VBool (b : bool)
| VNumber (x : number)
| VString (s : string)
| VArray (items : list value)
| VObject (fields : list (string * value)).

(** What the source throws or the engine raises.  The messages of the
    engine's errors are those of V8. *)
Inductive exn : Type :=
| Error (message : string)
| TypeError (message : string)
| RangeError (message : string)
| FetchError (message : string).

(** [err.message]. *)
Definition message (e : exn) : string :=
  match e with
  | Error m | TypeError m | RangeError m | FetchError m => m
  end.

(** The outcome of an expression: a value, or an exception. *)
Inductive result (A : Type) : Type :=
| Ok (a : A)
| Throw (e : exn).
Arguments Ok {A} a.
Arguments Throw {A} e.

Definition bind {A B : Type} (r : result A) (k : A -> result B) : result B :=
  match r with
  | Ok a => k a
  | Throw e => Throw e
  end.

Notation "'let*' x ':=' r 'in' k" := (bind r (fun x => k))
  (at level 10, x name, r at level 100, k at level 200).

(** [fields[k]] of an object's own properties. *)
Fixpoint lookup (k : string) (fields : list (string * value)) : value :=
  match fields with
  | [] => VUndefined
  | (k', v) :: rest => if String.eqb k k' then v else lookup k rest
  end.

Fixpoint has_key (k : string) (fields : list (string * value)) : bool :=
  match fields with
  | [] => false
  | (k', _) :: rest => String.eqb k k' || has_key k rest
  end.

Definition nullish (v : value) : bool :=
  match v with
  | VUndefined | VNull => true
  | _ => false
  end.

Definition type_name (v : value) : string :=
  match v with
  | VNull => "null"
  | _ => "undefined"
  end.

(** [v.k] for the property names the source reads.  None of them names
    an inherited property, apart from [length] of arrays and strings. *)
Definition get (v : value) (k : string) : result value :=
  match v with
  | VUndefined | VNull =>
      Throw (TypeError ("Cannot read properties of " ++ type_name v
                          ++ " (reading '" ++ k ++ "')"))
  | VObject fields => Ok (lookup k fields)
  | VArray items =>
      Ok (if String.eqb k "length"
          then VNumber (of_Z (Z.of_nat (List.length items)))
          else VUndefined)
  | VString s =>
      Ok (if String.eqb k "length"
          then VNumber (of_Z (Z.of_nat (String.length s)))
          else VUndefined)
  | VBool _ | VNumber _ => Ok VUndefined
  end.

(** [v?.k]. *)
Definition get_opt (v : value) (k : string) : result value :=
  if nullish v then Ok VUndefined else get v k.

(** [v[0]].  Of a string it is the first character; the source only reads
    a property of it, which no string has. *)
Definition get_first (v : value) : result value :=
  match v with
  | VArray items => Ok (List.hd VUndefined items)
  | VString (String c _) => Ok (VString (String c EmptyString))
  | VObject fields => Ok (lookup "0" fields)
  | VUndefined | VNull =>
      Throw (TypeError ("Cannot read properties of " ++ type_name v
                          ++ " (reading '0')"))
  | _ => Ok VUndefined
  end.

(** [Boolean(v)]. *)
Definition truthy (v : value) : bool :=
  match v with
  | VUndefined | VNull => false
  | VBool b => b
  | VNumber x => Num.truthy x
  | VString s => negb (String.eqb s "")
  | VArray _ | VObject _ => true
  end.

(** [a || b]. *)
Definition or_else (a b : value) : value := if truthy a then a else b.

Definition num (z : Z) : value := VNumber (of_Z z).

(** [items.join(sep)], given the conversion of an element to a string. *)
Definition join_with (str : value -> result string) (sep : string)
  : list value -> result string :=
  fix go (items : list value) : result string :=
    match items with
    | [] => Ok ""
    | x :: rest =>
        let* s := (if nullish x then Ok "" else str x) in
        match rest with
        | [] => Ok s
        | _ => let* r := go rest in Ok (s ++ sep ++ r)
        end
    end.

(** ** Strings

    A string is the sequence of the bytes of its UTF-8 encoding. *)

Definition code (c : ascii) : Z := Z.of_N (N_of_ascii c).

(** [\d]: an ASCII digit. *)
Definition is_digit (c : ascii) : bool :=
  (48 <=? code c)%Z && (code c <=? 57)%Z.

(** [raw.replace(/\D/g, '')]. *)
Fixpoint strip_non_digits (s : string) : string :=
  match s with
  | EmptyString => EmptyString
  | String c rest =>
      if is_digit c then String c (strip_non_digits rest)
      else strip_non_digits rest
  end.

(** The integer a string of digits denotes, read from the left. *)
Fixpoint digits_value (acc : Z) (s : string) : Z :=
  match s with
  | EmptyString => acc
  | String c rest => digits_value (10 * acc + (code c - 48))%Z rest
  end.

(** [parseInt(s, 10)] for a string [s] of digits. *)
Definition parseInt10 (s : string) : number :=
  match s with
  | EmptyString => S754_nan
  | _ => of_Z (digits_value 0 s)
  end.

(** White space and line terminators of the language, by encoding:
    TAB, LF, VT, FF, CR, SP; U+00A0; U+1680, U+2000..U+200A, U+2028,
    U+2029, U+202F, U+205F, U+3000, U+FEFF. *)
Definition space1 (c : ascii) : bool :=
  ((9 <=? code c) && (code c <=? 13) || (code c =? 32))%Z.

Definition space2 (c1 c2 : ascii) : bool :=
  ((code c1 =? 194) && (code c2 =? 160))%Z.

Definition space3 (c1 c2 c3 : ascii) : bool :=
  let a := code c1 in
  let b := code c2 in
  let c := code c3 in
  ((a =? 225) && (b =? 154) && (c =? 128)
   || (a =? 226) && (b =? 128)
      && ((128 <=? c) && (c <=? 138) || (c =? 168) || (c =? 169) || (c =? 175))
   || (a =? 226) && (b =? 129) && (c =? 159)
   || (a =? 227) && (b =? 128) && (c =? 128)
   || (a =? 239) && (b =? 187) && (c =? 191))%Z.

(** [s.trimStart()]. *)
Fixpoint trim_start (s : string) : string :=
  match s with
  | EmptyString => EmptyString
  | String c1 t1 =>
      if space1 c1 then trim_start t1
      else
        match t1 with
        | EmptyString => s
        | String c2 t2 =>
            if space2 c1 c2 then trim_start t2
            else
              match t2 with
              | EmptyString => s
              | String c3 t3 =>
                  if space3 c1 c2 c3 then trim_start t3 else s
              end
        end
  end.

Definition is_blank (s : string) : bool :=
  match trim_start s with
  | EmptyString => true
  | _ => false
  end.

(** [s.trimEnd()]: cut where the rest is white space only. *)
Fixpoint trim_end (s : string) : string :=
  match s with
  | EmptyString => EmptyString
  | String c rest => if is_blank s then EmptyString else String c (trim_end rest)
  end.

(** [s.trim()]. *)
Definition trim (s : string) : string := trim_end (trim_start s).

(** ** Dates: [new Date(ms).toISOString()] *)

Module Date.

Local Open Scope Z_scope.

Definition msPerDay : Z := 86400000.

(** The time value of [new Date(x)]: [None] for an invalid date. *)
Definition time_value (x : number) : option Z :=
  match x with
  | S754_zero _ => Some 0
  | S754_finite s m e =>
      let t := if 0 <=? e then Zpos m * 2 ^ e else Zpos m / 2 ^ (- e) in
      if 8640000000000000 <? t then None
      else Some (if s then - t else t)
  | _ => None
  end.

Definition DayFromYear (y : Z) : Z :=
  365 * (y - 1970) + (y - 1969) / 4 - (y - 1901) / 100 + (y - 1601) / 400.

Definition leap (y : Z) : bool :=
  ((y mod 4 =? 0) && negb (y mod 100 =? 0)) || (y mod 400 =? 0).

(** The largest year that starts on or before day [d], searched downwards
    from [y]. *)
Fixpoint find_year (fuel : nat) (y d : Z) : Z :=
  match fuel with
  | O => y
  | S fuel' => if DayFromYear y <=? d then y else find_year fuel' (y - 1) d
  end.

Definition YearFromDay (d : Z) : Z :=
  find_year 1000 (1970 + (if 0 <=? d then d / 365 else d / 366) + 1) d.

(** Month (from 0) and day of the month (from 1) of the day [n] of a year. *)
Definition month_and_date (n : Z) (lp : bool) : Z * Z :=
  let l := if lp then 1 else 0 in
  if n <? 31 then (0, n + 1)
  else if n <? 59 + l then (1, n - 30)
  else if n <? 90 + l then (2, n - 58 - l)
  else if n <? 120 + l then (3, n - 89 - l)
  else if n <? 151 + l then (4, n - 119 - l)
  else if n <? 181 + l then (5, n - 150 - l)
  else if n <? 212 + l then (6, n - 180 - l)
  else if n <? 243 + l then (7, n - 211 - l)
  else if n <? 273 + l then (8, n - 242 - l)
  else if n <? 304 + l then (9, n - 272 - l)
  else if n <? 334 + l then (10, n - 303 - l)
  else (11, n - 333 - l).

Definition digit (n : Z) : ascii := ascii_of_N (Z.to_N (48 + n mod 10)).

(** The last [width] decimal digits of [n]. *)
Fixpoint pad (width : nat) (n : Z) : string :=
  match width with
  | O => EmptyString
  | S w => (pad w (n / 10)%Z ++ String (digit n) EmptyString)%string
  end.

Definition year_string (y : Z) : string :=
  if (0 <=? y) && (y <=? 9999) then pad 4 y
  else ((if (y <? 0)%Z then "-" else "+") ++ pad 6 (Z.abs y))%string.

(** The ISO-8601 text of the time value [t]. *)
Definition iso_string (t : Z) : string :=
  let day := t / msPerDay in
  let ms := t mod msPerDay in
  let y := YearFromDay day in
  let (mo, dt) := month_and_date (day - DayFromYear y) (leap y) in
  (year_string y ++ "-" ++ pad 2 (mo + 1)%Z ++ "-" ++ pad 2 dt ++ "T"
   ++ pad 2 (ms / 3600000)%Z ++ ":" ++ pad 2 (ms / 60000 mod 60)%Z ++ ":"
   ++ pad 2 (ms / 1000 mod 60)%Z ++ "." ++ pad 3 (ms mod 1000)%Z ++ "Z")%string.

(** [MakeDate(MakeDay(y, mo - 1, dt), MakeTime(h, mi, s, ms))]: the time
    value of a calendar date and time of day, [mo] counted from 1. *)
Definition days_before_month (mo : Z) (lp : bool) : Z :=
  let l := if lp then 1 else 0 in
  match mo with
  | 1 => 0 | 2 => 31 | 3 => 59 + l | 4 => 90 + l | 5 => 120 + l
  | 6 => 151 + l | 7 => 181 + l | 8 => 212 + l | 9 => 243 + l
  | 10 => 273 + l | 11 => 304 + l | _ => 334 + l
  end.

Definition utc (y mo dt h mi s ms : Z) : Z :=
  (DayFromYear y + days_before_month mo (leap y) + (dt - 1)) * msPerDay
  + h * 3600000 + mi * 60000 + s * 1000 + ms.

(** [new Date(x).toISOString()]. *)
Definition toISOString (x : number) : result string :=
  match time_value x with
  | Some t => Ok (iso_string t)
  | None => Throw (RangeError "Invalid time value")
  end.

End Date.

(** ** [parseDate]

    <<
    function parseDate(raw) {
      const ms = parseInt(raw.replace(/\D/g, ''), 10);
      return new Date(ms).toISOString();
    }
    >> *)
Definition parseDate (raw : value) : result string :=
  match raw with
  | VString s => Date.toISOString (parseInt10 (strip_non_digits s))
  | VUndefined | VNull =>
      Throw (TypeError ("Cannot read properties of " ++ type_name raw
                          ++ " (reading 'replace')"))
  | _ => Throw (TypeError "raw.replace is not a function")
  end.

Section Runtime.

(** Two conversions of the language are left to the runtime:
    [StringToNumber] reads a string as a number ([Number("12")]) and
    [NumberToString] prints a number ([String(12)]). *)
Variable StringToNumber : string -> number.
Variable NumberToString : number -> string.

(** [String(v)].  An object of parsed JSON has no callable property, so
    one with an own [toString] cannot be converted. *)
Fixpoint to_string (v : value) : result string :=
  match v with
  | VUndefined => Ok "undefined"
  | VNull => Ok "null"
  | VBool true => Ok "true"
  | VBool false => Ok "false"
  | VNumber x => Ok (NumberToString x)
  | VString s => Ok s
  | VArray items => join_with to_string "," items
  | VObject fields =>
      if has_key "toString" fields
      then Throw (TypeError "Cannot convert object to primitive value")
      else Ok "[object Object]"
  end.

(** [Number(v)], also the conversion of the operands of [/] and [-]. *)
Definition to_number (v : value) : result number :=
  match v with
  | VUndefined => Ok S754_nan
  | VNull => Ok (S754_zero false)
  | VBool b => Ok (of_Z (if b then 1 else 0))
  | VNumber x => Ok x
  | VString s => Ok (StringToNumber s)
  | VArray _ | VObject _ => let* s := to_string v in Ok (StringToNumber s)
  end.

(** [items.join(sep)]. *)
Definition join (sep : string) (items : list value) : result string :=
  join_with to_string sep items.

(** ** Remote calls

    A call is recorded with the body the source passes to
    [JSON.stringify]; the reply is what the remote service does. *)
Inductive request : Type :=
| POST (url : string) (body : value)
| GET (url : string).

Inductive reply : Type :=
| Rejected (e : exn)
    (* [fetch] rejects *)
| Response (status : Z) (statusText : string)
           (text : result string) (json : result value)
    (* [res.status], [res.statusText], [await res.text()], [await res.json()] *).

(** [res.ok]. *)
Definition ok (status : Z) : bool := ((200 <=? status) && (status <=? 299))%Z.

(** An asynchronous computation: its outcome and the calls it issued. *)
Definition M (A : Type) : Type := (result A * list request)%type.

Definition ret {A : Type} (a : A) : M A := (Ok a, []).

Definition lift {A : Type} (r : result A) : M A := (r, []).

Definition bindM {A B : Type} (m : M A) (k : A -> M B) : M B :=
  match m with
  | (Ok a, calls) => let (r, calls') := k a in (r, (calls ++ calls')%list)
  | (Throw e, calls) => (Throw e, calls)
  end.

Notation "'do*' x ':=' m 'in' k" := (bindM m (fun x => k))
  (at level 10, x name, m at level 100, k at level 200).

(** [Promise.all([a, b])]: both computations start, [a] first; the first
    rejection in time wins, and [b_first] tells which one that is when
    both reject. *)
Definition promise_all2 {A B : Type} (b_first : bool) (a : M A) (b : M B)
  : M (A * B) :=
  let (ra, ca) := a in
  let (rb, cb) := b in
  (match ra, rb with
   | Ok x, Ok y => Ok (x, y)
   | Throw e, Ok _ => Throw e
   | Ok _, Throw e => Throw e
   | Throw ea, Throw eb => Throw (if b_first then eb else ea)
   end, (ca ++ cb)%list).

(** <<
    async function postJSON(url, body, extraHeaders = {}) {
      const res = await fetch(url, { method: 'POST', headers: ..., body: JSON.stringify(body) });
      if (!res.ok) {
        const txt = await res.text();
        throw new Error(`POST ${url} → ${res.status} ${res.statusText}: ${txt}`);
      }
      return res.json();
    }
    >> *)
Definition postJSON (r : reply) (url : string) (body : value) : M value :=
  (match r with
   | Rejected e => Throw e
   | Response status statusText text json =>
       if ok status then json
       else
         let* txt := text in
         Throw (Error ("POST " ++ url ++ " → " ++ NumberToString (of_Z status)
                         ++ " " ++ statusText ++ ": " ++ txt))
   end, [POST url body]).

Definition appID : string := "{A6AB5B3E-8A7E-4E84-9DC8-801561CE886F}".
Definition userDesc : string :=
  "294|34|Google sdk_gphone64_x86_64|^|546338e6-5fa8-8c06-0000-0196a7501a71|en|US|440|1080|2154|2.13.3".

Definition station_url : string :=
  "https://ipws.cdis.cz/IP.svc/SearchGlobalListItemInfoExt".
Definition session_url : string := "https://ipws.cdis.cz/IP.svc/CreateSession".
Definition journey_url : string :=
  "https://ipws.cdis.cz/IP.svc/SearchConnectionInfo1".
Definition price_url : string :=
  "https://ipws.cdis.cz/IP.svc/GetConnectionsPrice".
Definition rate_url : string :=
  "https://api.frankfurter.dev/v1/latest?symbols=CZK".

(** [{ id, name }] of a station. *)
Record station : Type := { id : value; name : value }.

(** <<
    async function searchStation(mask) {
      const body = { iLang: 1, sMask: mask, iMaxCount: 5, sAppID: ..., sUserDesc: ... };
      const json = await postJSON('.../SearchGlobalListItemInfoExt', body);
      const item = (json.d || [])[0]?.oItem;
      if (!item) throw new Error(`Station not found: ${mask}`);
      return { id: item.iListID, name: item.sName };
    }
    >> *)
Definition searchStation (r : reply) (mask : value) : M station :=
  let body :=
    VObject [("iLang", num 1); ("sMask", mask); ("iMaxCount", num 5);
             ("sAppID", VString appID); ("sUserDesc", VString userDesc)] in
  do* json := postJSON r station_url body in
  lift (let* d := get json "d" in
        let* first := get_first (or_else d (VArray [])) in
        let* item := get_opt first "oItem" in
        if truthy item then
          let* i := get item "iListID" in
          let* n := get item "sName" in
          Ok {| id := i; name := n |}
        else
          let* m := to_string mask in
          Throw (Error ("Station not found: " ++ m))).

(** <<
    async function createSession() {
      const body = { iLang: 1, sAppID: ..., sUserDesc: ..., sUser: '', sPwd: '',
                     iTokenType: 1, oRegisterNotificationsSettings: { ... } };
      const json = await postJSON('.../CreateSession', body);
      return json.d?.sSessionID;
    }
    >> *)
Definition createSession (r : reply) : M value :=
  let body :=
    VObject [("iLang", num 1); ("sAppID", VString appID);
             ("sUserDesc", VString userDesc); ("sUser", VString "");
             ("sPwd", VString ""); ("iTokenType", num 1);
             ("oRegisterNotificationsSettings",
              VObject [("iNotificationMask", num 2047);
                       ("iInitialAdvance", num 30); ("iDelayLimit", num 5);
                       ("iChangeAdvance", num 5); ("iGetOffAdvance", num 5)])] in
  do* json := postJSON r session_url body in
  lift (let* d := get json "d" in get_opt d "sSessionID").

(** [aoPassengers: [{ oPassenger: { iPassengerId: 5 }, iCount: 1, iAge: age }]] *)
Definition passengers (age : number) : value :=
  VArray [VObject [("oPassenger", VObject [("iPassengerId", num 5)]);
                   ("iCount", num 1); ("iAge", VNumber age)]].

(** <<
    async function searchJourneys(sessionID, from, to, depMs, travelClass, age) {
      const body = { iLang: 1, sSessionID: sessionID,
        oFrom: { iListID: from.id, sName: from.name },
        oTo:   { iListID: to.id,   sName: to.name   },
        aoVia: [], aoChange: [], dtDateTime: `/Date(${depMs})/`, bIsDep: true,
        oConnParms: { iSearchConnectionFlags: 0, iCarrier: 2 },
        iMaxObjectsCount: 0, iMaxCount: 8,
        oPriceRequestClass: { iClass: travelClass, bBusiness: false },
        aoPassengers: [{ oPassenger: { iPassengerId: 5 }, iCount: 1, iAge: age }] };
      const json = await postJSON('.../SearchConnectionInfo1', body);
      const d = json.d;
      if (!d) throw new Error('Malformed journey response');
      return { handle: d.iHandle, connections: d.oConnInfo?.aoConnections || [] };
    }
    >> *)
Definition searchJourneys (r : reply) (sessionID : value) (from to : station)
  (depMs travelClass age : number) : M (value * value) :=
  let body :=
    VObject [("iLang", num 1); ("sSessionID", sessionID);
             ("oFrom", VObject [("iListID", id from); ("sName", name from)]);
             ("oTo", VObject [("iListID", id to); ("sName", name to)]);
             ("aoVia", VArray []); ("aoChange", VArray []);
             ("dtDateTime", VString ("/Date(" ++ NumberToString depMs ++ ")/"));
             ("bIsDep", VBool true);
             ("oConnParms", VObject [("iSearchConnectionFlags", num 0);
                                     ("iCarrier", num 2)]);
             ("iMaxObjectsCount", num 0); ("iMaxCount", num 8);
             ("oPriceRequestClass", VObject [("iClass", VNumber travelClass);
                                             ("bBusiness", VBool false)]);
             ("aoPassengers", passengers age)] in
  do* json := postJSON r journey_url body in
  lift (let* d := get json "d" in
        if truthy d then
          let* handle := get d "iHandle" in
          let* info := get d "oConnInfo" in
          let* conns := get_opt info "aoConnections" in
          Ok (handle, or_else conns (VArray []))
        else Throw (Error "Malformed journey response")).

(** [items.map(f)] for a callback that may throw; [f] gets the index. *)
Fixpoint map_from {A : Type} (f : nat -> value -> result A) (i : nat)
  (items : list value) : result (list A) :=
  match items with
  | [] => Ok []
  | x :: rest =>
      let* y := f i x in
      let* ys := map_from f (S i) rest in
      Ok (y :: ys)
  end.

(** [v.map(f)], where [what] is the text of the expression [v]. *)
Definition array_map {A : Type} (what : string)
  (f : nat -> value -> result A) (v : value) : result (list A) :=
  match v with
  | VArray items => map_from f 0 items
  | VUndefined | VNull =>
      Throw (TypeError ("Cannot read properties of " ++ type_name v
                          ++ " (reading 'map')"))
  | _ => Throw (TypeError (what ++ ".map is not a function"))
  end.

(** [{ czk, eur }] of a connection. *)
Record price : Type := { czk : number; eur : number }.

(** The callback of [list.map] in [getPrices]:
    <<
    item => {
      // cents of CZK → CZK → EUR
      const czk = (item.iPrice || 0) / 100.0;
      const eur = czk / czkRate;
      return { czk: Number(czk.toFixed(2)), eur: Number(eur.toFixed(2)) };
    }
    >> *)
Definition price_of_item (czkRate : value) (item : value) : result price :=
  let* p := get item "iPrice" in
  let* x := to_number (or_else p (num 0)) in
  let c := fdiv x (of_Z 100) in
  let* r := to_number czkRate in
  let e := fdiv c r in
  Ok {| czk := round2 c; eur := round2 e |}.

(** <<
    async function getPrices(sessionID, handle, connIDs, travelClass, age, czkRate) {
      const body = { iLang: 1, sSessionID: sessionID, iHandle: handle, aiConnID: connIDs,
        oPriceRequest: {
          aoPassengers: [{ oPassenger: { iPassengerId: 5 }, iCount: 1, iAge: age }],
          iConnHandleThere: 0, iConnIDThere: 0,
          oClass: { iClass: travelClass, bBusiness: false }, iDocType: 1 },
        bStopIfAgeError: true };
      const json = await postJSON('.../GetConnectionsPrice', body);
      const list = json.d || [];
      return list.map(item => ...);
    }
    >> *)
Definition getPrices (r : reply) (sessionID handle : value)
  (connIDs : list value) (travelClass age : number) (czkRate : value)
  : M (list price) :=
  let body :=
    VObject [("iLang", num 1); ("sSessionID", sessionID); ("iHandle", handle);
             ("aiConnID", VArray connIDs);
             ("oPriceRequest",
              VObject [("aoPassengers", passengers age);
                       ("iConnHandleThere", num 0); ("iConnIDThere", num 0);
                       ("oClass", VObject [("iClass", VNumber travelClass);
                                           ("bBusiness", VBool false)]);
                       ("iDocType", num 1)]);
             ("bStopIfAgeError", VBool true)] in
  do* json := postJSON r price_url body in
  lift (let* d := get json "d" in
        array_map "list" (fun _ item => price_of_item czkRate item)
                  (or_else d (VArray []))).

(** <<
    async function fetchCzkRate() {
      const res = await fetch('https://api.frankfurter.dev/v1/latest?symbols=CZK');
      const json = await res.json();
      return json.rates?.CZK || 1;
    }
    >> *)
Definition fetchCzkRate (r : reply) : M value :=
  (match r with
   | Rejected e => Throw e
   | Response _ _ _ json =>
       let* j := json in
       let* rates := get j "rates" in
       let* c := get_opt rates "CZK" in
       Ok (or_else c (num 1))
   end, [GET rate_url]).

(** ** The handler of [GET /connections] *)

(** [req.query]: each parameter is absent or a string. *)
Record query : Type :=
  { q_from : option string;
    q_to : option string;
    q_dep : option string;
    q_age : option string;
    q_class : option string }.

Definition param (p : option string) : value :=
  match p with
  | Some s => VString s
  | None => VUndefined
  end.

(** What the remote services answer to the calls of one request, in the
    order of the calls, and which station lookup settles first. *)
Record world : Type :=
  { station_from_reply : reply;
    station_to_reply : reply;
    session_reply : reply;
    journey_reply : reply;
    rate_reply : reply;
    price_reply : reply;
    to_settles_first : bool }.

(** [res.status(s).json(b)]; [res.json(b)] has status 200. *)
Record response : Type := { status : Z; body : value }.

(** [lineName]:
    <<
    [leg.sType, leg.sNum1, leg.sNum2, leg.sNum3].filter(Boolean).join(' ').trim()
    >> *)
Definition lineName (tokens : list value) : result string :=
  let* s := join " " (List.filter truthy tokens) in
  Ok (trim s).

(** The callback of [c.aoTrains.map]:
    <<
    leg => ({
      depTime: parseDate(leg.dtDateTime1),
      arrTime: parseDate(leg.dtDateTime2),
      depName: leg.sStationName1,
      destName: leg.sStationName2,
      lineName: [leg.sType, leg.sNum1, leg.sNum2, leg.sNum3].filter(Boolean).join(' ').trim(),
    })
    >> *)
Definition leg_record (leg : value) : result value :=
  let* dt1 := get leg "dtDateTime1" in
  let* depTime := parseDate dt1 in
  let* dt2 := get leg "dtDateTime2" in
  let* arrTime := parseDate dt2 in
  let* depName := get leg "sStationName1" in
  let* destName := get leg "sStationName2" in
  let* sType := get leg "sType" in
  let* sNum1 := get leg "sNum1" in
  let* sNum2 := get leg "sNum2" in
  let* sNum3 := get leg "sNum3" in
  let* line := lineName [sType; sNum1; sNum2; sNum3] in
  Ok (VObject [("depTime", VString depTime); ("arrTime", VString arrTime);
               ("depName", depName); ("destName", destName);
               ("lineName", VString line)]).

(** The callback of [connections.map] in the handler:
    <<
    (c, i) => ({
      id: c.iID,
      priceCzk: prices[i].czk,
      priceEur: prices[i].eur,
      transfers: c.aoTrains.length - 1,
      legs: c.aoTrains.map(leg => ...),
    })
    >> *)
Definition connection_record (prices : list price) (i : nat) (c : value)
  : result value :=
  let* cid := get c "iID" in
  let* p :=
    match nth_error prices i with
    | Some p => Ok p
    | None =>
        Throw (TypeError "Cannot read properties of undefined (reading 'czk')")
    end in
  let* trains := get c "aoTrains" in
  let* len := get trains "length" in
  let* n := to_number len in
  let* legs := array_map "c.aoTrains" (fun _ leg => leg_record leg) trains in
  Ok (VObject [("id", cid); ("priceCzk", VNumber (czk p));
               ("priceEur", VNumber (eur p));
               ("transfers", VNumber (fsub n (of_Z 1)));
               ("legs", VArray legs)]).

(** Step 6, [connections.map((c, i) => ...)]. *)
Definition assemble (connections : value) (prices : list price)
  : result (list value) :=
  array_map "connections" (connection_record prices) connections.

(** What steps 1 to 5 hand to the assembly. *)
Record fetched : Type :=
  { f_connections : value;
    f_connIDs : list value;
    f_rate : value;
    f_prices : list price }.

(** Steps 1 to 5 of the handler, after the check of the parameters:
    <<
    const [fromSt, toSt] = await Promise.all([searchStation(from), searchStation(to)]);
    const sessionID = await createSession();
    const { handle, connections } = await searchJourneys(
      sessionID, fromSt, toSt, Number(dep), cls, Number(age || -1));
    const czkRate = await fetchCzkRate();
    const connIDs = connections.map(c => c.iID);
    const prices = await getPrices(sessionID, handle, connIDs, cls, Number(age || -1), czkRate);
    >> *)
Definition fetch_all (w : world) (q : query) (cls : number) : M fetched :=
  do* stations :=
    promise_all2 (to_settles_first w)
      (searchStation (station_from_reply w) (param (q_from q)))
      (searchStation (station_to_reply w) (param (q_to q))) in
  do* sessionID := createSession (session_reply w) in
  do* depMs := lift (to_number (param (q_dep q))) in
  do* age := lift (to_number (or_else (param (q_age q)) (num (-1)))) in
  do* found :=
    searchJourneys (journey_reply w) sessionID (fst stations) (snd stations)
                   depMs cls age in
  do* czkRate := fetchCzkRate (rate_reply w) in
  do* connIDs :=
    lift (array_map "connections" (fun _ c => get c "iID") (snd found)) in
  do* age' := lift (to_number (or_else (param (q_age q)) (num (-1)))) in
  do* prices :=
    getPrices (price_reply w) sessionID (fst found) connIDs cls age' czkRate in
  ret {| f_connections := snd found; f_connIDs := connIDs;
         f_rate := czkRate; f_prices := prices |}.

(** [!from || !to || !dep]. *)
Definition missing (q : query) : bool :=
  negb (truthy (param (q_from q))) || negb (truthy (param (q_to q)))
  || negb (truthy (param (q_dep q))).

(** [Number(req.query['class'] || 2)]. *)
Definition travel_class (q : query) : result number :=
  to_number (or_else (param (q_class q)) (num 2)).

(** The body of the [try] block. *)
Definition try_block (w : world) (q : query) : M response :=
  do* cls := lift (travel_class q) in
  if missing q then
    ret {| status := 400;
           body := VObject [("error", VString "Missing from, to, or dep")] |}
  else
    do* f := fetch_all w q cls in
    do* out := lift (assemble (f_connections f) (f_prices f)) in
    ret {| status := 200; body := VArray out |}.

(** <<
    app.get('/connections', async (req, res) => {
      try { ... res.json(out); }
      catch (err) { console.error(err); res.status(500).json({ error: err.message }); }
    });
    >>
    The response, and the remote calls issued on the way. *)
Definition connections_handler (w : world) (q : query)
  : response * list request :=
  let (r, calls) := try_block w q in
  (match r with
   | Ok resp => resp
   | Throw e =>
       {| status := 500; body := VObject [("error", VString (message e))] |}
   end, calls).

End Runtime.

(** ** Notions of the specification *)

(** A line-label token as the remote service sends it: a string, or
    nothing ([null], or the field is absent). *)
Definition is_token (v : value) : bool :=
  match v with
  | VString _ | VNull | VUndefined => true
  | _ => false
  end.

(** The tokens that are present and not empty. *)
Fixpoint present_tokens (tokens : list value) : list string :=
  match tokens with
  | [] => []
  | VString s :: rest =>
      if String.eqb s "" then present_tokens rest else s :: present_tokens rest
  | _ :: rest => present_tokens rest
  end.


(** The body of the rate service names no [CZK] rate. *)
Definition no_czk_field (json : value) : bool :=
  match json with
  | VObject fields =>
      match lookup "rates" fields with
      | VObject rates => negb (has_key "CZK" rates)
      | _ => true
      end
  | _ => true
  end.

(** ** A runtime and a world to run the model on

    The two conversions on the strings and numbers of the examples:
    strings of decimal digits, and integers. *)
Module Sample.

Definition StringToNumber (s : string) : number :=
  if String.eqb (strip_non_digits s) s then parseInt10 s else S754_nan.

Fixpoint digits_of (fuel : nat) (n : Z) : string :=
  match fuel with
  | O => ""
  | S fuel' =>
      if (n <? 10)%Z then String (Date.digit n) ""
      else digits_of fuel' (n / 10)%Z ++ String (Date.digit n) ""
  end.

Definition NumberToString (x : number) : string :=
  match x with
  | S754_zero _ => "0"
  | S754_finite s m e =>
      if is_integer x
      then (if s then "-" else "") ++ digits_of 400 (int_of m e)
      else "NaN"
  | S754_infinity s => if s then "-Infinity" else "Infinity"
  | S754_nan => "NaN"
  end.

Definition reply_of (json : value) : reply := Response 200 "OK" (Ok "") (Ok json).

Definition leg_fields (from to : string) (t1 t2 : string)
  (tokens : list value) : list (string * value) :=
  [("dtDateTime1", VString t1); ("dtDateTime2", VString t2);
   ("sStationName1", VString from); ("sStationName2", VString to);
   ("sType", List.nth 0 tokens VUndefined);
   ("sNum1", List.nth 1 tokens VUndefined);
   ("sNum2", List.nth 2 tokens VUndefined);
   ("sNum3", List.nth 3 tokens VUndefined)].

Definition leg (from to : string) (t1 t2 : string) (tokens : list value) : value :=
  VObject (leg_fields from to t1 t2 tokens).

Definition ec_123 : list (string * value) :=
  leg_fields "Praha hl.n." "Brno hl.n."
             "/Date(1700000000000)/" "/Date(1700009000000)/"
             [VString "EC"; VString "123"; VString ""; VNull].

Definition direct : value :=
  VObject [("iID", num 11); ("aoTrains", VArray [VObject ec_123])].

Definition two_legs : list value :=
  [leg "Praha hl.n." "Pardubice hl.n."
       "/Date(1700003600000)/" "/Date(1700007200000)/"
       [VString "R"; VString "871"; VNull; VNull];
   leg "Pardubice hl.n." "Brno hl.n."
       "/Date(1700008000000)/" "/Date(1700014000000)/"
       [VString "Os"; VString "4710"; VNull; VNull]].

Definition one_change : value :=
  VObject [("iID", num 12); ("aoTrains", VArray two_legs)].

Definition station_reply (i : Z) (n : string) : reply :=
  reply_of (VObject [("d", VArray [VObject [("oItem",
     VObject [("iListID", num i); ("sName", VString n)])]])]).

(** Two connections, prices of 219.00 and 185.50 CZK, 25 CZK to the euro. *)
Definition services : world :=
  {| station_from_reply := station_reply 5457076 "Praha hl.n.";
     station_to_reply := station_reply 5433426 "Brno hl.n.";
     session_reply := reply_of (VObject [("d", VObject [("sSessionID", VString "S1")])]);
     journey_reply :=
       reply_of (VObject [("d", VObject [("iHandle", num 77);
                   ("oConnInfo", VObject [("aoConnections",
                                           VArray [direct; one_change])])])]);
     rate_reply := reply_of (VObject [("rates", VObject [("CZK", num 25)])]);
     price_reply :=
       reply_of (VObject [("d", VArray [VObject [("iPrice", num 21900)];
                                        VObject [("iPrice", num 18550)]])]);
     to_settles_first := false |}.

Definition praha_brno : query :=
  {| q_from := Some "Praha"; q_to := Some "Brno";
     q_dep := Some "1700000000000"; q_age := Some "25"; q_class := Some "2" |}.

Definition handler := connections_handler StringToNumber NumberToString.

(** Steps 1 to 5 on the sample request. *)
Definition run : M fetched :=
  fetch_all StringToNumber NumberToString services praha_brno (of_Z 2).

Definition no_fetched : fetched :=
  {| f_connections := VUndefined; f_connIDs := []; f_rate := VUndefined;
     f_prices := [] |}.

Definition fetched_of (m : M fetched) : fetched :=
  match fst m with
  | Ok f => f
  | Throw _ => no_fetched
  end.

(** The same services, but the price service answers with one price for
    the two connections. *)
Definition short_world : world :=
  {| station_from_reply := station_from_reply services;
     station_to_reply := station_to_reply services;
     session_reply := session_reply services;
     journey_reply := journey_reply services;
     rate_reply := rate_reply services;
     price_reply := reply_of (VObject [("d", VArray [VObject [("iPrice", num 21900)]])]);
     to_settles_first := false |}.

Definition short_run : M fetched :=
  fetch_all StringToNumber NumberToString short_world praha_brno (of_Z 2).

(** The same services, but the rate service names no rate. *)
Definition no_rate_world : world :=
  {| station_from_reply := station_from_reply services;
     station_to_reply := station_to_reply services;
     session_reply := session_reply services;
     journey_reply := journey_reply services;
     rate_reply := reply_of (VObject [("rates", VObject [])]);
     price_reply := price_reply services;
     to_settles_first := false |}.

(** A request whose [from] is present and empty. *)
Definition empty_from : query :=
  {| q_from := Some ""; q_to := Some "Brno"; q_dep := Some "1700000000000";
     q_age := None; q_class := None |}.

End Sample.

(** ** Further notions

    Notions used to state what the handler and its helpers do beyond the
    properties of the specification. *)

(** The address a call goes to. *)
Definition request_url (r : request) : string :=
  match r with
  | POST url _ | GET url => url
  end.

(** The addresses of the calls of one request, in the order of the source:
    two station lookups, the session, the journey search, the rate, the
    prices. *)
Definition call_sequence : list string :=
  [station_url; station_url; session_url; journey_url; rate_url; price_url].

(** The decimal digits of a non-negative integer. *)
Definition decimal (n : Z) : string :=
  Sample.digits_of (S (Z.to_nat (Z.log2 n))) n.

(** The largest time value of a date, [8.64e15] ms. *)
Definition max_time : Z := 8640000000000000.

(** A time stamp [parseDate] can read: a string with at least one digit
    whose digits denote at most [max_time]. *)
Definition time_stamp (v : value) : bool :=
  match v with
  | VString s =>
      negb (String.eqb (strip_non_digits s) "")
      && (digits_value 0 (strip_non_digits s) <=? max_time)%Z
  | _ => false
  end.

(** A leg as the journey search sends it: an object with two readable
    time stamps and line tokens that are strings or nothing. *)
Definition plain_leg (leg : value) : bool :=
  match leg with
  | VObject fields =>
      time_stamp (lookup "dtDateTime1" fields)
      && time_stamp (lookup "dtDateTime2" fields)
      && forallb is_token [lookup "sType" fields; lookup "sNum1" fields;
                           lookup "sNum2" fields; lookup "sNum3" fields]
  | _ => false
  end.

(** A connection as the journey search sends it: an object whose
    [aoTrains] is an array of such legs. *)
Definition plain_connection (c : value) : bool :=
  match c with
  | VObject fields =>
      match lookup "aoTrains" fields with
      | VArray legs => forallb plain_leg legs
      | _ => false
      end
  | _ => false
  end.

(** The days of the month [mo], counted from 1. *)
Definition month_length (mo : Z) (lp : bool) : Z :=
  match mo with
  | 2 => if lp then 29 else 28
  | 4 | 6 | 9 | 11 => 30
  | _ => 31
  end%Z.

(** ** Services that fail

    The sample services with one reply replaced. *)
Module Cases.

Definition with_station_from (w : world) (r : reply) : world :=
  {| station_from_reply := r;
     station_to_reply := station_to_reply w;
     session_reply := session_reply w;
     journey_reply := journey_reply w;
     rate_reply := rate_reply w;
     price_reply := price_reply w;
     to_settles_first := to_settles_first w |}.

Definition with_station_to (w : world) (r : reply) : world :=
  {| station_from_reply := station_from_reply w;
     station_to_reply := r;
     session_reply := session_reply w;
     journey_reply := journey_reply w;
     rate_reply := rate_reply w;
     price_reply := price_reply w;
     to_settles_first := to_settles_first w |}.

Definition with_session (w : world) (r : reply) : world :=
  {| station_from_reply := station_from_reply w;
     station_to_reply := station_to_reply w;
     session_reply := r;
     journey_reply := journey_reply w;
     rate_reply := rate_reply w;
     price_reply := price_reply w;
     to_settles_first := to_settles_first w |}.

Definition with_journey (w : world) (r : reply) : world :=
  {| station_from_reply := station_from_reply w;
     station_to_reply := station_to_reply w;
     session_reply := session_reply w;
     journey_reply := r;
     rate_reply := rate_reply w;
     price_reply := price_reply w;
     to_settles_first := to_settles_first w |}.

Definition with_rate (w : world) (r : reply) : world :=
  {| station_from_reply := station_from_reply w;
     station_to_reply := station_to_reply w;
     session_reply := session_reply w;
     journey_reply := journey_reply w;
     rate_reply := r;
     price_reply := price_reply w;
     to_settles_first := to_settles_first w |}.

Definition with_price (w : world) (r : reply) : world :=
  {| station_from_reply := station_from_reply w;
     station_to_reply := station_to_reply w;
     session_reply := session_reply w;
     journey_reply := journey_reply w;
     rate_reply := rate_reply w;
     price_reply := r;
     to_settles_first := to_settles_first w |}.

(** A service that is down: status 503, and a body that is not JSON. *)
Definition unavailable : reply :=
  Response 503 "Service Unavailable" (Ok "try later")
           (Throw (FetchError "invalid json response body")).

(** A reply that names no station. *)
Definition nowhere : reply := Sample.reply_of (VObject [("d", VArray [])]).

(** The lookup of [from] is down and that of [to] finds nothing. *)
Definition stations_down : world :=
  with_station_to (with_station_from Sample.services unavailable) nowhere.

Definition session_down : world := with_session Sample.services unavailable.


(** The request to the rate service is rejected. *)
Definition timeout : exn := FetchError "network timeout".
Definition rate_down : world := with_rate Sample.services (Rejected timeout).

Definition price_down : world := with_price Sample.services unavailable.

(** The journey search finds no connection, and the price service has no
    price. *)
Definition no_journeys : world :=
  with_price
    (with_journey Sample.services
       (Sample.reply_of (VObject [("d", VObject [("iHandle", num 78)])])))
    (Sample.reply_of (VObject [("d", VArray [])])).

(** A leg whose departure is not a time stamp, and a journey search that
    sends it in its second connection. *)
Definition undated : list (string * value) :=
  Sample.leg_fields "Praha hl.n." "Brno hl.n." "soon" "/Date(1700009000000)/"
                    [VString "EC"; VString "123"].

Definition late : list (string * value) :=
  [("iID", num 13); ("aoTrains", VArray [VObject undated])].

Definition undated_journey : world :=
  with_journey Sample.services
    (Sample.reply_of
       (VObject [("d", VObject [("iHandle", num 77);
                   ("oConnInfo",
                    VObject [("aoConnections",
                              VArray [Sample.direct; VObject late])])])])).

(** A connection without legs. *)
Definition stay : value := VObject [("iID", num 14); ("aoTrains", VArray [])].

(** The sample request without an age and with an empty class. *)
Definition bare : query :=
  {| q_from := Some "Praha"; q_to := Some "Brno"; q_dep := Some "1700000000000";
     q_age := None; q_class := Some "" |}.

(** Steps 1 to 5 of the sample request on given services. *)
Definition run (w : world) : M fetched :=
  fetch_all Sample.StringToNumber Sample.NumberToString w Sample.praha_brno (of_Z 2).

(** The journey request among the calls of a run. *)
Definition search_of (calls : list request) : list (string * value) :=
  match nth_error calls 3 with
  | Some (POST _ (VObject body)) => body
  | _ => []
  end.

(** The records of a response. *)
Definition records (r : response) : list value :=
  match body r with
  | VArray out => out
  | _ => []
  end.

End Cases.

(** * Properties *)

Local Open Scope Z_scope.

(** ** Facts on binary64 rounding *)

Module NumFacts.

Lemma mul_le_cancel_l p n m : 0 < p -> p * n <= p * m -> n <= m.
Proof. intros Hp H. apply (Z.mul_le_mono_pos_l n m p Hp). exact H. Qed.

Lemma mul_le_cancel_r p n m : 0 < p -> n * p <= m * p -> n <= m.
Proof. intros Hp H. apply (Z.mul_le_mono_pos_r n m p Hp). exact H. Qed.

Lemma mul_lt_cancel_r p n m : 0 < p -> n * p < m * p -> n < m.
Proof. intros Hp H. apply (Z.mul_lt_mono_pos_r p n m Hp). exact H. Qed.

Lemma pow2_pos k : 0 <= k -> 0 < 2 ^ k.
Proof. intros; apply Z.pow_pos_nonneg; lia. Qed.

Lemma pow2_split j k : 0 <= j -> 0 <= k -> 2 ^ (j + k) = 2 ^ j * 2 ^ k.
Proof. intros; apply Z.pow_add_r; assumption. Qed.

(** [pow2_le] after clearing the sign of the exponent. *)
Lemma pow2_le_shift K k a b :
  0 <= K -> 0 <= K + k ->
  pow2_le k a b = true <-> 2 ^ (K + k) * b <= 2 ^ K * a.
Proof.
  intros HK HKk. unfold pow2_le.
  pose proof (pow2_pos K HK) as PK.
  destruct (Z.leb_spec 0 k) as [Hk|Hk].
  - rewrite Z.leb_le, pow2_split by lia.
    rewrite <- Z.mul_assoc. split; intros H.
    + apply Z.mul_le_mono_nonneg_l; lia.
    + apply mul_le_cancel_l in H; lia.
  - rewrite Z.leb_le.
    replace K with ((K + k) + (- k)) at 2 by lia.
    rewrite (pow2_split (K + k) (- k)) by lia.
    pose proof (pow2_pos (K + k) HKk) as PKk.
    rewrite <- Z.mul_assoc. split; intros H.
    + apply Z.mul_le_mono_nonneg_l; lia.
    + apply mul_le_cancel_l in H; lia.
Qed.

Lemma pow2_le_mono k k' a b :
  0 <= b -> k' <= k -> pow2_le k a b = true -> pow2_le k' a b = true.
Proof.
  intros Hb Hk H.
  set (K := Z.abs k + Z.abs k').
  rewrite (pow2_le_shift K) in H by lia.
  rewrite (pow2_le_shift K) by lia.
  assert (2 ^ (K + k') <= 2 ^ (K + k)) by (apply Z.pow_le_mono_r; lia).
  assert (2 ^ (K + k') * b <= 2 ^ (K + k) * b) by (apply Z.mul_le_mono_nonneg_r; lia).
  lia.
Qed.

Lemma pow2_le_scale k a b c :
  0 < c -> pow2_le k (a * c) (b * c) = pow2_le k a b.
Proof.
  intros Hc. apply eq_true_iff_eq.
  rewrite (pow2_le_shift (Z.abs k)), (pow2_le_shift (Z.abs k) k a b) by lia.
  rewrite !Z.mul_assoc. split; intros H.
  - apply mul_le_cancel_r in H; lia.
  - apply Z.mul_le_mono_nonneg_r; lia.
Qed.

Lemma ilog2_spec a b :
  0 < a -> 0 < b ->
  pow2_le (ilog2 a b) a b = true /\ pow2_le (ilog2 a b + 1) a b = false.
Proof.
  intros Ha Hb.
  pose proof (Z.log2_spec a Ha) as [La Ua].
  pose proof (Z.log2_spec b Hb) as [Lb Ub].
  pose proof (Z.log2_nonneg a) as Na.
  pose proof (Z.log2_nonneg b) as Nb.
  set (la := Z.log2 a) in *. set (lb := Z.log2 b) in *.
  assert (Hlow : pow2_le (la - lb - 1) a b = true).
  { rewrite (pow2_le_shift (lb + 1)) by lia.
    replace (lb + 1 + (la - lb - 1)) with la by lia.
    replace (lb + 1) with (Z.succ lb) by lia.
    assert (2 ^ la * b <= a * b) by (apply Z.mul_le_mono_nonneg_r; lia).
    assert (a * b <= a * 2 ^ Z.succ lb) by (apply Z.mul_le_mono_nonneg_l; lia).
    lia. }
  assert (Hhigh : pow2_le (la - lb + 1) a b = false).
  { apply not_true_iff_false. rewrite (pow2_le_shift lb) by lia.
    replace (lb + (la - lb + 1)) with (Z.succ la) by lia.
    assert (a * b < 2 ^ Z.succ la * b) by (apply Z.mul_lt_mono_pos_r; lia).
    assert (2 ^ lb * a <= b * a) by (apply Z.mul_le_mono_nonneg_r; lia).
    lia. }
  unfold ilog2. fold la lb.
  destruct (pow2_le (la - lb) a b) eqn:E.
  - split; assumption.
  - replace (la - lb - 1 + 1) with (la - lb) by lia. split; assumption.
Qed.

Lemma ilog2_unique a b k :
  0 < a -> 0 < b ->
  pow2_le k a b = true -> pow2_le (k + 1) a b = false -> ilog2 a b = k.
Proof.
  intros Ha Hb H1 H2.
  destruct (ilog2_spec a b Ha Hb) as [S1 S2].
  destruct (Z.lt_trichotomy (ilog2 a b) k) as [H|[H|H]]; [|assumption|].
  - rewrite (pow2_le_mono k (ilog2 a b + 1) a b) in S2 by (assumption || lia).
    discriminate.
  - rewrite (pow2_le_mono (ilog2 a b) (k + 1) a b) in H2 by (assumption || lia).
    discriminate.
Qed.

Lemma ilog2_scale a b c :
  0 < a -> 0 < b -> 0 < c -> ilog2 (a * c) (b * c) = ilog2 a b.
Proof.
  intros Ha Hb Hc.
  destruct (ilog2_spec a b Ha Hb) as [S1 S2].
  apply ilog2_unique; try lia; rewrite pow2_le_scale; assumption.
Qed.

(** *** Rounding to the nearest integer *)

Lemma rne_bound n d : 0 < d -> 2 * Z.abs (n - rne n d * d) <= d.
Proof.
  intros Hd. unfold rne.
  pose proof (Z.div_mod n d ltac:(lia)) as E.
  pose proof (Z.mod_pos_bound n d Hd) as B.
  set (q := n / d) in *. set (r := n mod d) in *.
  destruct (Z.ltb_spec (2 * r) d); [lia|].
  destruct (Z.ltb_spec d (2 * r)); [lia|].
  destruct (Z.even q); lia.
Qed.

Lemma rne_near n d m : 0 < d -> 2 * Z.abs (n - m * d) < d -> rne n d = m.
Proof.
  intros Hd H. unfold rne.
  pose proof (Z.div_mod n d ltac:(lia)) as E.
  pose proof (Z.mod_pos_bound n d Hd) as B.
  set (q := n / d) in *. set (r := n mod d) in *.
  assert (q = m \/ q = m - 1) as [-> | ->] by nia.
  - destruct (Z.ltb_spec (2 * r) d); [lia|]. nia.
  - destruct (Z.ltb_spec (2 * r) d); [nia|].
    destruct (Z.ltb_spec d (2 * r)); [lia|]. nia.
Qed.

Lemma rne_exact m d : 0 < d -> rne (m * d) d = m.
Proof.
  intros Hd. apply rne_near; [assumption|].
  replace (m * d - m * d) with 0 by lia. simpl. lia.
Qed.

Lemma rne_scale n d c : 0 < d -> 0 < c -> rne (n * c) (d * c) = rne n d.
Proof.
  intros Hd Hc. unfold rne.
  rewrite Z.div_mul_cancel_r by lia.
  rewrite Zmult_mod_distr_r.
  set (q := n / d). set (r := n mod d).
  replace (2 * (r * c)) with ((2 * r) * c) by lia.
  assert (E1 : ((2 * r) * c <? d * c) = (2 * r <? d)).
  { apply eq_true_iff_eq. rewrite !Z.ltb_lt. split; intros H.
    - apply mul_lt_cancel_r in H; lia.
    - apply Z.mul_lt_mono_pos_r; lia. }
  assert (E2 : (d * c <? (2 * r) * c) = (d <? 2 * r)).
  { apply eq_true_iff_eq. rewrite !Z.ltb_lt. split; intros H.
    - apply mul_lt_cancel_r in H; lia.
    - apply Z.mul_lt_mono_pos_r; lia. }
  rewrite E1, E2. reflexivity.
Qed.

Lemma rne_lower n d c : 0 < d -> c * d <= n -> c <= rne n d.
Proof.
  intros Hd H. pose proof (rne_bound n d Hd). nia.
Qed.

Lemma rne_upper n d c : 0 < d -> n <= c * d -> rne n d <= c.
Proof.
  intros Hd H. pose proof (rne_bound n d Hd). nia.
Qed.


(** *** Scaling *)

Lemma scale_num_scale a c e : scale_num (a * c) e = scale_num a e * c.
Proof. unfold scale_num. destruct (0 <=? e); ring. Qed.

Lemma scale_den_scale b c e : scale_den (b * c) e = scale_den b e * c.
Proof. unfold scale_den. destruct (0 <=? e); ring. Qed.

Lemma scale_den_pos b e : 0 < b -> 0 < scale_den b e.
Proof.
  intros Hb. unfold scale_den. destruct (Z.leb_spec 0 e); [|assumption].
  pose proof (pow2_pos e ltac:(lia)). nia.
Qed.

Lemma scale_num_pos a e : 0 < a -> 0 < scale_num a e.
Proof.
  intros Ha. unfold scale_num. destruct (Z.leb_spec 0 e); [assumption|].
  pose proof (pow2_pos (- e) ltac:(lia)). nia.
Qed.

(** [2^(k+e) <= a / b] read on the fraction scaled by [2^e]. *)
Lemma pow2_le_scaled k e a b :
  0 <= k ->
  pow2_le (k + e) a b = true <-> 2 ^ k * scale_den b e <= scale_num a e.
Proof.
  intros Hk. unfold scale_den, scale_num.
  destruct (Z.leb_spec 0 e) as [He|He].
  - rewrite (pow2_le_shift 0) by lia.
    rewrite Z.add_0_l, pow2_split by lia. simpl (2 ^ 0).
    split; intros H; lia.
  - rewrite (pow2_le_shift (- e)) by lia.
    replace (- e + (k + e)) with k by lia.
    split; intros H; lia.
Qed.

Lemma round_ratio_scale s a b c :
  0 < a -> 0 < b -> 0 < c ->
  round_ratio s (a * c) (b * c) = round_ratio s a b.
Proof.
  intros Ha Hb Hc. unfold round_ratio.
  rewrite ilog2_scale, scale_num_scale, scale_den_scale by assumption.
  rewrite rne_scale by (try apply scale_den_pos; assumption).
  reflexivity.
Qed.

(** Rounding depends on the value of the fraction only. *)
Lemma round_ratio_eq s a b c d :
  0 < a -> 0 < b -> 0 < c -> 0 < d -> a * d = c * b ->
  round_ratio s a b = round_ratio s c d.
Proof.
  intros Ha Hb Hc Hd E.
  rewrite <- (round_ratio_scale s a b d), <- (round_ratio_scale s c d b)
    by assumption.
  f_equal; lia.
Qed.

(** *** Canonical form *)

Lemma digits2_size m : digits2_pos m = Pos.size m.
Proof. induction m; simpl; congruence. Qed.

Lemma digits2_log2 m : Zpos (digits2_pos m) = Z.log2 (Zpos m) + 1.
Proof.
  rewrite digits2_size. destruct m; simpl; try rewrite Pos.add_1_r; reflexivity.
Qed.

Lemma valid_finite s m e :
  valid (S754_finite s m e) = true <->
  e = Z.max emin (Z.log2 (Zpos m) + e - 52) /\ e <= etop.
Proof.
  unfold valid, valid_binary, bounded, canonical_mantissa, fexp, SpecFloat.emin.
  rewrite andb_true_iff, Z.eqb_eq, Z.leb_le, digits2_log2.
  unfold emin, etop. lia.
Qed.

Lemma log2_mantissa m : 2 ^ 52 <= m < 2 ^ 53 -> Z.log2 m = 52.
Proof.
  intros [L U]. apply Z.log2_unique; [lia|]. split; [exact L|exact U].
Qed.

Lemma log2_below m : 0 < m < 2 ^ 53 -> Z.log2 m <= 52.
Proof.
  intros [L U]. apply Z.log2_lt_pow2 in U; lia.
Qed.

Lemma valid_normal s m e :
  2 ^ 52 <= Zpos m < 2 ^ 53 -> emin <= e <= etop ->
  valid (S754_finite s m e) = true.
Proof.
  intros Hm He. apply valid_finite. rewrite (log2_mantissa _ Hm). lia.
Qed.

Lemma valid_subnormal s m :
  Zpos m < 2 ^ 53 -> valid (S754_finite s m emin) = true.
Proof.
  intros Hm. apply valid_finite.
  pose proof (log2_below (Zpos m) ltac:(lia)). unfold emin, etop. lia.
Qed.

(** *** The shape of a rounded fraction *)

Lemma round_ratio_mantissa a b :
  0 < a -> 0 < b ->
  let e := Z.max emin (ilog2 a b - 52) in
  let M := rne (scale_num a e) (scale_den b e) in
  0 <= M <= 2 ^ 53 /\ (emin <= ilog2 a b - 52 -> 2 ^ 52 <= M).
Proof.
  intros Ha Hb e M.
  destruct (ilog2_spec a b Ha Hb) as [S1 S2].
  pose proof (scale_den_pos b e Hb) as Hd.
  pose proof (scale_num_pos a e Ha) as Hn.
  assert (U : ~ 2 ^ 53 * scale_den b e <= scale_num a e).
  { rewrite <- pow2_le_scaled by lia. intros H.
    rewrite (pow2_le_mono (53 + e) (ilog2 a b + 1) a b) in S2
      by (assumption || lia).
    discriminate. }
  repeat split.
  - apply rne_lower; lia.
  - apply rne_upper; lia.
  - intros He. apply rne_lower; [assumption|].
    apply pow2_le_scaled; [lia|].
    replace (52 + e) with (ilog2 a b) by lia. assumption.
Qed.

(** What [round_ratio] returns: a zero below the subnormal range, an
    infinity, or a canonical finite number within half a unit in the last
    place of [a / b]. *)
Lemma round_ratio_cases s a b :
  0 < a -> 0 < b ->
  (round_ratio s a b = S754_zero s /\ ilog2 a b - 52 < emin) \/
  round_ratio s a b = S754_infinity s \/
  exists m e,
    round_ratio s a b = S754_finite s m e /\
    valid (S754_finite s m e) = true /\
    2 * Z.abs (scale_num a e - Zpos m * scale_den b e) <= scale_den b e.
Proof.
  intros Ha Hb.
  pose proof (round_ratio_mantissa a b Ha Hb) as HM.
  unfold round_ratio.
  set (e := Z.max emin (ilog2 a b - 52)) in *.
  set (M := rne (scale_num a e) (scale_den b e)) in *.
  cbv zeta in HM. destruct HM as [[M0 M1] M2].
  pose proof (rne_bound (scale_num a e) (scale_den b e) (scale_den_pos b e Hb))
    as B. fold M in B.
  destruct (Z.eqb_spec M 0) as [Z0|NZ].
  { left. split; [reflexivity|]. change (2 ^ 52) with 4503599627370496 in M2. lia. }
  right.
  destruct (Z.eqb_spec M (2 ^ 53)) as [E53|N53].
  - destruct (Z.ltb_spec etop (e + 1)) as [O|O]; [left; reflexivity|right].
    exists (Z.to_pos (2 ^ 52)), (e + 1). split; [reflexivity|]. split.
    + apply valid_normal; [simpl; lia|unfold e; lia].
    + rewrite E53 in B. change (Zpos (Z.to_pos (2 ^ 52))) with (2 ^ 52).
      change (2 ^ 53) with (2 * 2 ^ 52) in B.
      revert B. unfold scale_num, scale_den.
      destruct (Z.leb_spec 0 e) as [He|He].
      * destruct (Z.leb_spec 0 (e + 1)); [|lia].
        rewrite pow2_split by lia. change (2 ^ 1) with 2.
        pose proof (pow2_pos e He). nia.
      * destruct (Z.leb_spec 0 (e + 1)) as [He1|He1].
        -- replace (- e) with 1 by lia. replace (e + 1) with 0 by lia.
           change (2 ^ 1) with 2. change (2 ^ 0) with 1. nia.
        -- replace (- e) with (1 + - (e + 1)) by lia.
           rewrite pow2_split by lia. change (2 ^ 1) with 2.
           pose proof (pow2_pos (- (e + 1)) ltac:(lia)). nia.
  - destruct (Z.ltb_spec etop e) as [O|O]; [left; reflexivity|right].
    exists (Z.to_pos M), e. split; [reflexivity|].
    rewrite Z2Pos.id by lia. split; [|exact B].
    destruct (Z_lt_le_dec (ilog2 a b - 52) emin) as [Lo|Hi].
    + replace e with emin by (unfold e; lia).
      apply valid_subnormal. rewrite Z2Pos.id by lia. lia.
    + apply valid_normal; rewrite ?Z2Pos.id by lia; [|unfold e; lia].
      specialize (M2 Hi). lia.
Qed.


Lemma round_ratio_near s a b m e :
  0 < a -> 0 < b -> emin <= e <= etop -> 2 ^ 52 <= Zpos m < 2 ^ 53 ->
  2 ^ 52 * scale_den b e <= scale_num a e < 2 ^ 53 * scale_den b e ->
  2 * Z.abs (scale_num a e - Zpos m * scale_den b e) < scale_den b e ->
  round_ratio s a b = S754_finite s m e.
Proof.
  intros Ha Hb He Hm [L U] Hnear.
  assert (El : ilog2 a b = 52 + e).
  { apply ilog2_unique; try assumption.
    - apply pow2_le_scaled; [lia|exact L].
    - apply not_true_iff_false. replace (52 + e + 1) with (53 + e) by lia.
      rewrite pow2_le_scaled by lia. lia. }
  unfold round_ratio. rewrite El.
  replace (Z.max emin (52 + e - 52)) with e by lia.
  rewrite (rne_near _ _ (Zpos m)) by (try apply scale_den_pos; assumption).
  destruct (Z.eqb_spec (Zpos m) 0); [lia|].
  destruct (Z.eqb_spec (Zpos m) (2 ^ 53)); [lia|].
  destruct (Z.ltb_spec etop e); [lia|].
  reflexivity.
Qed.

Lemma fden_pos e : 0 < fden e.
Proof.
  unfold fden. destruct (Z.leb_spec 0 e); [lia|]. apply pow2_pos; lia.
Qed.

Lemma fnum_pos m e : 0 < fnum m e.
Proof.
  unfold fnum. destruct (Z.leb_spec 0 e); [|lia].
  pose proof (pow2_pos e ltac:(lia)). nia.
Qed.

(** The fraction of a finite number, scaled by its own exponent, is its
    mantissa. *)
Lemma scale_fnum m e :
  scale_num (fnum m e) e = Zpos m * scale_den (fden e) e.
Proof.
  unfold scale_num, scale_den, fnum, fden.
  destruct (Z.leb_spec 0 e); ring.
Qed.

(** A binary64 value rounds to itself. *)
Lemma round_ratio_exact s m e :
  valid (S754_finite s m e) = true ->
  round_ratio s (fnum m e) (fden e) = S754_finite s m e.
Proof.
  intros V. apply valid_finite in V. destruct V as [Ve Vt].
  pose proof (fden_pos e) as Hd. pose proof (fnum_pos m e) as Hn.
  pose proof (scale_den_pos (fden e) e Hd) as HD.
  pose proof (Z.log2_spec (Zpos m) ltac:(lia)) as [L U].
  pose proof (Z.log2_nonneg (Zpos m)) as L0.
  assert (El : ilog2 (fnum m e) (fden e) = Z.log2 (Zpos m) + e).
  { apply ilog2_unique; try assumption.
    - apply pow2_le_scaled; [assumption|]. rewrite scale_fnum.
      apply Z.mul_le_mono_nonneg_r; lia.
    - apply not_true_iff_false.
      replace (Z.log2 (Zpos m) + e + 1) with (Z.succ (Z.log2 (Zpos m)) + e) by lia.
      rewrite pow2_le_scaled by lia. rewrite scale_fnum.
      intros H. apply mul_le_cancel_r in H; lia. }
  unfold round_ratio. rewrite El, <- Ve.
  rewrite scale_fnum, rne_exact by assumption.
  assert (Zpos m < 2 ^ 53).
  { apply Z.log2_lt_pow2; lia. }
  destruct (Z.eqb_spec (Zpos m) 0); [lia|].
  destruct (Z.eqb_spec (Zpos m) (2 ^ 53)); [lia|].
  destruct (Z.ltb_spec etop e); [lia|].
  reflexivity.
Qed.

(** *** Integers *)

Lemma is_integer_value s m e :
  is_integer (S754_finite s m e) = true ->
  0 < int_of m e /\ fnum m e = int_of m e * fden e.
Proof.
  unfold is_integer, int_of, fnum, fden.
  destruct (Z.leb_spec 0 e) as [He|He]; intros H.
  - pose proof (pow2_pos e He). split; nia.
  - rewrite orb_false_l in H. apply Z.eqb_eq in H.
    pose proof (pow2_pos (- e) ltac:(lia)) as P.
    pose proof (Z.div_mod (Zpos m) (2 ^ (- e)) ltac:(lia)) as E.
    rewrite H in E. split; nia.
Qed.

(** *** [Number(x.toFixed(2))] after a division by 100 *)

Lemma ilog2_lower a b k :
  0 < a -> 0 < b -> pow2_le k a b = true -> k <= ilog2 a b.
Proof.
  intros Ha Hb H. destruct (ilog2_spec a b Ha Hb) as [_ S2].
  destruct (Z_le_gt_dec k (ilog2 a b)) as [|G]; [assumption|].
  rewrite (pow2_le_mono k (ilog2 a b + 1) a b) in S2 by (assumption || lia).
  discriminate.
Qed.

(** Half-up rounding of [100 * m / K] to an integer, as [toFixed] does. *)
Lemma half_up_unique m K n :
  0 < K -> - K <= 2 * (100 * m) - 2 * (n * K) < K ->
  (2 * 100 * m + K) / (2 * K) = n.
Proof.
  intros HK H. symmetry.
  apply (Z.div_unique_pos _ _ _ (2 * 100 * m + K - 2 * K * n)); lia.
Qed.

Lemma round2_small s P m e :
  0 < P -> e <= -7 ->
  round_ratio s P 100 = S754_finite s m e ->
  2 * Z.abs (scale_num P e - Zpos m * scale_den 100 e) <= scale_den 100 e ->
  round2 (S754_finite s m e) = S754_finite s m e.
Proof.
  intros HP He E B.
  unfold scale_num, scale_den in B.
  destruct (Z.leb_spec 0 e); [lia|].
  assert (HK : 2 ^ 7 <= 2 ^ (- e)) by (apply Z.pow_le_mono_r; lia).
  change (2 ^ 7) with 128 in HK.
  unfold round2, toFixed2.
  destruct (10 ^ 21 * fden e <=? fnum m e); [reflexivity|].
  unfold fnum, fden. destruct (Z.leb_spec 0 e); [lia|].
  set (K := 2 ^ (- e)) in *.
  rewrite (half_up_unique (Zpos m) K P) by lia.
  unfold Number_of_fixed2.
  destruct (Z.eqb_spec P 0); [lia|]. exact E.
Qed.

Lemma round2_integral s m e :
  0 <= e -> valid (S754_finite s m e) = true ->
  round2 (S754_finite s m e) = S754_finite s m e.
Proof.
  intros He V. unfold round2, toFixed2.
  destruct (10 ^ 21 * fden e <=? fnum m e); [reflexivity|].
  pose proof (fnum_pos m e) as Hn.
  assert (Ed : fden e = 1).
  { unfold fden. destruct (Z.leb_spec 0 e); [reflexivity|lia]. }
  rewrite Ed.
  replace ((2 * 100 * fnum m e + 1) / (2 * 1)) with (100 * fnum m e).
  2:{ apply (Z.div_unique_pos _ _ _ 1); lia. }
  unfold Number_of_fixed2.
  destruct (Z.eqb_spec (100 * fnum m e) 0); [lia|].
  rewrite <- (round_ratio_exact s m e V). rewrite Ed.
  apply round_ratio_eq; lia.
Qed.

Lemma round2_coarse s m e :
  -6 <= e < 0 -> valid (S754_finite s m e) = true ->
  round2 (S754_finite s m e) = S754_finite s m e.
Proof.
  intros He V.
  pose proof V as V'. apply valid_finite in V'. destruct V' as [Ve Vt].
  assert (L52 : Z.log2 (Zpos m) = 52) by (unfold emin in Ve; lia).
  pose proof (Z.log2_spec (Zpos m) ltac:(lia)) as [Lm Um].
  rewrite L52 in Lm, Um. change (Z.succ 52) with 53 in Um.
  unfold round2, toFixed2.
  destruct (10 ^ 21 * fden e <=? fnum m e); [reflexivity|].
  unfold Number_of_fixed2, fnum, fden.
  destruct (Z.leb_spec 0 e); [lia|].
  set (K := 2 ^ (- e)).
  assert (HK : K = 2 \/ K = 4 \/ K = 8 \/ K = 16 \/ K = 32 \/ K = 64).
  { assert (Hcase : e = -1 \/ e = -2 \/ e = -3 \/ e = -4 \/ e = -5 \/ e = -6)
      by lia.
    unfold K. decompose [or] Hcase; subst e; simpl; lia. }
  assert (K0 : 0 < 2 * K) by lia.
  pose proof (Z.div_mod (2 * 100 * Zpos m + K) (2 * K) ltac:(lia)) as Hdm.
  pose proof (Z.mod_pos_bound (2 * 100 * Zpos m + K) (2 * K) K0) as Hmb.
  set (n := (2 * 100 * Zpos m + K) / (2 * K)) in *.
  set (r := (2 * 100 * Zpos m + K) mod (2 * K)) in *.
  change (2 ^ 52) with 4503599627370496 in Lm.
  change (2 ^ 53) with 9007199254740992 in Um.
  assert (A : 0 < n /\
              4503599627370496 * 100 <= n * K < 9007199254740992 * 100 /\
              2 * Z.abs (n * K - Zpos m * 100) < 100).
  { clearbody n r. clear - HK Hdm Hmb Lm Um.
    decompose [or] HK; subst K; lia. }
  destruct A as (A1 & A2 & A3).
  destruct (Z.eqb_spec n 0); [lia|].
  assert (Sn : scale_num n e = n * K).
  { unfold scale_num. destruct (Z.leb_spec 0 e); [lia|reflexivity]. }
  assert (Sd : scale_den 100 e = 100).
  { unfold scale_den. destruct (Z.leb_spec 0 e); [lia|reflexivity]. }
  apply round_ratio_near; rewrite ?Sn, ?Sd;
    try assumption; try (unfold emin, etop; lia); try lia.
Qed.

(** Rounding to two decimals leaves the binary64 value nearest to a
    positive number of hundredths unchanged. *)
Lemma round2_hundredths s P :
  0 < P -> round2 (round_ratio s P 100) = round_ratio s P 100.
Proof.
  intros HP.
  destruct (round_ratio_cases s P 100 HP ltac:(lia))
    as [[_ Lo]|[E|(m & e & E & V & B)]].
  - exfalso.
    assert (-7 <= ilog2 P 100).
    { apply ilog2_lower; try lia.
      change (pow2_le (-7) P 100) with (100 <=? 128 * P).
      apply Z.leb_le. lia. }
    unfold emin in Lo. lia.
  - rewrite E. reflexivity.
  - rewrite E.
    destruct (Z_le_gt_dec e (-7)) as [Small|Big].
    + eapply round2_small; eassumption.
    + destruct (Z_lt_le_dec e 0).
      * apply round2_coarse; [lia|assumption].
      * apply round2_integral; assumption.
Qed.

End NumFacts.

(** ** The operations of the standard library are the rounded exact results *)

Module Reference.

Import NumFacts.

Lemma new_location_classify d r :
  0 < d -> 0 <= r < d -> new_location d r = classify r d.
Proof.
  intros Hd Hr. unfold new_location, classify.
  destruct (Z.even d) eqn:Ev.
  - reflexivity.
  - unfold new_location_odd. destruct (Z.eqb_spec r 0); [reflexivity|].
    f_equal.
    assert (Od : Z.odd d = true) by (rewrite <- Z.negb_even, Ev; reflexivity).
    apply Z.odd_spec in Od. destruct Od as [k Hk].
    destruct (Z.compare_spec (2 * r + 1) d), (Z.compare_spec (2 * r) d);
      try reflexivity; lia.
Qed.

Lemma record_of_loc m l :
  shr_m (shr_record_of_loc m l) = m
  /\ loc_of_shr_record (shr_record_of_loc m l) = l.
Proof. destruct l as [|[]]; split; reflexivity. Qed.

Lemma locates_of_division n d :
  0 < d -> 0 <= n ->
  locates n d (shr_record_of_loc (n / d) (new_location d (n mod d))).
Proof.
  intros Hd Hn. unfold locates.
  destruct (record_of_loc (n / d) (new_location d (n mod d))) as [-> ->].
  split; [reflexivity|].
  apply new_location_classify; [assumption|]. apply Z.mod_pos_bound; assumption.
Qed.

(** One shift to the right halves the located number. *)
Lemma shr_1_locates n d mrs :
  0 < d -> 0 <= n -> locates n d mrs -> locates n (2 * d) (shr_1 mrs).
Proof.
  intros Hd Hn [Hm Hl].
  pose proof (Z.div_mod n d ltac:(lia)) as E.
  pose proof (Z.mod_pos_bound n d Hd) as B.
  assert (Q0 : 0 <= n / d) by (apply Z.div_pos; lia).
  set (q := n / d) in *. set (r := n mod d) in *.
  destruct mrs as [m rb sb]. cbn [shr_m] in Hm. subst m.
  assert (D2 : forall k r', 0 <= r' < 2 * d -> n = 2 * d * k + r' ->
                            n / (2 * d) = k /\ n mod (2 * d) = r').
  { intros k r' Hr' En. split; symmetry.
    - apply (Z.div_unique_pos _ _ _ r'); assumption.
    - apply (Z.mod_unique_pos _ _ k); assumption. }
  clearbody q r.
  assert (Hs : orb rb sb = negb (r =? 0)).
  { unfold classify in Hl. destruct (Z.eqb_spec r 0);
      destruct rb, sb; cbn in Hl; try discriminate; reflexivity. }
  unfold locates, classify.
  assert (Cases : (exists k, q = 2 * k /\ 0 <= k) \/ (exists k, q = 2 * k + 1 /\ 0 <= k)).
  { destruct (Z.even q) eqn:Ev.
    - left. apply Z.even_spec in Ev. destruct Ev as [k Hk]. exists k. lia.
    - right. assert (Od : Z.odd q = true) by (rewrite <- Z.negb_even, Ev; reflexivity).
      apply Z.odd_spec in Od. destruct Od as [k Hk]. exists k. lia. }
  destruct Cases as [(k & Hk & K0)|(k & Hk & K0)].
  - destruct (D2 k r ltac:(lia) ltac:(nia)) as [D R]. rewrite D, R.
    assert (Sh : shr_1 {| shr_m := q; shr_r := rb; shr_s := sb |}
                 = {| shr_m := k; shr_r := false; shr_s := orb rb sb |}).
    { rewrite Hk. destruct k as [|p|p]; try lia; reflexivity. }
    rewrite Sh, Hs. cbn [shr_m]. split; [reflexivity|].
    destruct (Z.eqb_spec r 0); cbn [negb loc_of_shr_record]; [reflexivity|].
    f_equal. symmetry. apply Z.compare_lt_iff. lia.
  - destruct (D2 k (d + r) ltac:(lia) ltac:(nia)) as [D R]. rewrite D, R.
    assert (Sh : shr_1 {| shr_m := q; shr_r := rb; shr_s := sb |}
                 = {| shr_m := k; shr_r := true; shr_s := orb rb sb |}).
    { rewrite Hk. destruct k as [|p|p]; try lia; reflexivity. }
    rewrite Sh, Hs. cbn [shr_m]. split; [reflexivity|].
    destruct (Z.eqb_spec (d + r) 0); [lia|].
    destruct (Z.eqb_spec r 0); cbn [negb loc_of_shr_record].
    + f_equal. symmetry. apply Z.compare_eq_iff. lia.
    + f_equal. symmetry. apply Z.compare_gt_iff. lia.
Qed.

Lemma pow2_twice z : 0 <= z -> 2 ^ (2 * z) = 2 ^ z * 2 ^ z.
Proof.
  intros Hz. replace (2 * z) with (z + z) by lia. apply Z.pow_add_r; assumption.
Qed.

Lemma pow2_twice_succ z : 0 <= z -> 2 ^ (2 * z + 1) = 2 ^ z * 2 ^ z * 2.
Proof.
  intros Hz. rewrite Z.pow_add_r, pow2_twice by lia. reflexivity.
Qed.

Lemma iter_shr_1_locates p :
  forall n d mrs,
    0 < d -> 0 <= n -> locates n d mrs ->
    locates n (2 ^ Zpos p * d) (iter_pos shr_1 p mrs).
Proof.
  induction p as [p IH|p IH|]; intros n d mrs Hd Hn L; cbn [iter_pos].
  - replace (2 ^ Zpos p~1 * d) with (2 ^ Zpos p * (2 ^ Zpos p * (2 * d))).
    2:{ pose proof (pow2_twice_succ (Zpos p) ltac:(lia)) as T.
        change (2 * Zpos p + 1) with (Zpos p~1) in T. rewrite T. ring. }
    pose proof (pow2_pos (Zpos p) ltac:(lia)).
    apply IH; [nia|assumption|]. apply IH; [lia|assumption|].
    apply shr_1_locates; assumption.
  - replace (2 ^ Zpos p~0 * d) with (2 ^ Zpos p * (2 ^ Zpos p * d)).
    2:{ pose proof (pow2_twice (Zpos p) ltac:(lia)) as T.
        change (2 * Zpos p) with (Zpos p~0) in T. rewrite T. ring. }
    pose proof (pow2_pos (Zpos p) ltac:(lia)).
    apply IH; [nia|assumption|]. apply IH; assumption.
  - change (2 ^ 1) with 2. apply shr_1_locates; assumption.
Qed.

(** Rounding a located number to nearest even is [rne]. *)
Lemma round_nearest_even_rne n d mrs :
  0 < d -> 0 <= n -> locates n d mrs ->
  round_nearest_even (shr_m mrs) (loc_of_shr_record mrs) = rne n d.
Proof.
  intros Hd Hn [Hm Hl]. rewrite Hm, Hl. unfold classify, rne.
  pose proof (Z.mod_pos_bound n d Hd) as B.
  set (q := n / d) in *. set (r := n mod d) in *.
  destruct (Z.eqb_spec r 0) as [R0|R0].
  - cbn [round_nearest_even]. destruct (Z.ltb_spec (2 * r) d); [reflexivity|lia].
  - cbn [round_nearest_even].
    destruct (Z.compare_spec (2 * r) d) as [E|L|G].
    + destruct (Z.ltb_spec (2 * r) d); [lia|].
      destruct (Z.ltb_spec d (2 * r)); [lia|]. reflexivity.
    + destruct (Z.ltb_spec (2 * r) d); [reflexivity|lia].
    + destruct (Z.ltb_spec (2 * r) d); [lia|].
      destruct (Z.ltb_spec d (2 * r)); [reflexivity|lia].
Qed.


Lemma rne_eq n d n' d' :
  0 < d -> 0 < d' -> n * d' = n' * d -> rne n d = rne n' d'.
Proof.
  intros Hd Hd' E.
  rewrite <- (rne_scale n d d'), <- (rne_scale n' d' d) by assumption.
  f_equal; lia.
Qed.

Lemma Zdigits2_log2 q : 0 < q -> Zdigits2 q = Z.log2 q + 1.
Proof.
  destruct q as [|p|p]; try lia. intros _. cbn [Zdigits2]. apply digits2_log2.
Qed.

(** [(a / b) / 2^e] against [(a / b) / 2^e'] for [e <= e']. *)
Lemma scale_shift a b e e' :
  e <= e' ->
  scale_num a e * scale_den b e' = scale_num a e' * scale_den b e * 2 ^ (e' - e).
Proof.
  intros H. unfold scale_num, scale_den.
  destruct (Z.leb_spec 0 e), (Z.leb_spec 0 e'); try lia.
  - replace e' with (e + (e' - e)) at 1 by lia. rewrite pow2_split by lia. ring.
  - replace (e' - e) with (e' + - e) by lia. rewrite pow2_split by lia. ring.
  - replace (- e) with (- e' + (e' - e)) at 1 by lia.
    rewrite pow2_split by lia. ring.
Qed.

Lemma fexp_fexp64 k : fexp 53 1024 k = fexp64 k.
Proof. reflexivity. Qed.

Lemma shr_nonpos mrs e n : n <= 0 -> shr mrs e n = (mrs, e).
Proof. destruct n; [reflexivity|lia|reflexivity]. Qed.

Section Round.

Variables (s : bool) (q e : Z) (l : location) (N D A B : Z).
Hypothesis HD : 0 < D.
Hypothesis HN : 0 <= N.
Hypothesis HA : 0 < A.
Hypothesis HB : 0 < B.
Hypothesis Hq : q = N / D.
Hypothesis Hl : l = classify (N mod D) D.
Hypothesis Hfrac : N * scale_den B e = scale_num A e * D.
Hypothesis He : e <= Z.max emin (ilog2 A B - 52).
Hypothesis Hq0 : q = 0 -> e <= emin.

Let eq := Z.max emin (ilog2 A B - 52).

Lemma round_exponent : Z.max e (fexp64 (Zdigits2 q + e)) = eq.
Proof.
  pose proof (scale_den_pos B e HB) as Sd.
  pose proof (scale_num_pos A e HA) as Sn.
  pose proof (Z.div_mod N D ltac:(lia)) as E.
  pose proof (Z.mod_pos_bound N D HD) as Bd.
  rewrite <- Hq in E.
  assert (Q0 : 0 <= q) by (rewrite Hq; apply Z.div_pos; lia).
  destruct (ilog2_spec A B HA HB) as [S1 S2].
  destruct (Z.eq_dec q 0) as [Z0|NZ].
  - specialize (Hq0 Z0). rewrite Z0. cbn [Zdigits2]. unfold fexp64.
    assert (ilog2 A B < e).
    { destruct (Z_lt_le_dec (ilog2 A B) e) as [|G]; [assumption|exfalso].
      apply (pow2_le_mono _ e) in S1; [|lia|assumption].
      apply (pow2_le_scaled 0 e A B ltac:(lia)) in S1.
      change (2 ^ 0) with 1 in S1. nia. }
    unfold eq. lia.
  - assert (Qp : 0 < q) by lia.
    pose proof (Z.log2_spec q Qp) as [Lq Uq].
    pose proof (Z.log2_nonneg q) as L0.
    set (L := Z.log2 q) in *.
    assert (El : ilog2 A B = L + e).
    { apply ilog2_unique; try assumption.
      - apply pow2_le_scaled; [assumption|].
        apply (mul_le_cancel_r D); [assumption|].
        rewrite <- Hfrac.
        assert (2 ^ L * D <= N) by nia. nia.
      - apply not_true_iff_false.
        replace (L + e + 1) with (Z.succ L + e) by lia.
        rewrite pow2_le_scaled by lia. intros H.
        assert (2 ^ Z.succ L * scale_den B e * D <= N * scale_den B e)
          by (rewrite Hfrac; nia).
        assert (2 ^ Z.succ L * D <= N) by nia.
        nia. }
    rewrite Zdigits2_log2 by assumption. fold L. unfold fexp64.
    unfold eq in *. rewrite El in *. lia.
Qed.

(** The first shift of [binary_round_aux] brings the exponent to [eq]. *)
Lemma first_shift :
  exists mrs,
    shr_fexp 53 1024 q e l = (mrs, eq)
    /\ locates N (2 ^ (eq - e) * D) mrs.
Proof.
  pose proof round_exponent as Re.
  assert (L0 : locates N D (shr_record_of_loc q l)).
  { unfold locates. destruct (record_of_loc q l) as [-> ->]. auto. }
  unfold shr_fexp. rewrite fexp_fexp64.
  set (f := fexp64 (Zdigits2 q + e)) in *.
  unfold shr. destruct (f - e) as [|p|p] eqn:Ef.
  - exists (shr_record_of_loc q l). replace eq with e by lia.
    rewrite Z.sub_diag. change (2 ^ 0) with 1. rewrite Z.mul_1_l. auto.
  - eexists. split; [f_equal; lia|].
    replace (eq - e) with (Zpos p) by lia.
    apply iter_shr_1_locates; assumption.
  - exists (shr_record_of_loc q l). replace eq with e by lia.
    rewrite Z.sub_diag. change (2 ^ 0) with 1. rewrite Z.mul_1_l. auto.
Qed.

Lemma binary_round_aux_round_ratio :
  binary_round_aux 53 1024 s q e l = round_ratio s A B.
Proof.
  destruct first_shift as (mrs & E1 & L1).
  pose proof (pow2_pos (eq - e) ltac:(unfold eq; lia)) as P.
  assert (D1 : 0 < 2 ^ (eq - e) * D) by nia.
  pose proof (round_nearest_even_rne _ _ _ D1 HN L1) as R.
  assert (R' : rne N (2 ^ (eq - e) * D) = rne (scale_num A eq) (scale_den B eq)).
  { apply rne_eq; [assumption|apply scale_den_pos; assumption|].
    pose proof (scale_shift A B e eq ltac:(unfold eq; lia)) as Sh.
    pose proof (scale_den_pos B e HB) as Sd.
    apply (Z.mul_reg_r _ _ (scale_den B e)); [lia|].
    transitivity (N * scale_den B e * scale_den B eq); [ring|].
    rewrite Hfrac.
    transitivity (scale_num A e * scale_den B eq * D); [ring|].
    rewrite Sh. ring. }
  pose proof (round_ratio_mantissa A B HA HB) as HM. cbv zeta in HM.
  fold eq in HM. destruct HM as [[M0 M1] _].
  unfold binary_round_aux. rewrite E1, R, R'.
  unfold round_ratio. fold eq.
  set (M := rne (scale_num A eq) (scale_den B eq)) in *.
  assert (Eq0 : emin <= eq) by (unfold eq; lia).
  destruct (Z.eqb_spec M 0) as [Z0|NZ].
  - rewrite Z0. unfold shr_fexp. rewrite fexp_fexp64. cbn [Zdigits2].
    rewrite shr_nonpos by (unfold fexp64; lia). reflexivity.
  - destruct (Z.eqb_spec M (2 ^ 53)) as [E53|N53].
    + rewrite E53. unfold shr_fexp. rewrite fexp_fexp64.
      change (Zdigits2 (2 ^ 53)) with 54.
      replace (fexp64 (54 + eq) - eq) with 1 by (unfold fexp64; lia).
      cbn [shr iter_pos shr_record_of_loc]. 
      change (shr_m (shr_1 {| shr_m := 2 ^ 53; shr_r := false; shr_s := false |}))
        with (Zpos (Z.to_pos (2 ^ 52))).
      cbv iota. change (1024 - 53) with etop.
      destruct (Z.leb_spec (eq + 1) etop), (Z.ltb_spec etop (eq + 1));
        try lia; reflexivity.
    + assert (Mp : 0 < M < 2 ^ 53) by lia.
      pose proof (log2_below M Mp) as Lm.
      unfold shr_fexp. rewrite fexp_fexp64, Zdigits2_log2 by lia.
      rewrite shr_nonpos by (unfold fexp64; lia).
      destruct (record_of_loc M loc_Exact) as [-> _].
      destruct M as [|m|m]; try lia. change (1024 - 53) with etop.
      destruct (Z.leb_spec eq etop), (Z.ltb_spec etop eq); try lia; reflexivity.
Qed.

End Round.


(** *** Powers of two with the sign of the exponent cleared *)

Lemma fnum_pow m e : fnum m e = Zpos m * 2 ^ Z.max e 0.
Proof.
  unfold fnum. destruct (Z.leb_spec 0 e).
  - rewrite Z.max_l by lia. reflexivity.
  - rewrite Z.max_r by lia. change (2 ^ 0) with 1. lia.
Qed.

Lemma fden_pow e : fden e = 2 ^ Z.max (- e) 0.
Proof.
  unfold fden. destruct (Z.leb_spec 0 e).
  - rewrite Z.max_r by lia. reflexivity.
  - rewrite Z.max_l by lia. reflexivity.
Qed.

Lemma scale_num_pow a e : scale_num a e = a * 2 ^ Z.max (- e) 0.
Proof.
  unfold scale_num. destruct (Z.leb_spec 0 e).
  - rewrite Z.max_r by lia. change (2 ^ 0) with 1. lia.
  - rewrite Z.max_l by lia. reflexivity.
Qed.

Lemma scale_den_pow b e : scale_den b e = b * 2 ^ Z.max e 0.
Proof.
  unfold scale_den. destruct (Z.leb_spec 0 e).
  - rewrite Z.max_l by lia. reflexivity.
  - rewrite Z.max_r by lia. change (2 ^ 0) with 1. lia.
Qed.

(** Close a goal [2^a * ... = 2^b * ...] between products of powers of two
    with non-negative exponents. *)
Ltac pow2_eq := rewrite <- ?Z.pow_add_r by lia; f_equal; lia.

Lemma div_eucl_div_mod a b : Z.div_eucl a b = (a / b, a mod b).
Proof. unfold Z.div, Z.modulo. destruct (Z.div_eucl a b); reflexivity. Qed.

Lemma digits_bounds m :
  2 ^ (Zdigits2 (Zpos m) - 1) <= Zpos m < 2 ^ Zdigits2 (Zpos m).
Proof.
  rewrite Zdigits2_log2 by lia.
  pose proof (Z.log2_spec (Zpos m) ltac:(lia)) as [L U].
  replace (Z.log2 (Zpos m) + 1 - 1) with (Z.log2 (Zpos m)) by lia.
  replace (Z.log2 (Zpos m) + 1) with (Z.succ (Z.log2 (Zpos m))) by lia.
  split; assumption.
Qed.

(** Division of the reference implementation is the rounded quotient. *)
Lemma SFdiv_round_ratio sx mx ex sy my ey :
  SFdiv 53 1024 (S754_finite sx mx ex) (S754_finite sy my ey)
  = round_ratio (xorb sx sy) (fnum mx ex * fden ey) (fden ex * fnum my ey).
Proof.
  cbn [SFdiv]. unfold SFdiv_core_binary. rewrite fexp_fexp64.
  pose proof (digits_bounds mx) as [L1 U1].
  pose proof (digits_bounds my) as [L2 U2].
  assert (P1 : 1 <= Zdigits2 (Zpos mx)) by (rewrite Zdigits2_log2 by lia; pose proof (Z.log2_nonneg (Zpos mx)); lia).
  assert (P2 : 1 <= Zdigits2 (Zpos my)) by (rewrite Zdigits2_log2 by lia; pose proof (Z.log2_nonneg (Zpos my)); lia).
  set (d1 := Zdigits2 (Zpos mx)) in *. set (d2 := Zdigits2 (Zpos my)) in *.
  set (e' := Z.min (fexp64 (d1 + ex - (d2 + ey))) (ex - ey)).
  set (sh := ex - ey - e').
  assert (Hsh : 0 <= sh) by (unfold sh, e'; lia).
  set (m' := match sh with
             | 0 => Zpos mx
             | Zpos _ => Z.shiftl (Zpos mx) sh
             | Zneg _ => 0
             end).
  assert (Em : m' = Zpos mx * 2 ^ sh).
  { unfold m'. destruct sh as [|p|p] eqn:E; [change (2 ^ 0) with 1; lia| |lia].
    apply Z.shiftl_mul_pow2. lia. }
  clearbody m'. rewrite div_eucl_div_mod.
  pose proof (pow2_pos sh Hsh) as Psh.
  pose proof (fnum_pos mx ex). pose proof (fden_pos ex).
  pose proof (fnum_pos my ey). pose proof (fden_pos ey).
  set (A := fnum mx ex * fden ey). set (B := fden ex * fnum my ey).
  assert (HA : 0 < A) by (unfold A; nia).
  assert (HB : 0 < B) by (unfold B; nia).
  (* the magnitude of the quotient *)
  assert (Mag : d1 + ex - (d2 + ey) - 1 <= ilog2 A B).
  { apply ilog2_lower; try assumption.
    set (K := Z.abs ex + Z.abs ey + d1 + d2).
    apply (pow2_le_shift K); [lia|lia|].
    unfold A, B. rewrite !fnum_pow, !fden_pow.
    set (k0 := d1 + ex - (d2 + ey) - 1).
    assert (Hl : 2 ^ (K + k0) * (2 ^ Z.max (- ex) 0 * (Zpos my * 2 ^ Z.max ey 0))
                 <= 2 ^ (K + k0) * (2 ^ Z.max (- ex) 0 * (2 ^ d2 * 2 ^ Z.max ey 0))).
    { pose proof (pow2_pos (K + k0) ltac:(lia)).
      pose proof (pow2_pos (Z.max (- ex) 0) ltac:(lia)).
      pose proof (pow2_pos (Z.max ey 0) ltac:(lia)).
      apply Z.mul_le_mono_nonneg_l; [lia|].
      apply Z.mul_le_mono_nonneg_l; [lia|].
      apply Z.mul_le_mono_nonneg_r; lia. }
    assert (Hr : 2 ^ K * (2 ^ (d1 - 1) * 2 ^ Z.max ex 0 * 2 ^ Z.max (- ey) 0)
                 <= 2 ^ K * (Zpos mx * 2 ^ Z.max ex 0 * 2 ^ Z.max (- ey) 0)).
    { pose proof (pow2_pos K ltac:(lia)).
      pose proof (pow2_pos (Z.max ex 0) ltac:(lia)).
      pose proof (pow2_pos (Z.max (- ey) 0) ltac:(lia)).
      apply Z.mul_le_mono_nonneg_l; [lia|].
      apply Z.mul_le_mono_nonneg_r; [lia|].
      apply Z.mul_le_mono_nonneg_r; lia. }
    assert (Hm : 2 ^ (K + k0) * (2 ^ Z.max (- ex) 0 * (2 ^ d2 * 2 ^ Z.max ey 0))
                 = 2 ^ K * (2 ^ (d1 - 1) * 2 ^ Z.max ex 0 * 2 ^ Z.max (- ey) 0)).
    { unfold k0. pow2_eq. }
    lia. }
  apply (Reference.binary_round_aux_round_ratio (xorb sx sy) (m' / Zpos my) e'
           (new_location (Zpos my) (m' mod Zpos my)) m' (Zpos my) A B);
    try assumption; try lia.
  - apply new_location_classify; [lia|]. apply Z.mod_pos_bound. lia.
  - rewrite Em. unfold A, B.
    rewrite scale_den_pow, scale_num_pow, !fnum_pow, !fden_pow.
    assert (Hp : 2 ^ sh * 2 ^ Z.max (- ex) 0 * 2 ^ Z.max ey 0 * 2 ^ Z.max e' 0
                 = 2 ^ Z.max ex 0 * 2 ^ Z.max (- ey) 0 * 2 ^ Z.max (- e') 0).
    { unfold sh. pow2_eq. }
    transitivity (Zpos mx * Zpos my
                  * (2 ^ sh * 2 ^ Z.max (- ex) 0 * 2 ^ Z.max ey 0 * 2 ^ Z.max e' 0));
      [ring|].
    rewrite Hp. ring.
  - unfold e', fexp64. lia.
  - intros Q0. destruct (Z_le_gt_dec e' emin) as [|G]; [assumption|exfalso].
    assert (Se : d2 - d1 + 53 <= sh) by (unfold sh, e', fexp64 in *; lia).
    assert (Big : 2 ^ d2 <= m').
    { rewrite Em. destruct (Z_le_gt_dec 0 (d2 - d1 + 53)) as [Nn|Ng].
      - assert (2 ^ (d2 - d1 + 53) <= 2 ^ sh) by (apply Z.pow_le_mono_r; lia).
        assert (2 ^ (d1 - 1) * 2 ^ (d2 - d1 + 53) = 2 ^ (d2 + 52)) by pow2_eq.
        assert (2 ^ d2 <= 2 ^ (d2 + 52)) by (apply Z.pow_le_mono_r; lia).
        nia.
      - assert (2 ^ d2 <= 2 ^ (d1 - 1)) by (apply Z.pow_le_mono_r; lia).
        nia. }
    assert (1 <= m' / Zpos my).
    { apply Z.div_le_lower_bound; lia. }
    lia.
Qed.


(** *** Subtraction *)

Lemma shl_align_spec m e t :
  let (m', e') := shl_align m e t in
  e' = Z.min e t /\ Zpos m' = Zpos m * 2 ^ (e - e').
Proof.
  unfold shl_align. destruct (t - e) as [|d|d] eqn:E.
  - split; [lia|]. replace (e - e) with 0 by lia. change (2 ^ 0) with 1. lia.
  - split; [lia|]. replace (e - e) with 0 by lia. change (2 ^ 0) with 1. lia.
  - split; [lia|]. replace (e - t) with (Zpos d) by lia.
    change (Pos.iter xO m d) with (shift_pos d m).
    rewrite shift_pos_correct. rewrite Z.mul_comm. reflexivity.
Qed.

(** [binary_round] of a positive integer [m] times [2^e] is the rounding
    of any fraction [a / b] of that value. *)
Lemma binary_round_round_ratio s m e a b :
  0 < a -> 0 < b ->
  Zpos m * scale_den b e = scale_num a e ->
  binary_round 53 1024 s m e = round_ratio s a b.
Proof.
  intros Ha Hb Hfrac. unfold binary_round. rewrite fexp_fexp64.
  pose proof (shl_align_spec m e (fexp64 (Zpos (digits2_pos m) + e))) as Sp.
  destruct (shl_align m e (fexp64 (Zpos (digits2_pos m) + e))) as [mz ez].
  destruct Sp as [Ez Mz].
  pose proof (scale_den_pos b e Hb) as Sd.
  pose proof (scale_den_pos b ez Hb) as Sdz.
  assert (Mag : Zpos (digits2_pos m) + e - 1 <= ilog2 a b).
  { apply ilog2_lower; try assumption.
    rewrite digits2_log2.
    replace (Z.log2 (Zpos m) + 1 + e - 1) with (Z.log2 (Zpos m) + e) by lia.
    apply pow2_le_scaled; [apply Z.log2_nonneg|].
    rewrite <- Hfrac.
    pose proof (Z.log2_spec (Zpos m) ltac:(lia)) as [L _].
    apply Z.mul_le_mono_nonneg_r; lia. }
  apply (Reference.binary_round_aux_round_ratio s (Zpos mz) ez loc_Exact
           (Zpos mz) 1 a b); try assumption; try lia.
  - rewrite Z.div_1_r. reflexivity.
  - rewrite Z.mod_1_r. reflexivity.
  - rewrite Z.mul_1_r, Mz.
    pose proof (scale_shift a b ez e ltac:(lia)) as Sh.
    apply (Z.mul_reg_r _ _ (scale_den b e)); [lia|].
    rewrite Sh, <- Hfrac. lia.
  - unfold fexp64 in Ez. lia.
Qed.

Lemma SFsub_round_ratio sx mx ex sy my ey :
  SFsub 53 1024 (S754_finite sx mx ex) (S754_finite sy my ey)
  = let n := snum sx mx ex * fden ey - snum sy my ey * fden ex in
    let d := fden ex * fden ey in
    match n with
    | Z0 => S754_zero false
    | Zpos _ => round_ratio false n d
    | Zneg p => round_ratio true (Zpos p) d
    end.
Proof.
  cbn [SFsub]. cbv zeta.
  set (ez := Z.min ex ey).
  pose proof (shl_align_spec mx ex ez) as S1.
  pose proof (shl_align_spec my ey ez) as S2.
  destruct (shl_align mx ex ez) as [x1 e1].
  destruct (shl_align my ey ez) as [y1 e2].
  destruct S1 as [E1 X1]. destruct S2 as [E2 Y1]. cbn [fst].
  assert (E1' : e1 = ez) by (unfold ez in *; lia).
  assert (E2' : e2 = ez) by (unfold ez in *; lia).
  rewrite E1' in X1. rewrite E2' in Y1. clear E1 E2 E1' E2' e1 e2.
  set (g := Z.max (- ex) 0 + Z.max (- ey) 0 + ez).
  assert (G0 : 0 <= g) by (unfold g, ez; lia).
  pose proof (pow2_pos g G0) as Pg.
  assert (T1 : fnum mx ex * fden ey = Zpos x1 * 2 ^ g).
  { rewrite X1, fnum_pow, fden_pow.
    transitivity (Zpos mx * (2 ^ Z.max ex 0 * 2 ^ Z.max (- ey) 0)); [lia|].
    transitivity (Zpos mx * (2 ^ (ex - ez) * 2 ^ g)); [|lia].
    f_equal. unfold g, ez. pow2_eq. }
  assert (T2 : fnum my ey * fden ex = Zpos y1 * 2 ^ g).
  { rewrite Y1, fnum_pow, fden_pow.
    transitivity (Zpos my * (2 ^ Z.max ey 0 * 2 ^ Z.max (- ex) 0)); [lia|].
    transitivity (Zpos my * (2 ^ (ey - ez) * 2 ^ g)); [|lia].
    f_equal. unfold g, ez. pow2_eq. }
  set (n := cond_Zopp sx (Zpos x1) - cond_Zopp sy (Zpos y1)).
  assert (En : snum sx mx ex * fden ey - snum sy my ey * fden ex = n * 2 ^ g).
  { unfold n, snum, cond_Zopp. destruct sx, sy; nia. }
  rewrite En. clearbody n.
  set (d := fden ex * fden ey).
  assert (Hd : 0 < d) by (unfold d; pose proof (fden_pos ex); pose proof (fden_pos ey); nia).
  assert (Ed : d * 2 ^ Z.max ez 0 = 2 ^ g * 2 ^ Z.max (- ez) 0).
  { unfold d. rewrite !fden_pow. unfold g. pow2_eq. }
  assert (Fr : forall p, Zpos p * scale_den d ez = scale_num (Zpos p * 2 ^ g) ez).
  { intros p. rewrite scale_den_pow, scale_num_pow.
    transitivity (Zpos p * (d * 2 ^ Z.max ez 0)); [lia|]. rewrite Ed. lia. }
  unfold binary_normalize.
  destruct n as [|p|p].
  - reflexivity.
  - assert (Hp : 0 < Zpos p * 2 ^ g) by nia.
    destruct (Zpos p * 2 ^ g) as [|p'|p'] eqn:Ep; try lia.
    rewrite <- Ep. apply binary_round_round_ratio; try lia. apply Fr.
  - assert (Hp : Zneg p * 2 ^ g < 0) by nia.
    destruct (Zneg p * 2 ^ g) as [|p'|p'] eqn:Ep; try lia.
    assert (Ep' : Zpos p' = Zpos p * 2 ^ g) by lia.
    rewrite Ep'. apply binary_round_round_ratio; try lia. apply Fr.
Qed.

End Reference.

(** ** The operations on finite numbers *)

Module Arith.

Import NumFacts.

Lemma fdiv_finite sx mx ex sy my ey :
  fdiv (S754_finite sx mx ex) (S754_finite sy my ey)
  = round_ratio (xorb sx sy) (fnum mx ex * fden ey) (fden ex * fnum my ey).
Proof. apply Reference.SFdiv_round_ratio. Qed.

Lemma fsub_finite sx mx ex sy my ey :
  fsub (S754_finite sx mx ex) (S754_finite sy my ey)
  = let n := snum sx mx ex * fden ey - snum sy my ey * fden ex in
    let d := fden ex * fden ey in
    match n with
    | Z0 => S754_zero false
    | Zpos _ => round_ratio false n d
    | Zneg p => round_ratio true (Zpos p) d
    end.
Proof. apply Reference.SFsub_round_ratio. Qed.

Lemma of_Z_pos p : of_Z (Zpos p) = round_ratio false (Zpos p) 1.
Proof.
  unfold of_Z. cbn [binary_normalize].
  apply Reference.binary_round_round_ratio; try lia.
  change (scale_den 1 0) with 1. change (scale_num (Zpos p) 0) with (Zpos p).
  lia.
Qed.

Lemma of_Z_neg p : of_Z (Zneg p) = round_ratio true (Zpos p) 1.
Proof.
  unfold of_Z. cbn [binary_normalize].
  apply Reference.binary_round_round_ratio; try lia.
  change (scale_den 1 0) with 1. change (scale_num (Zpos p) 0) with (Zpos p).
  lia.
Qed.

Lemma of_Z_1 : of_Z 1 = S754_finite false 4503599627370496 (-52).
Proof. vm_compute. reflexivity. Qed.

Lemma of_Z_100 : of_Z 100 = S754_finite false 7036874417766400 (-46).
Proof. vm_compute. reflexivity. Qed.

(** Every quotient is a binary64 value. *)
Lemma fdiv_valid x y : valid (fdiv x y) = true.
Proof.
  destruct x as [sx|sx| |sx mx ex], y as [sy|sy| |sy my ey]; try reflexivity.
  rewrite fdiv_finite.
  pose proof (fnum_pos mx ex). pose proof (fden_pos ex).
  pose proof (fnum_pos my ey). pose proof (fden_pos ey).
  destruct (round_ratio_cases (xorb sx sy) (fnum mx ex * fden ey)
              (fden ex * fnum my ey)) as [[E _]|[E|(m & e & E & V & _)]];
    try nia; rewrite E; auto.
Qed.

Lemma fdiv_zero_finite s t m e :
  fdiv (S754_zero s) (S754_finite t m e) = S754_zero (xorb s t).
Proof. reflexivity. Qed.

(** *** Division by one *)

Lemma fdiv_1 x : valid x = true -> fdiv x (of_Z 1) = x.
Proof.
  intros V. rewrite of_Z_1. destruct x as [s|s| |s m e];
    try (destruct s; reflexivity); try reflexivity.
  rewrite fdiv_finite, xorb_false_r.
  rewrite <- (round_ratio_exact s m e V).
  change (fden (-52)) with 4503599627370496.
  change (fnum 4503599627370496 (-52)) with 4503599627370496.
  apply round_ratio_scale; try lia; [apply fnum_pos|apply fden_pos].
Qed.

(** *** Integers *)

(** Integers below [2^53] are binary64 values. *)
Lemma of_Z_exact z :
  0 < z < 2 ^ 53 ->
  exists m e, of_Z z = S754_finite false m e /\
              valid (S754_finite false m e) = true /\
              fnum m e = z * fden e.
Proof.
  intros [Hz Uz].
  pose proof (Z.log2_spec z Hz) as [L U].
  pose proof (Z.log2_nonneg z) as L0.
  pose proof (log2_below z ltac:(lia)) as L1.
  set (l := Z.log2 z) in *.
  set (k := 52 - l).
  pose proof (pow2_pos k ltac:(lia)) as Pk.
  set (M := z * 2 ^ k).
  assert (HM : 2 ^ 52 <= M < 2 ^ 53).
  { unfold M. replace 52 with (l + k) by lia.
    replace 53 with (Z.succ l + k) by lia.
    rewrite !pow2_split by lia. nia. }
  assert (V : valid (S754_finite false (Z.to_pos M) (- k)) = true).
  { apply valid_normal; [rewrite Z2Pos.id by lia; assumption|].
    unfold emin, etop. lia. }
  assert (F : fnum (Z.to_pos M) (- k) = z * fden (- k)).
  { unfold fnum, fden. rewrite Z2Pos.id by lia.
    destruct (Z.leb_spec 0 (- k)).
    - assert (k = 0) as K0 by lia. unfold M. rewrite K0. simpl. lia.
    - rewrite Z.opp_involutive. reflexivity. }
  exists (Z.to_pos M), (- k). split; [|split; assumption].
  rewrite <- (round_ratio_exact _ _ _ V).
  destruct z; try lia. rewrite of_Z_pos.
  apply round_ratio_eq; try lia; [apply fnum_pos|apply fden_pos].
Qed.

(** Subtracting one from a positive integer below [2^53] is exact. *)
Lemma fsub_of_Z_1 z :
  0 < z < 2 ^ 53 -> fsub (of_Z z) (of_Z 1) = of_Z (z - 1).
Proof.
  intros Hz. destruct (of_Z_exact z Hz) as (m & e & E & V & F).
  rewrite E, of_Z_1, fsub_finite. cbv zeta. unfold snum.
  change (fden (-52)) with 4503599627370496.
  change (fnum 4503599627370496 (-52)) with 4503599627370496.
  rewrite F. pose proof (fden_pos e) as Hd.
  replace (z * fden e * 4503599627370496 - 4503599627370496 * fden e)
    with ((z - 1) * (fden e * 4503599627370496)) by ring.
  destruct (Z.eq_dec z 1) as [->|N1]; [reflexivity|].
  assert (0 < z - 1) as Hz1 by lia.
  destruct (z - 1) as [|p|p] eqn:Ez; try lia.
  assert (0 < Zpos p * (fden e * 4503599627370496)) as Hp by nia.
  destruct (Zpos p * (fden e * 4503599627370496)) as [|q|q] eqn:Eq; try lia.
  rewrite <- Eq, of_Z_pos.
  rewrite <- (Z.mul_1_l (fden e * 4503599627370496)) at 2.
  apply round_ratio_scale; lia.
Qed.



Lemma fdiv_100_integer s m e :
  is_integer (S754_finite s m e) = true ->
  fdiv (S754_finite s m e) (of_Z 100) = round_ratio s (int_of m e) 100.
Proof.
  intros I. destruct (is_integer_value s m e I) as [HP F].
  rewrite of_Z_100, fdiv_finite, xorb_false_r.
  change (fden (-46)) with 70368744177664.
  change (fnum 7036874417766400 (-46)) with 7036874417766400.
  pose proof (fden_pos e). pose proof (fnum_pos m e).
  apply round_ratio_eq; lia.
Qed.

(** The quotient of a non-zero integer by 100 survives
    [Number(x.toFixed(2))] unchanged. *)
Lemma round2_div_100 s m e :
  is_integer (S754_finite s m e) = true ->
  round2 (fdiv (S754_finite s m e) (of_Z 100))
  = fdiv (S754_finite s m e) (of_Z 100).
Proof.
  intros I. rewrite (fdiv_100_integer s m e I).
  apply round2_hundredths. apply (is_integer_value s m e I).
Qed.


End Arith.

Import NumFacts Arith.

Local Open Scope string_scope.

(** ** Facts on the handler *)

Lemma round2_zero s : round2 (S754_zero s) = S754_zero false.
Proof. reflexivity. Qed.

Lemma bind_ok {A B : Type} (r : result A) (k : A -> result B) (b : B) :
  bind r k = Ok b -> exists a, r = Ok a /\ k a = Ok b.
Proof. destruct r as [a|e]; simpl; intros H; [eauto|discriminate]. Qed.

Lemma bindM_ok {A B : Type} (m : M A) (k : A -> M B) (b : B) calls :
  bindM m k = (Ok b, calls) ->
  exists a c1 c2, m = (Ok a, c1) /\ k a = (Ok b, c2) /\ calls = (c1 ++ c2)%list.
Proof.
  destruct m as [[a|e] c1]; simpl; [|discriminate].
  destruct (k a) as [r c2] eqn:E. intros H. inversion H; subst.
  exists a, c1, c2. auto.
Qed.

Lemma lift_ok {A : Type} (r : result A) (a : A) calls :
  lift r = (Ok a, calls) -> r = Ok a /\ calls = [].
Proof. unfold lift. intros H. inversion H. auto. Qed.

Section Properties.

Variable s2n : string -> number.
Variable n2s : number -> string.

(** C4.  For every integer minor-unit price [p] and every rate [r] (a
    positive one in particular), the entry [{ iPrice: p }] yields the
    source-currency amount [round2 (p / 100)] and the target-currency
    amount [round2 (round2 (p / 100) / r)], where [round2 x] is
    [Number(x.toFixed(2))].  The source divides the unrounded quotient
    [p / 100] by the rate; for an integer [p] that quotient is the binary64
    value nearest to a number of hundredths, which [round2] leaves
    unchanged, so both readings agree. *)
Theorem price_conversion (p r : number) (fields : list (string * value)) :
  is_integer p = true ->
  lookup "iPrice" fields = VNumber p ->
  price_of_item s2n n2s (VNumber r) (VObject fields)
  = Ok {| czk := round2 (fdiv p (of_Z 100));
          eur := round2 (fdiv (round2 (fdiv p (of_Z 100))) r) |}
  /\ round2 (fdiv (round2 (fdiv p (of_Z 100))) r)
     = round2 (fdiv (fdiv p (of_Z 100)) r).
Proof.
  intros I L. unfold price_of_item. cbn [get bind]. rewrite L.
  destruct p as [s|s| |s m e]; try discriminate.
  - unfold or_else. cbn [truthy Num.truthy num to_number bind].
    change (of_Z 0) with (S754_zero false).
    rewrite of_Z_100, !fdiv_zero_finite. rewrite xorb_false_r, !round2_zero.
    split; [reflexivity|]. destruct s, r as [[]|[]| |[]]; reflexivity.
  - unfold or_else. cbn [truthy Num.truthy to_number bind].
    rewrite (round2_div_100 s m e I). split; reflexivity.
Qed.


(** Peel the first [let*] of a hypothesis [H : (let* x := r in k) = Ok b]. *)
Ltac bind_step H :=
  match type of H with
  | bind ?r _ = Ok _ =>
      let E := fresh "E" in
      destruct r eqn:E; cbn [bind] in H; [|discriminate H]
  end.

Lemma filter_tokens tokens :
  forallb is_token tokens = true ->
  filter truthy tokens = map VString (present_tokens tokens).
Proof.
  induction tokens as [|t rest IH]; [reflexivity|].
  cbn [forallb]. rewrite andb_true_iff. intros [T R].
  specialize (IH R).
  destruct t; try discriminate; cbn [filter truthy present_tokens];
    try assumption.
  destruct (String.eqb s ""); cbn [negb map]; congruence.
Qed.

Lemma join_strings sep (l : list string) :
  join n2s sep (map VString l) = Ok (String.concat sep l).
Proof.
  unfold join. induction l as [|s rest IH]; [reflexivity|].
  cbn [map join_with nullish to_string bind].
  destruct rest as [|s' rest']; [reflexivity|].
  cbn [map] in *. rewrite IH. reflexivity.
Qed.

Lemma lineName_tokens tokens :
  forallb is_token tokens = true ->
  lineName n2s tokens = Ok (trim (String.concat " " (present_tokens tokens))).
Proof.
  intros T. unfold lineName. rewrite (filter_tokens tokens T), join_strings.
  reflexivity.
Qed.

(** Only an object can be a leg: on any other value a time stamp is
    missing and [parseDate] throws. *)
Lemma leg_record_object (leg record : value) :
  leg_record n2s leg = Ok record -> exists fields, leg = VObject fields.
Proof.
  destruct leg as [| |b|x|s|items|fields]; intros H; try discriminate; eauto.
Qed.

(** C7.  The [lineName] of a leg whose four tokens [sType], [sNum1],
    [sNum2], [sNum3] are strings, [null] or absent is the non-empty tokens
    in order, joined by single spaces, and trimmed; the tokens
    ["EC", "123", "", null] give ["EC 123"]. *)
Theorem line_name_of_leg (fields : list (string * value)) (record : value) :
  let tokens := [lookup "sType" fields; lookup "sNum1" fields;
                 lookup "sNum2" fields; lookup "sNum3" fields] in
  forallb is_token tokens = true ->
  leg_record n2s (VObject fields) = Ok record ->
  get record "lineName"
  = Ok (VString (trim (String.concat " " (present_tokens tokens))))
  /\ lineName n2s [VString "EC"; VString "123"; VString ""; VNull]
     = Ok "EC 123".
Proof.
  intros tokens T H. split; [|reflexivity].
  unfold leg_record in H. cbn [get bind] in H.
  bind_step H. bind_step H.
  fold tokens in H. rewrite (lineName_tokens tokens T) in H. cbn [bind] in H.
  inversion H; subst. reflexivity.
Qed.

(** C6.  The record assembled for a connection with [k >= 1] legs has
    [transfers = k - 1], and [transfers = 0] for a single leg.  ([k] is the
    length of a JavaScript array, which is below [2^32].) *)
Theorem transfers_count (prices : list price) (i : nat) (c record : value)
  (legs : list value) :
  get c "aoTrains" = Ok (VArray legs) ->
  (1 <= List.length legs)%nat ->
  (Z.of_nat (List.length legs) < 2 ^ 32)%Z ->
  connection_record s2n n2s prices i c = Ok record ->
  get record "transfers" = Ok (num (Z.of_nat (List.length legs) - 1))
  /\ (List.length legs = 1%nat ->
      get record "transfers" = Ok (VNumber (S754_zero false))).
Proof.
  intros G L U H.
  assert (T : get record "transfers"
              = Ok (num (Z.of_nat (List.length legs) - 1))).
  { unfold connection_record in H.
    bind_step H. bind_step H. rewrite G in H. cbn [bind get] in H.
    change (String.eqb "length" "length") with true in H.
    cbn [to_number bind] in H. bind_step H.
    inversion H; subst. cbn [get lookup].
    change (String.eqb "transfers" "id") with false.
    change (String.eqb "transfers" "priceCzk") with false.
    change (String.eqb "transfers" "priceEur") with false.
    change (String.eqb "transfers" "transfers") with true.
    cbv iota. unfold num. rewrite fsub_of_Z_1; [reflexivity|].
    change (2 ^ 32)%Z with 4294967296%Z in U.
    change (2 ^ 53)%Z with 9007199254740992%Z. lia. }
  split; [exact T|]. intros One. rewrite T, One. reflexivity.
Qed.

(** C8.  [parseDate] of the literal [/Date(1700000000000)/] is the
    ISO-8601 text of the instant 1700000000000 ms after the epoch,
    2023-11-14 22:13:20.000 UTC. *)
Theorem parseDate_1700000000000 :
  parseDate (VString "/Date(1700000000000)/") = Ok "2023-11-14T22:13:20.000Z"
  /\ Date.utc 2023 11 14 22 13 20 0 = 1700000000000%Z.
Proof. split; vm_compute; reflexivity. Qed.

(** C2.  The source does not do what the specification asks of the
    Session Initiator: on a session reply without a token ([{}], or
    [{ "d": {} }]) [createSession] returns [undefined] and throws
    nothing. *)
Theorem session_without_token :
  fst (createSession n2s (Response 200 "OK" (Ok "{}") (Ok (VObject []))))
  = Ok VUndefined
  /\ fst (createSession n2s
            (Response 200 "OK" (Ok "{}") (Ok (VObject [("d", VObject [])]))))
     = Ok VUndefined.
Proof. split; reflexivity. Qed.

Lemma travel_class_ok q : exists cls, travel_class s2n n2s q = Ok cls.
Proof.
  unfold travel_class, or_else.
  destruct (q_class q) as [s|]; cbn [param truthy].
  - destruct (negb (String.eqb s "")); cbn [to_number num]; eauto.
  - cbn [to_number num]. eauto.
Qed.

Lemma truthy_param_string (s : string) :
  s <> "" -> truthy (param (Some s)) = true.
Proof.
  intros N. cbn [param truthy]. destruct (String.eqb_spec s ""); [contradiction|reflexivity].
Qed.

(** C3, amended.  When [from], [to] or [dep] is absent or empty, the
    handler answers 400 with [{ "error": "Missing from, to, or dep" }] and
    issues no remote call; when the three are present and not empty, it
    does not answer 400. *)
Theorem missing_parameter_400 (w : world) (q : query) :
  (q_from q = None \/ q_to q = None \/ q_dep q = None
   \/ q_from q = Some "" \/ q_to q = Some "" \/ q_dep q = Some "" ->
   connections_handler s2n n2s w q
   = ({| status := 400;
         body := VObject [("error", VString "Missing from, to, or dep")] |},
      []))
  /\ (forall a b c,
         q_from q = Some a -> q_to q = Some b -> q_dep q = Some c ->
         a <> "" -> b <> "" -> c <> "" ->
         status (fst (connections_handler s2n n2s w q)) <> 400%Z).
Proof.
  destruct (travel_class_ok q) as [cls C].
  unfold connections_handler, try_block. rewrite C.
  cbn [lift bindM]. split.
  - intros H.
    assert (Mq : missing q = true).
    { unfold missing.
      destruct H as [H|[H|[H|[H|[H|H]]]]]; rewrite H; cbn [param truthy];
        rewrite ?orb_true_r; reflexivity. }
    rewrite Mq. reflexivity.
  - intros a b c Ha Hb Hc Na Nb Nc.
    assert (Mq : missing q = false).
    { unfold missing. rewrite Ha, Hb, Hc.
      rewrite !truthy_param_string by assumption. reflexivity. }
    rewrite Mq.
    destruct (fetch_all s2n n2s w q cls) as [[f|e] calls]; cbn [bindM lift].
    + destruct (assemble s2n n2s (f_connections f) (f_prices f));
        cbn [ret fst status]; discriminate.
    + cbn [fst status]. discriminate.
Qed.


(** *** [map] with a callback that may throw *)

Lemma map_from_spec {A : Type} (f : nat -> value -> result A) items :
  forall i ys,
    map_from f i items = Ok ys ->
    List.length ys = List.length items
    /\ (forall k x, nth_error items k = Some x ->
                    exists y, nth_error ys k = Some y /\ f (i + k)%nat x = Ok y)
    /\ (forall k y, nth_error ys k = Some y ->
                    exists x, nth_error items k = Some x /\ f (i + k)%nat x = Ok y).
Proof.
  induction items as [|x rest IH]; intros i ys H.
  - inversion H; subst. repeat split; intros [|k] z Hz; discriminate.
  - cbn [map_from] in H. bind_step H. bind_step H. inversion H; subst.
    destruct (IH _ _ E0) as (L & F & G).
    split; [cbn [List.length]; congruence|]. split.
    + intros [|k] z Hz; cbn [nth_error] in *.
      * inversion Hz; subst. exists a. rewrite Nat.add_0_r. auto.
      * destruct (F k z Hz) as (y & Y1 & Y2). exists y.
        replace (i + S k)%nat with (S i + k)%nat by lia. auto.
    + intros [|k] z Hz; cbn [nth_error] in *.
      * inversion Hz; subst. exists x. rewrite Nat.add_0_r. auto.
      * destruct (G k z Hz) as (y & Y1 & Y2). exists y.
        replace (i + S k)%nat with (S i + k)%nat by lia. auto.
Qed.

Lemma map_from_Forall2 {A : Type} (g : value -> result A) items :
  forall i ys,
    map_from (fun _ x => g x) i items = Ok ys ->
    Forall2 (fun x y => g x = Ok y) items ys.
Proof.
  induction items as [|x rest IH]; intros i ys H.
  - inversion H. constructor.
  - cbn [map_from] in H. bind_step H. bind_step H. inversion H; subst.
    constructor; eauto.
Qed.

Lemma array_map_ok {A : Type} what (f : nat -> value -> result A) v ys :
  array_map what f v = Ok ys ->
  exists items, v = VArray items /\ map_from f 0 items = Ok ys.
Proof.
  destruct v; cbn [array_map]; intros H; try discriminate. eauto.
Qed.

(** *** What a successful run of steps 1 to 5 did *)

Lemma postJSON_calls r url body x calls :
  postJSON n2s r url body = (x, calls) -> calls = [POST url body].
Proof. unfold postJSON. intros H. inversion H. reflexivity. Qed.

Lemma getPrices_ok r sessionID handle connIDs cls age rate prices calls :
  getPrices s2n n2s r sessionID handle connIDs cls age rate = (Ok prices, calls) ->
  exists items body,
    map_from (fun _ item => price_of_item s2n n2s rate item) 0 items = Ok prices
    /\ calls = [POST price_url (VObject body)]
    /\ lookup "aiConnID" body = VArray connIDs.
Proof.
  unfold getPrices. intros H.
  apply bindM_ok in H. destruct H as (json & c1 & c2 & P & H & ->).
  apply postJSON_calls in P. subst c1.
  apply lift_ok in H. destruct H as [H ->].
  bind_step H. apply array_map_ok in H. destruct H as (items & _ & H).
  eexists items, _. split; [exact H|]. split; reflexivity.
Qed.

Lemma fetch_all_ok w q cls f calls :
  fetch_all s2n n2s w q cls = (Ok f, calls) ->
  exists cs items earlier body,
    f_connections f = VArray cs
    /\ map_from (fun _ c => get c "iID") 0 cs = Ok (f_connIDs f)
    /\ fst (fetchCzkRate (rate_reply w)) = Ok (f_rate f)
    /\ map_from (fun _ item => price_of_item s2n n2s (f_rate f) item) 0 items
       = Ok (f_prices f)
    /\ calls = (earlier ++ [POST price_url (VObject body)])%list
    /\ lookup "aiConnID" body = VArray (f_connIDs f).
Proof.
  unfold fetch_all. intros H.
  apply bindM_ok in H. destruct H as (stations & c1 & k1 & _ & H & ->).
  apply bindM_ok in H. destruct H as (sessionID & c2 & k2 & _ & H & ->).
  apply bindM_ok in H. destruct H as (depMs & c3 & k3 & L3 & H & ->).
  apply lift_ok in L3. destruct L3 as [_ ->].
  apply bindM_ok in H. destruct H as (age & c4 & k4 & L4 & H & ->).
  apply lift_ok in L4. destruct L4 as [_ ->].
  apply bindM_ok in H. destruct H as (found & c5 & k5 & _ & H & ->).
  apply bindM_ok in H. destruct H as (czkRate & c6 & k6 & R & H & ->).
  apply bindM_ok in H. destruct H as (connIDs & c7 & k7 & L7 & H & ->).
  apply lift_ok in L7. destruct L7 as [Ids ->].
  apply bindM_ok in H. destruct H as (age' & c8 & k8 & L8 & H & ->).
  apply lift_ok in L8. destruct L8 as [_ ->].
  apply bindM_ok in H. destruct H as (prices & c9 & k9 & P & H & ->).
  unfold ret in H. inversion H; subst. clear H. cbn [f_connections f_connIDs f_rate f_prices].
  apply array_map_ok in Ids. destruct Ids as (cs & Cs & Ids).
  apply getPrices_ok in P. destruct P as (items & body & P & -> & B).
  exists cs, items, (c1 ++ c2 ++ c5 ++ c6)%list, body.
  repeat split; try assumption.
  - rewrite R. reflexivity.
  - cbn [app]. rewrite <- !app_assoc. reflexivity.
Qed.

Lemma connection_record_ok prices i c record :
  connection_record s2n n2s prices i c = Ok record ->
  exists p,
    nth_error prices i = Some p
    /\ get c "iID" = get record "id"
    /\ get record "priceCzk" = Ok (VNumber (czk p))
    /\ get record "priceEur" = Ok (VNumber (eur p)).
Proof.
  unfold connection_record. intros H.
  bind_step H. destruct (nth_error prices i) as [p|]; cbn [bind] in H;
    [|discriminate].
  do 4 bind_step H. inversion H; subst.
  exists p. repeat split; reflexivity || assumption.
Qed.

(** C1.  For every request whose steps 1 to 5 succeed, the identifiers
    sent to the price service ([aiConnID] of the last call) are the [iID]
    of the connections of the journey search, in their order; and when the
    assembly succeeds the handler answers 200 with one record per
    connection, the record at position [i] carrying the [iID] of
    [connections[i]] and the amounts of [prices[i]]: the two lists are
    zipped by position. *)
Theorem positional_pairing (w : world) (q : query) (cls : number)
  (f : fetched) (calls : list request) :
  missing q = false ->
  travel_class s2n n2s q = Ok cls ->
  fetch_all s2n n2s w q cls = (Ok f, calls) ->
  exists cs,
    f_connections f = VArray cs
    /\ Forall2 (fun c i => get c "iID" = Ok i) cs (f_connIDs f)
    /\ (exists earlier body,
           calls = (earlier ++ [POST price_url (VObject body)])%list
           /\ lookup "aiConnID" body = VArray (f_connIDs f))
    /\ forall out,
         assemble s2n n2s (f_connections f) (f_prices f) = Ok out ->
         connections_handler s2n n2s w q
         = ({| status := 200; body := VArray out |}, calls)
         /\ List.length out = List.length cs
         /\ forall i c,
              nth_error cs i = Some c ->
              exists p record,
                nth_error (f_prices f) i = Some p
                /\ nth_error out i = Some record
                /\ get c "iID" = get record "id"
                /\ get record "priceCzk" = Ok (VNumber (czk p))
                /\ get record "priceEur" = Ok (VNumber (eur p)).
Proof.
  intros Mq C H.
  destruct (fetch_all_ok _ _ _ _ _ H)
    as (cs & items & earlier & body & Cs & Ids & _ & _ & Calls & Body).
  exists cs. split; [assumption|]. split.
  { apply (map_from_Forall2 (fun c => get c "iID") cs 0). exact Ids. }
  split; [eauto|].
  intros out A. split.
  { unfold connections_handler, try_block. rewrite C. cbn [lift bindM].
    rewrite Mq, H. cbn [bindM]. rewrite A. cbn [lift ret app].
    rewrite !app_nil_r. reflexivity. }
  rewrite Cs in A. cbn [assemble array_map] in A.
  destruct (map_from_spec _ _ _ _ A) as (L & F & _).
  split; [assumption|]. intros i c Hc.
  destruct (F i c Hc) as (record & Ho & R). cbn [Nat.add] in R.
  destruct (connection_record_ok _ _ _ _ R) as (p & P1 & P2 & P3 & P4).
  exists p, record. auto.
Qed.


(** *** Fewer prices than connections *)

Lemma connection_record_out_of_range prices i c :
  (List.length prices <= i)%nat ->
  exists e, connection_record s2n n2s prices i c = Throw e.
Proof.
  intros L. unfold connection_record.
  destruct (get c "iID"); cbn [bind]; [|eauto].
  apply nth_error_None in L. rewrite L. cbn [bind]. eauto.
Qed.

Lemma map_from_short prices cs :
  forall i,
    (i <= List.length prices)%nat ->
    (List.length prices < i + List.length cs)%nat ->
    exists e, map_from (connection_record s2n n2s prices) i cs = Throw e.
Proof.
  induction cs as [|c rest IH]; intros i Lo Hi; cbn [List.length] in Hi.
  - lia.
  - cbn [map_from].
    destruct (Nat.eq_dec i (List.length prices)) as [E|N].
    + destruct (connection_record_out_of_range prices i c ltac:(lia)) as [e ->].
      cbn [bind]. eauto.
    + destruct (connection_record s2n n2s prices i c); cbn [bind]; [|eauto].
      destruct (IH (S i) ltac:(lia) ltac:(lia)) as [e ->]. cbn [bind]. eauto.
Qed.

(** C10.  When the price list is shorter than the list of connections,
    the assembly throws and the handler answers 500 with an error body:
    there is no partial array of records. *)
Theorem short_price_list_500 (w : world) (q : query) (cls : number)
  (f : fetched) (calls : list request) (cs : list value) :
  missing q = false ->
  travel_class s2n n2s q = Ok cls ->
  fetch_all s2n n2s w q cls = (Ok f, calls) ->
  f_connections f = VArray cs ->
  (List.length (f_prices f) < List.length cs)%nat ->
  exists e,
    assemble s2n n2s (f_connections f) (f_prices f) = Throw e
    /\ connections_handler s2n n2s w q
       = ({| status := 500; body := VObject [("error", VString (message e))] |},
          calls).
Proof.
  intros Mq C F Cs Short.
  destruct (map_from_short (f_prices f) cs 0 ltac:(lia) ltac:(lia)) as [e A].
  exists e.
  assert (A' : assemble s2n n2s (f_connections f) (f_prices f) = Throw e).
  { rewrite Cs. exact A. }
  split; [exact A'|].
  unfold connections_handler, try_block. rewrite C. cbn [lift bindM].
  rewrite Mq, F. cbn [bindM]. rewrite A'. cbn [lift app].
  rewrite app_nil_r. reflexivity.
Qed.

(** *** The rate fallback *)

Lemma lookup_no_key k fields : has_key k fields = false -> lookup k fields = VUndefined.
Proof.
  induction fields as [|[k' v] rest IH]; [reflexivity|].
  cbn [has_key lookup]. destruct (String.eqb k k'); [discriminate|exact IH].
Qed.

Lemma fetchCzkRate_fallback st stt txt json :
  nullish json = false ->
  no_czk_field json = true ->
  fst (fetchCzkRate (Response st stt txt (Ok json))) = Ok (num 1).
Proof.
  intros N F. unfold fetchCzkRate. cbn [fst bind].
  destruct json as [| |b|x|s|items|fields]; try discriminate;
    cbn [get bind get_opt nullish];
    try change (String.eqb "rates" "length") with false; cbv iota;
    cbn [get_opt nullish bind]; try reflexivity.
  cbn [no_czk_field] in F.
  destruct (lookup "rates" fields) as [| |b|x|s|items|rates];
    cbn [get_opt nullish get bind];
    try change (String.eqb "CZK" "length") with false; cbv iota;
    cbn [bind]; try reflexivity.
  rewrite lookup_no_key; [reflexivity|].
  destruct (has_key "CZK" rates); [discriminate|reflexivity].
Qed.

Lemma price_at_rate_1 item p :
  price_of_item s2n n2s (num 1) item = Ok p -> eur p = czk p.
Proof.
  unfold price_of_item. intros H. bind_step H. bind_step H.
  cbn [num to_number bind] in H. inversion H; subst. cbn [eur czk].
  rewrite fdiv_1 by apply fdiv_valid. reflexivity.
Qed.

Lemma handler_200 w q out :
  fst (connections_handler s2n n2s w q) = {| status := 200; body := VArray out |} ->
  exists cls f calls,
    fetch_all s2n n2s w q cls = (Ok f, calls)
    /\ assemble s2n n2s (f_connections f) (f_prices f) = Ok out.
Proof.
  destruct (travel_class_ok q) as [cls C].
  unfold connections_handler, try_block. rewrite C. cbn [lift bindM].
  destruct (missing q); [cbn [ret fst]; discriminate|].
  destruct (fetch_all s2n n2s w q cls) as [[f|e] calls] eqn:F; cbn [bindM lift];
    [|cbn [fst]; discriminate].
  destruct (assemble s2n n2s (f_connections f) (f_prices f)) as [o|e] eqn:A;
    cbn [ret fst]; [|discriminate].
  intros H. inversion H; subst. eauto.
Qed.

(** C5, amended.  When the body of the rate service is a JSON value
    other than [null] that names no [CZK] rate, the rate used is [1], and
    every record of a 200 response has [priceEur] equal to [priceCzk]. *)
Theorem rate_fallback (w : world) (q : query) st stt txt (json : value) :
  rate_reply w = Response st stt txt (Ok json) ->
  nullish json = false ->
  no_czk_field json = true ->
  fst (fetchCzkRate (rate_reply w)) = Ok (num 1)
  /\ forall out,
       fst (connections_handler s2n n2s w q)
       = {| status := 200; body := VArray out |} ->
       forall record,
         In record out ->
         exists x, get record "priceCzk" = Ok (VNumber x)
                   /\ get record "priceEur" = Ok (VNumber x).
Proof.
  intros Rr N F.
  assert (R1 : fst (fetchCzkRate (rate_reply w)) = Ok (num 1)).
  { rewrite Rr. apply fetchCzkRate_fallback; assumption. }
  split; [exact R1|].
  intros out H record I.
  destruct (handler_200 _ _ _ H) as (cls & f & calls & Fa & A).
  destruct (fetch_all_ok _ _ _ _ _ Fa)
    as (cs & items & earlier & body & Cs & _ & Rate & Prices & _ & _).
  rewrite R1 in Rate. inversion Rate as [Rate']. rewrite <- Rate' in Prices.
  rewrite Cs in A. cbn [assemble array_map] in A.
  destruct (map_from_spec _ _ _ _ A) as (_ & _ & G).
  destruct (In_nth_error _ _ I) as [i Hi].
  destruct (G i record Hi) as (c & _ & Rc).
  destruct (connection_record_ok _ _ _ _ Rc) as (p & P1 & _ & P3 & P4).
  destruct (map_from_spec _ _ _ _ Prices) as (_ & _ & Gp).
  destruct (Gp _ _ P1) as (item & _ & Pi).
  apply price_at_rate_1 in Pi.
  exists (czk p). rewrite P3, P4, Pi. auto.
Qed.

End Properties.

(** ** The model on examples *)

(** [Number((1.005).toFixed(2))] is [1], [Number((8.345).toFixed(2))] is
    [8.35] and [Number((0.125).toFixed(2))] is [0.13], as in JavaScript. *)
Example round2_samples :
  round2 (fdiv (of_Z 1005) (of_Z 1000)) = of_Z 1
  /\ round2 (fdiv (of_Z 8345) (of_Z 1000)) = fdiv (of_Z 835) (of_Z 100)
  /\ round2 (fdiv (of_Z 125) (of_Z 1000)) = fdiv (of_Z 13) (of_Z 100).
Proof. repeat split; vm_compute; reflexivity. Qed.

(** The sample request is answered with two records. *)
Example sample_response :
  exists r1 r2,
    fst (Sample.handler Sample.services Sample.praha_brno)
    = {| status := 200; body := VArray [VObject r1; VObject r2] |}
    /\ lookup "priceCzk" r1 = VNumber (fdiv (of_Z 219) (of_Z 1))
    /\ lookup "priceEur" r1 = VNumber (fdiv (of_Z 876) (of_Z 100))
    /\ lookup "transfers" r2 = num 1.
Proof. do 2 eexists. vm_compute. repeat split; reflexivity. Qed.

(** ** The claims on concrete inputs *)

(** C1 on the sample request. *)
Lemma positional_pairing_witness :
  missing Sample.praha_brno = false
  /\ travel_class Sample.StringToNumber Sample.NumberToString Sample.praha_brno
     = Ok (of_Z 2)
  /\ Sample.run = (Ok (Sample.fetched_of Sample.run), snd Sample.run)
  /\ exists cs,
       f_connections (Sample.fetched_of Sample.run) = VArray cs
       /\ Forall2 (fun c i => get c "iID" = Ok i) cs
                  (f_connIDs (Sample.fetched_of Sample.run))
       /\ (exists earlier body,
              snd Sample.run = (earlier ++ [POST price_url (VObject body)])%list
              /\ lookup "aiConnID" body
                 = VArray (f_connIDs (Sample.fetched_of Sample.run)))
       /\ forall out,
            assemble Sample.StringToNumber Sample.NumberToString
                     (f_connections (Sample.fetched_of Sample.run))
                     (f_prices (Sample.fetched_of Sample.run)) = Ok out ->
            Sample.handler Sample.services Sample.praha_brno
            = ({| status := 200; body := VArray out |}, snd Sample.run)
            /\ List.length out = List.length cs
            /\ forall i c,
                 nth_error cs i = Some c ->
                 exists p record,
                   nth_error (f_prices (Sample.fetched_of Sample.run)) i = Some p
                   /\ nth_error out i = Some record
                   /\ get c "iID" = get record "id"
                   /\ get record "priceCzk" = Ok (VNumber (czk p))
                   /\ get record "priceEur" = Ok (VNumber (eur p)).
Proof.
  split; [reflexivity|]. split; [vm_compute; reflexivity|].
  split; [vm_compute; reflexivity|].
  apply (positional_pairing Sample.StringToNumber Sample.NumberToString
           Sample.services Sample.praha_brno (of_Z 2)).
  - reflexivity.
  - vm_compute; reflexivity.
  - vm_compute; reflexivity.
Defined.

(** C3 as first stated fails: the three parameters are present, [from] is
    empty, and the answer is 400. *)
Lemma empty_parameter_400 :
  q_from Sample.empty_from <> None
  /\ q_to Sample.empty_from <> None
  /\ q_dep Sample.empty_from <> None
  /\ Sample.handler Sample.services Sample.empty_from
     = ({| status := 400;
           body := VObject [("error", VString "Missing from, to, or dep")] |},
        []).
Proof. repeat split; try discriminate. Qed.

(** C3, amended, on the request with an empty [from] and on the sample
    request. *)
Lemma missing_parameter_400_witness :
  Sample.handler Sample.services Sample.empty_from
  = ({| status := 400;
        body := VObject [("error", VString "Missing from, to, or dep")] |},
     [])
  /\ status (fst (Sample.handler Sample.services Sample.praha_brno)) <> 400%Z.
Proof.
  split.
  - apply (proj1 (missing_parameter_400 Sample.StringToNumber
                    Sample.NumberToString Sample.services Sample.empty_from)).
    right; right; right; left. reflexivity.
  - apply (proj2 (missing_parameter_400 Sample.StringToNumber
                    Sample.NumberToString Sample.services Sample.praha_brno)
             "Praha" "Brno" "1700000000000");
      try reflexivity; discriminate.
Defined.

(** C4 on a price of 21900 hellers at 25 CZK to the euro. *)
Lemma price_conversion_witness :
  is_integer (of_Z 21900) = true
  /\ lookup "iPrice" [("iPrice", num 21900)] = VNumber (of_Z 21900)
  /\ price_of_item Sample.StringToNumber Sample.NumberToString
       (VNumber (of_Z 25)) (VObject [("iPrice", num 21900)])
     = Ok {| czk := round2 (fdiv (of_Z 21900) (of_Z 100));
             eur := round2 (fdiv (round2 (fdiv (of_Z 21900) (of_Z 100)))
                                 (of_Z 25)) |}.
Proof.
  split; [vm_compute; reflexivity|]. split; [reflexivity|].
  apply (proj1 (price_conversion Sample.StringToNumber Sample.NumberToString
                  (of_Z 21900) (of_Z 25) [("iPrice", num 21900)]
                  ltac:(vm_compute; reflexivity) ltac:(reflexivity))).
Defined.

(** C5 as first stated fails: the body [null] names no [CZK] rate, and
    [fetchCzkRate] throws on it. *)
Lemma rate_null_body_throws :
  no_czk_field VNull = true
  /\ fst (fetchCzkRate (Response 200 "OK" (Ok "null") (Ok VNull)))
     = Throw (TypeError "Cannot read properties of null (reading 'rates')")
  /\ fst (fetchCzkRate (Response 200 "OK" (Ok "null") (Ok VNull)))
     <> Ok (num 1).
Proof. repeat split; discriminate. Qed.

(** C5, amended, on a rate service that answers [{ rates: {} }]. *)
Lemma rate_fallback_witness :
  rate_reply Sample.no_rate_world
  = Response 200 "OK" (Ok "") (Ok (VObject [("rates", VObject [])]))
  /\ nullish (VObject [("rates", VObject [])]) = false
  /\ no_czk_field (VObject [("rates", VObject [])]) = true
  /\ fst (fetchCzkRate (rate_reply Sample.no_rate_world)) = Ok (num 1)
  /\ forall out,
       fst (Sample.handler Sample.no_rate_world Sample.praha_brno)
       = {| status := 200; body := VArray out |} ->
       forall record,
         In record out ->
         exists x, get record "priceCzk" = Ok (VNumber x)
                   /\ get record "priceEur" = Ok (VNumber x).
Proof.
  split; [reflexivity|]. split; [reflexivity|]. split; [reflexivity|].
  apply (rate_fallback Sample.StringToNumber Sample.NumberToString
           Sample.no_rate_world Sample.praha_brno 200%Z "OK" (Ok "")
           (VObject [("rates", VObject [])])); reflexivity.
Defined.

(** C6 on the sample connection with two legs. *)
Lemma transfers_count_witness :
  get Sample.one_change "aoTrains" = Ok (VArray Sample.two_legs)
  /\ (1 <= List.length Sample.two_legs)%nat
  /\ (Z.of_nat (List.length Sample.two_legs) < 2 ^ 32)%Z
  /\ exists record,
       connection_record Sample.StringToNumber Sample.NumberToString
         [{| czk := of_Z 219; eur := of_Z 9 |}] 0 Sample.one_change
       = Ok record
       /\ get record "transfers"
          = Ok (num (Z.of_nat (List.length Sample.two_legs) - 1)).
Proof.
  split; [reflexivity|]. split; [simpl; lia|]. split; [reflexivity|].
  eexists. split; [vm_compute; reflexivity|].
  refine (proj1 (transfers_count Sample.StringToNumber Sample.NumberToString
                   [{| czk := of_Z 219; eur := of_Z 9 |}] 0 Sample.one_change _
                   Sample.two_legs _ _ _ _)).
  - reflexivity.
  - simpl. lia.
  - reflexivity.
  - vm_compute; reflexivity.
Defined.

(** C7 on the sample leg with the tokens ["EC", "123", "", null]. *)
Lemma line_name_of_leg_witness :
  forallb is_token [lookup "sType" Sample.ec_123; lookup "sNum1" Sample.ec_123;
                    lookup "sNum2" Sample.ec_123; lookup "sNum3" Sample.ec_123]
  = true
  /\ exists record,
       leg_record Sample.NumberToString (VObject Sample.ec_123) = Ok record
       /\ get record "lineName"
          = Ok (VString (trim (String.concat " " (present_tokens
                  [lookup "sType" Sample.ec_123; lookup "sNum1" Sample.ec_123;
                   lookup "sNum2" Sample.ec_123; lookup "sNum3" Sample.ec_123]))))
       /\ get record "lineName" = Ok (VString "EC 123").
Proof.
  split; [reflexivity|].
  eexists. split; [vm_compute; reflexivity|].
  split; [|reflexivity].
  refine (proj1 (line_name_of_leg Sample.NumberToString Sample.ec_123 _ _ _)).
  - reflexivity.
  - vm_compute; reflexivity.
Defined.



(** C10 on the price service that answers with one price for two
    connections. *)
Lemma short_price_list_500_witness :
  missing Sample.praha_brno = false
  /\ Sample.short_run
     = (Ok (Sample.fetched_of Sample.short_run), snd Sample.short_run)
  /\ f_connections (Sample.fetched_of Sample.short_run)
     = VArray [Sample.direct; Sample.one_change]
  /\ (List.length (f_prices (Sample.fetched_of Sample.short_run))
      < List.length [Sample.direct; Sample.one_change])%nat
  /\ exists e,
       assemble Sample.StringToNumber Sample.NumberToString
                (f_connections (Sample.fetched_of Sample.short_run))
                (f_prices (Sample.fetched_of Sample.short_run)) = Throw e
       /\ Sample.handler Sample.short_world Sample.praha_brno
          = ({| status := 500;
                body := VObject [("error", VString (message e))] |},
             snd Sample.short_run).
Proof.
  split; [reflexivity|]. split; [vm_compute; reflexivity|].
  split; [vm_compute; reflexivity|]. split; [vm_compute; lia|].
  apply (short_price_list_500 Sample.StringToNumber Sample.NumberToString
           Sample.short_world Sample.praha_brno (of_Z 2)
           (Sample.fetched_of Sample.short_run) (snd Sample.short_run)
           [Sample.direct; Sample.one_change]).
  - reflexivity.
  - vm_compute; reflexivity.
  - vm_compute; reflexivity.
  - vm_compute; reflexivity.
  - vm_compute; lia.
Defined.

(** * Further properties *)

(** Peel the first [let*] of [H : (let* x := r in k) = Ok b]. *)
Ltac peel H :=
  match type of H with
  | bind ?r _ = Ok _ =>
      let E := fresh "E" in
      destruct r eqn:E; cbn [bind] in H; [|discriminate H]
  end.

(** ** The calls of a request *)

Section Pipeline.

Variable s2n : string -> number.
Variable n2s : number -> string.

(** *** The calls of each step *)

Lemma bindM_eq {A B : Type} (m : M A) (k : A -> M B) :
  bindM m k
  = match fst m with
    | Ok a => (fst (k a), (snd m ++ snd (k a))%list)
    | Throw e => (Throw e, snd m)
    end.
Proof.
  destruct m as [[a|e] calls]; cbn [bindM fst snd]; [|reflexivity].
  destruct (k a); reflexivity.
Qed.

Lemma post_then {A : Type} r url body (k : value -> result A) :
  bindM (postJSON n2s r url body) (fun json => lift (k json))
  = (bind (fst (postJSON n2s r url body)) k, [POST url body]).
Proof.
  rewrite bindM_eq. cbn [postJSON fst snd].
  match goal with |- context [match ?x with Ok _ => _ | Throw _ => _ end] =>
    destruct x end; reflexivity.
Qed.

Lemma searchStation_calls r mask :
  exists body,
    snd (searchStation n2s r mask) = [POST station_url (VObject body)]
    /\ lookup "sMask" body = mask.
Proof. unfold searchStation. rewrite post_then. eexists. split; reflexivity. Qed.

Lemma createSession_calls r :
  exists body, snd (createSession n2s r) = [POST session_url (VObject body)].
Proof. unfold createSession. rewrite post_then. eexists. reflexivity. Qed.

Lemma searchJourneys_calls r sid from to dep cls age :
  exists body,
    snd (searchJourneys n2s r sid from to dep cls age)
    = [POST journey_url (VObject body)]
    /\ lookup "sSessionID" body = sid
    /\ lookup "dtDateTime" body = VString ("/Date(" ++ n2s dep ++ ")/")
    /\ lookup "oPriceRequestClass" body
       = VObject [("iClass", VNumber cls); ("bBusiness", VBool false)]
    /\ lookup "aoPassengers" body = passengers age.
Proof.
  unfold searchJourneys. rewrite post_then. eexists.
  split; [reflexivity|]. repeat split; reflexivity.
Qed.

Lemma getPrices_calls r sid handle ids cls age rate :
  exists body request,
    snd (getPrices s2n n2s r sid handle ids cls age rate)
    = [POST price_url (VObject body)]
    /\ lookup "sSessionID" body = sid
    /\ lookup "iHandle" body = handle
    /\ lookup "aiConnID" body = VArray ids
    /\ lookup "oPriceRequest" body = VObject request
    /\ lookup "oClass" request
       = VObject [("iClass", VNumber cls); ("bBusiness", VBool false)]
    /\ lookup "aoPassengers" request = passengers age.
Proof.
  unfold getPrices. rewrite post_then. do 2 eexists.
  split; [reflexivity|]. repeat split; reflexivity.
Qed.

Lemma fetchCzkRate_calls r : snd (fetchCzkRate r) = [GET rate_url].
Proof. reflexivity. Qed.

Lemma promise_all2_calls {A B : Type} b (x : M A) (y : M B) :
  snd (promise_all2 b x y) = (snd x ++ snd y)%list.
Proof. destruct x, y. reflexivity. Qed.

(** The conversions of the parameters do not throw. *)
Lemma to_number_param p : exists x, to_number s2n n2s (param p) = Ok x.
Proof. destruct p; cbn [param to_number]; eauto. Qed.

Lemma to_number_param_or p z :
  exists x, to_number s2n n2s (or_else (param p) (num z)) = Ok x.
Proof.
  unfold or_else. destruct p as [s|]; cbn [param truthy].
  - destruct (negb (String.eqb s "")); cbn [to_number num]; eauto.
  - cbn [to_number num]. eauto.
Qed.

(** Steps 1 to 5, step by step. *)
Lemma fetch_all_eq w q cls :
  fetch_all s2n n2s w q cls
  = let A := searchStation n2s (station_from_reply w) (param (q_from q)) in
    let B := searchStation n2s (station_to_reply w) (param (q_to q)) in
    let S := createSession n2s (session_reply w) in
    let R := fetchCzkRate (rate_reply w) in
    match fst (promise_all2 (to_settles_first w) A B) with
    | Throw e => (Throw e, (snd A ++ snd B)%list)
    | Ok stations =>
    match fst S with
    | Throw e => (Throw e, (snd A ++ snd B ++ snd S)%list)
    | Ok sid =>
    match to_number s2n n2s (param (q_dep q)) with
    | Throw e => (Throw e, (snd A ++ snd B ++ snd S)%list)
    | Ok depMs =>
    match to_number s2n n2s (or_else (param (q_age q)) (num (-1))) with
    | Throw e => (Throw e, (snd A ++ snd B ++ snd S)%list)
    | Ok age =>
    let J := searchJourneys n2s (journey_reply w) sid (fst stations)
               (snd stations) depMs cls age in
    match fst J with
    | Throw e => (Throw e, (snd A ++ snd B ++ snd S ++ snd J)%list)
    | Ok found =>
    match fst R with
    | Throw e => (Throw e, (snd A ++ snd B ++ snd S ++ snd J ++ snd R)%list)
    | Ok rate =>
    match array_map "connections" (fun _ c => get c "iID") (snd found) with
    | Throw e => (Throw e, (snd A ++ snd B ++ snd S ++ snd J ++ snd R)%list)
    | Ok ids =>
    let P := getPrices s2n n2s (price_reply w) sid (fst found) ids cls age rate in
    (match fst P with
     | Ok prices => Ok {| f_connections := snd found; f_connIDs := ids;
                          f_rate := rate; f_prices := prices |}
     | Throw e => Throw e
     end, (snd A ++ snd B ++ snd S ++ snd J ++ snd R ++ snd P)%list)
    end end end end end end end.
Proof.
  cbv zeta. unfold fetch_all.
  rewrite bindM_eq, promise_all2_calls.
  destruct (fst (promise_all2 _ _ _)) as [stations|e]; [|reflexivity].
  rewrite bindM_eq.
  destruct (fst (createSession n2s (session_reply w))) as [sid|e];
    cbn [fst snd]; [|rewrite ?app_nil_r, <- ?app_assoc; reflexivity].
  rewrite bindM_eq. cbn [lift fst snd].
  destruct (to_number s2n n2s (param (q_dep q))) as [depMs|e];
    cbn [fst snd]; [|rewrite ?app_nil_r, <- ?app_assoc; reflexivity].
  rewrite bindM_eq. cbn [lift fst snd].
  destruct (to_number s2n n2s (or_else (param (q_age q)) (num (-1)))) as [age|e];
    cbn [fst snd]; [|rewrite ?app_nil_r, <- ?app_assoc; reflexivity].
  rewrite bindM_eq.
  destruct (fst (searchJourneys _ _ _ _ _ _ _ _)) as [found|e];
    cbn [fst snd]; [|rewrite ?app_nil_r, <- ?app_assoc; reflexivity].
  rewrite bindM_eq.
  destruct (fst (fetchCzkRate (rate_reply w))) as [rate|e];
    cbn [fst snd]; [|rewrite ?app_nil_r, <- ?app_assoc; reflexivity].
  rewrite bindM_eq. cbn [lift fst snd].
  destruct (array_map _ _ _) as [ids|e];
    cbn [fst snd]; [|rewrite ?app_nil_r, <- ?app_assoc; reflexivity].
  rewrite bindM_eq. cbn [lift fst snd].
  rewrite bindM_eq.
  destruct (fst (getPrices _ _ _ _ _ _ _ _ _)) as [prices|e];
    cbn [fst snd ret]; rewrite ?app_nil_r, <- ?app_assoc; reflexivity.
Qed.


Lemma handler_eq w q cls :
  missing q = false ->
  travel_class s2n n2s q = Ok cls ->
  connections_handler s2n n2s w q
  = (match fst (fetch_all s2n n2s w q cls) with
     | Ok f =>
         match assemble s2n n2s (f_connections f) (f_prices f) with
         | Ok out => {| status := 200; body := VArray out |}
         | Throw e =>
             {| status := 500; body := VObject [("error", VString (message e))] |}
         end
     | Throw e =>
         {| status := 500; body := VObject [("error", VString (message e))] |}
     end, snd (fetch_all s2n n2s w q cls)).
Proof.
  intros Mq C. unfold connections_handler, try_block. rewrite C.
  cbn [lift bindM]. rewrite Mq.
  destruct (fetch_all s2n n2s w q cls) as [[f|e] calls]; cbn [bindM fst snd];
    [|reflexivity].
  destruct (assemble s2n n2s (f_connections f) (f_prices f));
    cbn [lift ret]; rewrite ?app_nil_r; reflexivity.
Qed.

Lemma handler_missing w q :
  missing q = true ->
  connections_handler s2n n2s w q
  = ({| status := 400;
        body := VObject [("error", VString "Missing from, to, or dep")] |}, []).
Proof.
  intros Mq. destruct (travel_class_ok s2n n2s q) as [cls C].
  unfold connections_handler, try_block. rewrite C. cbn [lift bindM].
  rewrite Mq. reflexivity.
Qed.

(** Name the calls of the steps a goal mentions. *)
Ltac name_calls :=
  repeat match goal with
    | |- context [snd (searchStation n2s ?r ?m)] =>
        let bd := fresh "body" in let E := fresh "E" in
        destruct (searchStation_calls r m) as (bd & E & _); rewrite E; clear E
    | |- context [snd (createSession n2s ?r)] =>
        let bd := fresh "body" in let E := fresh "E" in
        destruct (createSession_calls r) as (bd & E); rewrite E; clear E
    | |- context [snd (searchJourneys n2s ?r ?x1 ?x2 ?x3 ?x4 ?x5 ?x6)] =>
        let bd := fresh "body" in let E := fresh "E" in
        destruct (searchJourneys_calls r x1 x2 x3 x4 x5 x6) as (bd & E & _);
        rewrite E; clear E
    | |- context [snd (getPrices s2n n2s ?r ?x1 ?x2 ?x3 ?x4 ?x5 ?x6)] =>
        let bd := fresh "body" in let bd' := fresh "body" in
        let E := fresh "E" in
        destruct (getPrices_calls r x1 x2 x3 x4 x5 x6) as (bd & bd' & E & _);
        rewrite E; clear E
    | |- context [snd (fetchCzkRate ?r)] => rewrite (fetchCzkRate_calls r)
    end.

(** X1.  The handler answers 400, 200 or 500 and nothing else.  It answers
    400 exactly when a parameter is missing, and then it has called no
    service.  Otherwise the remote calls are a prefix of the sequence
    station, station, session, journeys, rate, prices, in that order; both
    station lookups are always issued together; a 200 carries an array
    and is sent only after all six calls; a 500 carries an object with a
    string [error]. *)
Theorem responses_and_calls (w : world) (q : query) :
  let resp := fst (connections_handler s2n n2s w q) in
  let urls := map request_url (snd (connections_handler s2n n2s w q)) in
  (missing q = true /\ status resp = 400%Z /\ urls = [])
  \/ (missing q = false /\ status resp = 200%Z
      /\ (exists out, body resp = VArray out) /\ urls = call_sequence)
  \/ (missing q = false /\ status resp = 500%Z
      /\ (exists m, body resp = VObject [("error", VString m)])
      /\ exists n, (2 <= n <= 6)%nat /\ urls = firstn n call_sequence).
Proof.
  cbv zeta. destruct (missing q) eqn:Mq.
  { left. rewrite handler_missing by assumption. auto. }
  right. destruct (travel_class_ok s2n n2s q) as [cls C].
  rewrite (handler_eq w q cls Mq C), fetch_all_eq. cbv zeta.
  assert (Bad : forall e n body calls,
    (2 <= n <= 6)%nat -> map request_url calls = firstn n call_sequence ->
    body = VObject [("error", VString (message e))] ->
    false = false /\ 500%Z = 500%Z
    /\ (exists m, body = VObject [("error", VString m)])
    /\ exists n, (2 <= n <= 6)%nat /\ map request_url calls = firstn n call_sequence).
  { intros e n body calls Hn Hc ->. repeat split; eauto. }
  destruct (fst (promise_all2 _ _ _)) as [stations|e]; cbn [fst snd];
    [|right; name_calls; apply (Bad e 2%nat); [lia|reflexivity|reflexivity]].
  destruct (fst (createSession _ _)) as [sid|e]; cbn [fst snd];
    [|right; name_calls; apply (Bad e 3%nat); [lia|reflexivity|reflexivity]].
  destruct (to_number_param q.(q_dep)) as [depMs ->].
  destruct (to_number_param_or q.(q_age) (-1)) as [age ->].
  destruct (fst (searchJourneys _ _ _ _ _ _ _ _)) as [found|e]; cbn [fst snd];
    [|right; name_calls; apply (Bad e 4%nat); [lia|reflexivity|reflexivity]].
  destruct (fst (fetchCzkRate _)) as [rate|e]; cbn [fst snd];
    [|right; name_calls; apply (Bad e 5%nat); [lia|reflexivity|reflexivity]].
  destruct (array_map _ _ _) as [ids|e]; cbn [fst snd];
    [|right; name_calls; apply (Bad e 5%nat); [lia|reflexivity|reflexivity]].
  destruct (fst (getPrices _ _ _ _ _ _ _ _ _)) as [prices|e]; cbn [fst snd];
    [|right; name_calls; apply (Bad e 6%nat); [lia|reflexivity|reflexivity]].
  cbn [f_connections f_prices].
  destruct (assemble _ _ _ _) as [out|e]; cbn [fst snd].
  - left. name_calls. repeat split; try reflexivity. eexists. reflexivity.
  - right. name_calls. apply (Bad e 6%nat); [lia|reflexivity|reflexivity].
Qed.


Lemma promise_all2_fst {A B : Type} b (x : M A) (y : M B) :
  fst (promise_all2 b x y)
  = match fst x, fst y with
    | Ok a, Ok c => Ok (a, c)
    | Throw e, Ok _ => Throw e
    | Ok _, Throw e => Throw e
    | Throw ea, Throw eb => Throw (if b then eb else ea)
    end.
Proof. destruct x, y. reflexivity. Qed.

(** X2.  The two station lookups run together and the first rejection
    decides: when a lookup fails, alone or as the first of the two to
    settle, the handler answers 500 with the message of that failure; both
    station requests have been issued, and no session is created. *)
Theorem station_failure (w : world) (q : query) (e : exn) :
  missing q = false ->
  (fst (searchStation n2s (station_from_reply w) (param (q_from q))) = Throw e
   /\ (to_settles_first w = false
       \/ exists b, fst (searchStation n2s (station_to_reply w) (param (q_to q)))
                    = Ok b))
  \/ (fst (searchStation n2s (station_to_reply w) (param (q_to q))) = Throw e
      /\ (to_settles_first w = true
          \/ exists a, fst (searchStation n2s (station_from_reply w)
                              (param (q_from q))) = Ok a)) ->
  exists body1 body2,
    connections_handler s2n n2s w q
    = ({| status := 500; body := VObject [("error", VString (message e))] |},
       [POST station_url (VObject body1); POST station_url (VObject body2)])
    /\ lookup "sMask" body1 = param (q_from q)
    /\ lookup "sMask" body2 = param (q_to q).
Proof.
  intros Mq H. destruct (travel_class_ok s2n n2s q) as [cls C].
  rewrite (handler_eq w q cls Mq C), fetch_all_eq. cbv zeta.
  rewrite promise_all2_fst.
  destruct (searchStation_calls (station_from_reply w) (param (q_from q)))
    as (b1 & -> & M1).
  destruct (searchStation_calls (station_to_reply w) (param (q_to q)))
    as (b2 & -> & M2).
  exists b1, b2. split; [|split; assumption].
  destruct H as [[-> [T|[b ->]]]|[-> [T|[a ->]]]]; try reflexivity.
  - destruct (fst (searchStation n2s (station_to_reply w) _)); rewrite ?T;
      reflexivity.
  - destruct (fst (searchStation n2s (station_from_reply w) _)); rewrite ?T;
      reflexivity.
Qed.

(** A step whose call is not among the calls was not reached. *)
Ltac not_reached :=
  let H := fresh "H" in
  intros H; exfalso; cbn [map request_url app In] in H;
  repeat (destruct H as [H|H]; [discriminate H|]); exact H.

(** Open the handler of a request that reached a given call. *)
Ltac open_handler w q cls :=
  let Mq := fresh "Mq" in
  let C := fresh "C" in
  destruct (missing q) eqn:Mq;
  [rewrite handler_missing by assumption; not_reached|];
  destruct (travel_class_ok s2n n2s q) as [cls C];
  rewrite (handler_eq w q cls Mq C), fetch_all_eq; cbv zeta.

(** X3.  Whatever exception the session step throws, a request that got
    as far is answered 500 with its message, and no journey is searched:
    the calls end with the session call. *)
Theorem session_failure (w : world) (q : query) (e : exn) :
  fst (createSession n2s (session_reply w)) = Throw e ->
  In session_url (map request_url (snd (connections_handler s2n n2s w q))) ->
  fst (connections_handler s2n n2s w q)
  = {| status := 500; body := VObject [("error", VString (message e))] |}
  /\ map request_url (snd (connections_handler s2n n2s w q))
     = [station_url; station_url; session_url].
Proof.
  intros S. open_handler w q cls.
  destruct (fst (promise_all2 _ _ _)) as [stations|e']; cbn [fst snd];
    [|name_calls; not_reached].
  rewrite S. cbn [fst snd]. name_calls. intros _. split; reflexivity.
Qed.


(** X5.  The fallback rate 1 does not cover a failure of the rate lookup
    itself: when the request is rejected, or the body is not JSON, or
    [rates] cannot be read, a request that got as far is answered 500 with
    the message of that failure, and no prices are asked for. *)
Theorem rate_failure (w : world) (q : query) (e : exn) :
  fst (fetchCzkRate (rate_reply w)) = Throw e ->
  In rate_url (map request_url (snd (connections_handler s2n n2s w q))) ->
  fst (connections_handler s2n n2s w q)
  = {| status := 500; body := VObject [("error", VString (message e))] |}
  /\ map request_url (snd (connections_handler s2n n2s w q))
     = [station_url; station_url; session_url; journey_url; rate_url].
Proof.
  intros R. open_handler w q cls.
  destruct (fst (promise_all2 _ _ _)) as [stations|e']; cbn [fst snd];
    [|name_calls; not_reached].
  destruct (fst (createSession _ _)) as [sid|e']; cbn [fst snd];
    [|name_calls; not_reached].
  destruct (to_number_param q.(q_dep)) as [depMs ->].
  destruct (to_number_param_or q.(q_age) (-1)) as [age ->].
  destruct (fst (searchJourneys _ _ _ _ _ _ _ _)) as [found|e']; cbn [fst snd];
    [|name_calls; not_reached].
  rewrite R. cbn [fst snd]. name_calls. intros _. split; reflexivity.
Qed.

(** X6.  An answer of the price service outside 200..299 reaches the
    client: the request is answered 500 and the message names the method,
    the URL, the status, the status text and the text of the body. *)
Theorem price_http_error (w : world) (q : query)
  (st : Z) (stt txt : string) (json : result value) :
  price_reply w = Response st stt (Ok txt) json ->
  ok st = false ->
  In price_url (map request_url (snd (connections_handler s2n n2s w q))) ->
  fst (connections_handler s2n n2s w q)
  = {| status := 500;
       body := VObject [("error",
                 VString ("POST " ++ price_url ++ " → " ++ n2s (of_Z st) ++ " "
                            ++ stt ++ ": " ++ txt))] |}.
Proof.
  intros P Ok_st. open_handler w q cls.
  destruct (fst (promise_all2 _ _ _)) as [stations|e']; cbn [fst snd];
    [|name_calls; not_reached].
  destruct (fst (createSession _ _)) as [sid|e']; cbn [fst snd];
    [|name_calls; not_reached].
  destruct (to_number_param q.(q_dep)) as [depMs ->].
  destruct (to_number_param_or q.(q_age) (-1)) as [age ->].
  destruct (fst (searchJourneys _ _ _ _ _ _ _ _)) as [found|e']; cbn [fst snd];
    [|name_calls; not_reached].
  destruct (fst (fetchCzkRate _)) as [rate|e']; cbn [fst snd];
    [|name_calls; not_reached].
  destruct (array_map _ _ _) as [ids|e']; cbn [fst snd];
    [|name_calls; not_reached].
  assert (E : fst (getPrices s2n n2s (price_reply w) sid (fst found) ids cls age rate)
              = Throw (Error ("POST " ++ price_url ++ " → " ++ n2s (of_Z st) ++ " "
                                ++ stt ++ ": " ++ txt))).
  { unfold getPrices. rewrite post_then, P. cbn [fst postJSON].
    rewrite Ok_st. reflexivity. }
  rewrite E. cbn [fst snd]. intros _. reflexivity.
Qed.


Lemma searchJourneys_ok r sid from to dep cls age found :
  fst (searchJourneys n2s r sid from to dep cls age) = Ok found ->
  exists st stt txt json d,
    r = Response st stt txt (Ok json)
    /\ get json "d" = Ok d
    /\ get d "iHandle" = Ok (fst found).
Proof.
  unfold searchJourneys. rewrite post_then. cbn [fst postJSON].
  destruct r as [e|st stt txt json]; [discriminate|].
  destruct (ok st); [|destruct txt; discriminate].
  destruct json as [json|e]; [|discriminate]. cbn [bind].
  intros H.
  destruct (get json "d") as [d|] eqn:Jd; cbn [bind] in H; [|discriminate].
  destruct (truthy d); [|discriminate].
  destruct (get d "iHandle") as [h|] eqn:Jh; cbn [bind] in H; [|discriminate].
  do 2 peel H. inversion H; subst. cbn [fst].
  exists st, stt, txt, json, d. auto.
Qed.

(** X7.  The price request repeats the journey search: it carries the
    session identifier the session step returned (whatever it is), the
    class and the passenger of the journey request, and the handle
    [d.iHandle] of the journey reply. *)
Theorem price_request_repeats_search (w : world) (q : query) :
  In price_url (map request_url (snd (connections_handler s2n n2s w q))) ->
  exists c1 c2 c3 search prices request st stt txt json d,
    snd (connections_handler s2n n2s w q)
    = [c1; c2; c3; POST journey_url (VObject search); GET rate_url;
       POST price_url (VObject prices)]
    /\ fst (createSession n2s (session_reply w))
       = Ok (lookup "sSessionID" search)
    /\ lookup "sSessionID" prices = lookup "sSessionID" search
    /\ lookup "oPriceRequest" prices = VObject request
    /\ lookup "oClass" request = lookup "oPriceRequestClass" search
    /\ lookup "aoPassengers" request = lookup "aoPassengers" search
    /\ journey_reply w = Response st stt txt (Ok json)
    /\ get json "d" = Ok d
    /\ get d "iHandle" = Ok (lookup "iHandle" prices).
Proof.
  open_handler w q cls.
  destruct (fst (promise_all2 _ _ _)) as [stations|e']; cbn [fst snd];
    [|name_calls; not_reached].
  destruct (fst (createSession _ _)) as [sid|e'] eqn:S; cbn [fst snd];
    [|name_calls; not_reached].
  destruct (to_number_param q.(q_dep)) as [depMs ->].
  destruct (to_number_param_or q.(q_age) (-1)) as [age ->].
  destruct (fst (searchJourneys _ _ _ _ _ _ _ _)) as [found|e'] eqn:J;
    cbn [fst snd]; [|name_calls; not_reached].
  destruct (fst (fetchCzkRate _)) as [rate|e']; cbn [fst snd];
    [|name_calls; not_reached].
  destruct (array_map _ _ _) as [ids|e']; cbn [fst snd];
    [|name_calls; not_reached].
  intros _.
  destruct (searchJourneys_ok _ _ _ _ _ _ _ _ J)
    as (st & stt & txt & json & d & Jr & Jd & Jh).
  destruct (searchJourneys_calls (journey_reply w) sid (fst stations)
              (snd stations) depMs cls age) as (jb & -> & J1 & _ & J3 & J4).
  destruct (getPrices_calls (price_reply w) sid (fst found) ids cls age rate)
    as (pb & pr & -> & P1 & P2 & _ & P4 & P5 & P6).
  name_calls. cbn [app].
  do 3 eexists. exists jb, pb, pr, st, stt, txt, json, d.
  split; [reflexivity|].
  rewrite J1, P1, P2, P5, P6, J3, J4. repeat split; auto.
Qed.

(** X8.  How the query becomes the journey request: the class is
    [Number(class)], or 2 when [class] is absent or empty; the age is
    [Number(age)], or -1 when [age] is absent or empty; the departure is
    [Number(dep)] printed between [/Date(] and [)/]. *)
Theorem journey_request_of_query (w : world) (q : query)
  (search : list (string * value)) :
  In (POST journey_url (VObject search)) (snd (connections_handler s2n n2s w q)) ->
  lookup "oPriceRequestClass" search
  = VObject [("iClass",
              match q_class q with
              | Some (String c s) => VNumber (s2n (String c s))
              | _ => num 2
              end);
             ("bBusiness", VBool false)]
  /\ lookup "aoPassengers" search
     = passengers match q_age q with
                  | Some (String c s) => s2n (String c s)
                  | _ => of_Z (-1)
                  end
  /\ forall dep, q_dep q = Some dep ->
       lookup "dtDateTime" search = VString ("/Date(" ++ n2s (s2n dep) ++ ")/").
Proof.
  destruct (missing q) eqn:Mq;
    [rewrite handler_missing by assumption; intros []|].
  assert (C : travel_class s2n n2s q
              = Ok match q_class q with
                   | Some (String c s) => s2n (String c s)
                   | _ => of_Z 2
                   end).
  { unfold travel_class, or_else. destruct (q_class q) as [[|c s]|]; reflexivity. }
  rewrite (handler_eq w q _ Mq C), fetch_all_eq. cbv zeta.
  assert (A : to_number s2n n2s (or_else (param (q_age q)) (num (-1)))
              = Ok match q_age q with
                   | Some (String c s) => s2n (String c s)
                   | _ => of_Z (-1)
                   end).
  { unfold or_else. destruct (q_age q) as [[|c s]|]; reflexivity. }
  rewrite A.
  destruct (fst (promise_all2 _ _ _)) as [stations|e']; cbn [fst snd];
    [|name_calls; not_reached].
  destruct (fst (createSession _ _)) as [sid|e'] eqn:S; cbn [fst snd];
    [|name_calls; not_reached].
  destruct (to_number s2n n2s (param (q_dep q))) as [depMs|e'] eqn:D;
    [|name_calls; not_reached].
  match goal with
  | |- context [snd (searchJourneys n2s ?r ?x1 ?x2 ?x3 ?x4 ?x5 ?x6)] =>
      destruct (searchJourneys_calls r x1 x2 x3 x4 x5 x6)
        as (jb & EJ & _ & J2 & J3 & J4)
  end.
  assert (Fields : search = jb ->
    lookup "oPriceRequestClass" search
    = VObject [("iClass",
                match q_class q with
                | Some (String c s) => VNumber (s2n (String c s))
                | _ => num 2
                end);
               ("bBusiness", VBool false)]
    /\ lookup "aoPassengers" search
       = passengers match q_age q with
                    | Some (String c s) => s2n (String c s)
                    | _ => of_Z (-1)
                    end
    /\ forall dep, q_dep q = Some dep ->
         lookup "dtDateTime" search = VString ("/Date(" ++ n2s (s2n dep) ++ ")/")).
  { intros ->. rewrite J2, J3, J4. split; [|split; [reflexivity|]].
    - destruct (q_class q) as [[|c s]|]; reflexivity.
    - intros dep Hd. rewrite Hd in D. cbn [param to_number] in D.
      inversion D. reflexivity. }
  assert (Found : forall b0 b1 b2 rest,
    (forall c, In c rest -> request_url c <> journey_url) ->
    In (POST journey_url (VObject search))
       ([POST station_url b0; POST station_url b1; POST session_url b2;
         POST journey_url (VObject jb)] ++ rest) ->
    search = jb).
  { intros b0 b1 b2 rest N H. cbn [app In] in H.
    destruct H as [H|[H|[H|[H|H]]]]; try discriminate H.
    - inversion H. reflexivity.
    - exfalso. apply (N _ H). reflexivity. }
  assert (Others : forall rest,
    (rest = [] \/ rest = [GET rate_url]
     \/ exists b, rest = [GET rate_url; POST price_url b]) ->
    forall c, In c rest -> request_url c <> journey_url).
  { intros rest [->|[->|[b ->]]] c H; cbn [In] in H;
      repeat (destruct H as [<-|H]; [discriminate|]); destruct H. }
  rewrite EJ. clear EJ.
  destruct (fst (searchJourneys _ _ _ _ _ _ _ _)) as [found|e']; cbn [fst snd];
    [|name_calls; intros H; apply Fields;
      apply (Found _ _ _ [] (Others [] ltac:(auto)) H)].
  destruct (fst (fetchCzkRate _)) as [rate|e']; cbn [fst snd];
    [|name_calls; intros H; apply Fields;
      apply (Found _ _ _ [GET rate_url] (Others [GET rate_url] ltac:(auto)) H)].
  destruct (array_map _ _ _) as [ids|e']; cbn [fst snd];
    [|name_calls; intros H; apply Fields;
      apply (Found _ _ _ [GET rate_url] (Others [GET rate_url] ltac:(auto)) H)].
  name_calls; intros H; apply Fields.
  cbn [app] in H.
  refine (Found _ _ _ [GET rate_url; POST price_url _] (Others _ _) H).
  right; right; eexists; reflexivity.
Qed.


Lemma searchJourneys_empty sid from to dep cls age st stt txt
  (fields d : list (string * value)) :
  ok st = true ->
  lookup "d" fields = VObject d ->
  nullish (lookup "oConnInfo" d) = true
  \/ (exists info, lookup "oConnInfo" d = VObject info
                   /\ truthy (lookup "aoConnections" info) = false) ->
  fst (searchJourneys n2s (Response st stt txt (Ok (VObject fields)))
         sid from to dep cls age)
  = Ok (lookup "iHandle" d, VArray []).
Proof.
  intros Hok D H. unfold searchJourneys. rewrite post_then.
  cbn [fst postJSON]. rewrite Hok. cbn [bind get]. rewrite D.
  cbn [truthy bind get].
  destruct H as [N|(info & I & F)].
  - unfold get_opt. rewrite N. reflexivity.
  - rewrite I. cbn [get_opt nullish get bind]. unfold or_else. rewrite F.
    reflexivity.
Qed.

(** X9.  When the journey reply names no connections ([oConnInfo] is
    missing or [null], or its [aoConnections] is missing or falsy) and the
    other steps up to the rate succeed, the handler does not stop short:
    it makes all six calls and asks the price service with an empty
    [aiConnID] and the handle of the reply; a 200 response then carries
    the empty array. *)
Theorem no_connections_empty_array (w : world) (q : query)
  (from to : station) (sid rate : value)
  (st : Z) (stt : string) (txt : result string) (fields d : list (string * value)) :
  missing q = false ->
  fst (searchStation n2s (station_from_reply w) (param (q_from q))) = Ok from ->
  fst (searchStation n2s (station_to_reply w) (param (q_to q))) = Ok to ->
  fst (createSession n2s (session_reply w)) = Ok sid ->
  journey_reply w = Response st stt txt (Ok (VObject fields)) ->
  ok st = true ->
  lookup "d" fields = VObject d ->
  nullish (lookup "oConnInfo" d) = true
  \/ (exists info, lookup "oConnInfo" d = VObject info
                   /\ truthy (lookup "aoConnections" info) = false) ->
  fst (fetchCzkRate (rate_reply w)) = Ok rate ->
  (exists c1 c2 c3 c4 prices,
      snd (connections_handler s2n n2s w q)
      = [c1; c2; c3; c4; GET rate_url; POST price_url (VObject prices)]
      /\ lookup "aiConnID" prices = VArray []
      /\ lookup "iHandle" prices = lookup "iHandle" d)
  /\ (status (fst (connections_handler s2n n2s w q)) = 200%Z ->
      body (fst (connections_handler s2n n2s w q)) = VArray []).
Proof.
  intros Mq A B S J Hok D H R.
  destruct (travel_class_ok s2n n2s q) as [cls C].
  rewrite (handler_eq w q cls Mq C), fetch_all_eq. cbv zeta.
  rewrite promise_all2_fst, A, B, S.
  destruct (to_number_param q.(q_dep)) as [depMs ->].
  destruct (to_number_param_or q.(q_age) (-1)) as [age ->].
  rewrite J.
  rewrite (searchJourneys_empty sid _ _ depMs cls age st stt txt fields d Hok D H).
  rewrite R. cbn [fst snd array_map map_from].
  destruct (getPrices_calls (price_reply w) sid (lookup "iHandle" d) [] cls age rate)
    as (pb & pr & -> & _ & Hd & Ids & _).
  name_calls. cbn [app]. split.
  - do 4 eexists. exists pb. split; [reflexivity|]. split; assumption.
  - destruct (fst (getPrices _ _ _ _ _ _ _ _ _)); cbn; [reflexivity|discriminate].
Qed.

End Pipeline.

(** ** The steps *)

(** Rounding to two decimals twice is rounding once, except that the
    sign of a negative number that rounds to zero is lost the second
    time. *)
Lemma round2_fixed x : round2 x = S754_zero true \/ round2 (round2 x) = round2 x.
Proof.
  destruct x as [s|s| |s m e]; try (right; reflexivity).
  destruct (10 ^ 21 * fden e <=? fnum m e)%Z eqn:Big.
  - right.
    assert (R : round2 (S754_finite s m e) = S754_finite s m e).
    { unfold round2, toFixed2. rewrite Big. reflexivity. }
    rewrite !R. reflexivity.
  - set (n := ((2 * 100 * fnum m e + fden e) / (2 * fden e))%Z).
    assert (R : round2 (S754_finite s m e)
                = if (n =? 0)%Z then S754_zero s else round_ratio s n 100).
    { unfold round2, toFixed2. rewrite Big. reflexivity. }
    rewrite !R.
    assert (Hn : (0 <= n)%Z).
    { pose proof (fnum_pos m e). pose proof (fden_pos e).
      apply Z.div_pos; lia. }
    destruct (Z.eqb_spec n 0) as [E|N].
    + destruct s; [left; reflexivity|right; reflexivity].
    + right. apply round2_hundredths. lia.
Qed.

Section Steps.

Variable s2n : string -> number.
Variable n2s : number -> string.

Lemma price_of_item_two_decimals (rate item : value) (p : price) :
  price_of_item s2n n2s rate item = Ok p ->
  (czk p = S754_zero true \/ round2 (czk p) = czk p)
  /\ (eur p = S754_zero true \/ round2 (eur p) = eur p).
Proof.
  unfold price_of_item. intros H. do 3 peel H.
  inversion H; subst. cbn [czk eur]. split; apply round2_fixed.
Qed.

(** X10.  A reply outside 200..299 makes each of the four steps that post
    throw an [Error] whose message names the method, the URL, the status,
    the status text and the text of the body; the JSON of the body is not
    looked at. *)
Theorem post_status_error (st : Z) (stt txt : string) (json : result value)
  (mask sid handle rate : value) (from to : station) (dep cls age : number)
  (ids : list value) :
  ok st = false ->
  let r := Response st stt (Ok txt) json in
  let text url :=
    "POST " ++ url ++ " → " ++ n2s (of_Z st) ++ " " ++ stt ++ ": " ++ txt in
  fst (searchStation n2s r mask) = Throw (Error (text station_url))
  /\ fst (createSession n2s r) = Throw (Error (text session_url))
  /\ fst (searchJourneys n2s r sid from to dep cls age)
     = Throw (Error (text journey_url))
  /\ fst (getPrices s2n n2s r sid handle ids cls age rate)
     = Throw (Error (text price_url)).
Proof.
  intros H. cbv zeta.
  unfold searchStation, createSession, searchJourneys, getPrices, postJSON.
  rewrite H. repeat split; reflexivity.
Qed.


(** X12.  Of the matches of a station reply only the first counts: the
    station is the [iListID] and the [sName] of its [oItem], whatever the
    other matches and whatever the mask. *)
Theorem station_is_first_match (st : Z) (stt : string) (txt : result string)
  (fields entry item : list (string * value)) (rest : list value) (mask : value) :
  ok st = true ->
  lookup "d" fields = VArray (VObject entry :: rest) ->
  lookup "oItem" entry = VObject item ->
  fst (searchStation n2s (Response st stt txt (Ok (VObject fields))) mask)
  = Ok {| id := lookup "iListID" item; name := lookup "sName" item |}.
Proof.
  intros Hok D I. unfold searchStation, postJSON. rewrite Hok.
  cbn [bindM lift fst get bind]. rewrite D. unfold or_else.
  cbn [truthy get_first hd bind get_opt nullish get]. rewrite I. reflexivity.
Qed.

(** X13.  [fetchCzkRate] never returns a falsy rate: not [0], not [NaN],
    not [null], not the empty string; a numeric rate is therefore never a
    zero divisor. *)
Theorem rate_is_truthy (r : reply) (rate : value) :
  fst (fetchCzkRate r) = Ok rate ->
  truthy rate = true
  /\ forall x, rate = VNumber x -> x <> S754_nan /\ forall s, x <> S754_zero s.
Proof.
  unfold fetchCzkRate. cbn [fst]. destruct r as [e|st stt txt json]; [discriminate|].
  intros H. do 3 peel H.
  assert (T : truthy rate = true).
  { inversion H. unfold or_else.
    match goal with |- truthy (if truthy ?c then _ else _) = true =>
      destruct (truthy c) eqn:Tc; [exact Tc|reflexivity] end. }
  clear H. split; [exact T|].
  intros x Ex. rewrite Ex in T. cbn [truthy] in T.
  destruct x; try discriminate; split; try discriminate; intros; discriminate.
Qed.

End Steps.

(** ** Time stamps *)

(** The time value of the number nearest to a non-negative integer. *)
Lemma time_value_of_Z n :
  (0 <= n)%Z ->
  Date.time_value (of_Z n) = if (n <=? max_time)%Z then Some n else None.
Proof.
  intros Hn. unfold max_time.
  destruct (Z.eq_dec n 0) as [->|Nz]; [reflexivity|].
  destruct (Z_lt_le_dec n (2 ^ 53)) as [Small|Big].
  - destruct (of_Z_exact n ltac:(lia)) as (m & e & E & V & F).
    rewrite E. unfold Date.time_value.
    assert (T : (if (0 <=? e)%Z then (Zpos m * 2 ^ e)%Z
                 else (Zpos m / 2 ^ (- e))%Z) = n).
    { unfold fnum, fden in F. destruct (Z.leb_spec 0 e); [lia|].
      rewrite F. apply Z.div_mul. pose proof (pow2_pos (- e) ltac:(lia)). lia. }
    rewrite T.
    destruct (Z.ltb_spec 8640000000000000 n), (Z.leb_spec n 8640000000000000);
      try lia; reflexivity.
  - change (2 ^ 53)%Z with 9007199254740992%Z in Big.
    destruct (Z.leb_spec n 8640000000000000); [lia|].
    destruct n as [|p|p]; try lia. rewrite of_Z_pos.
    destruct (round_ratio_cases false (Zpos p) 1 ltac:(lia) ltac:(lia))
      as [[E Lo]|[E|(m & e & E & V & B)]].
    + exfalso.
      assert (53 <= ilog2 (Zpos p) 1)%Z.
      { apply ilog2_lower; try lia.
        change (pow2_le 53 (Zpos p) 1) with (9007199254740992 * 1 <=? Zpos p)%Z.
        apply Z.leb_le. lia. }
      unfold emin in Lo. lia.
    + rewrite E. reflexivity.
    + rewrite E. unfold Date.time_value.
      apply valid_finite in V. destruct V as [Ve Vt].
      pose proof (Z.log2_spec (Zpos m) ltac:(lia)) as [Lm Um].
      assert (Ep : (1 <= e)%Z).
      { destruct (Z_le_gt_dec 1 e) as [|G]; [assumption|exfalso].
        assert (M53 : (Zpos m < 2 ^ 53)%Z).
        { apply Z.log2_lt_pow2; [lia|]. unfold emin in Ve. lia. }
        change (2 ^ 53)%Z with 9007199254740992%Z in M53.
        unfold scale_num, scale_den in B.
        destruct (Z.leb_spec 0 e) as [E0|E0].
        - assert (e = 0%Z) by lia. subst e. change (2 ^ 0)%Z with 1%Z in B. lia.
        - pose proof (pow2_pos (- e) ltac:(lia)). nia. }
      assert (L52 : Z.log2 (Zpos m) = 52%Z) by (unfold emin in Ve; lia).
      rewrite L52 in Lm.
      destruct (Z.leb_spec 0 e); [|lia].
      assert (2 ^ 1 <= 2 ^ e)%Z by (apply Z.pow_le_mono_r; lia).
      change (2 ^ 1)%Z with 2%Z in *. change (2 ^ 52)%Z with 4503599627370496%Z in Lm.
      destruct (Z.ltb_spec 8640000000000000 (Zpos m * 2 ^ e)); [reflexivity|nia].
Qed.

Lemma is_digit_code c : is_digit c = true -> (0 <= code c - 48 <= 9)%Z.
Proof. unfold is_digit. rewrite andb_true_iff, !Z.leb_le. lia. Qed.


Lemma code_digit n : code (Date.digit n) = (48 + n mod 10)%Z.
Proof.
  unfold code, Date.digit.
  pose proof (Z.mod_pos_bound n 10 ltac:(lia)).
  rewrite N_ascii_embedding by lia. lia.
Qed.

Lemma is_digit_digit n : is_digit (Date.digit n) = true.
Proof.
  unfold is_digit. rewrite code_digit.
  pose proof (Z.mod_pos_bound n 10 ltac:(lia)).
  apply andb_true_iff. split; apply Z.leb_le; lia.
Qed.

Lemma strip_app a b :
  strip_non_digits (a ++ b) = strip_non_digits a ++ strip_non_digits b.
Proof.
  induction a as [|c a IH]; [reflexivity|].
  cbn [append strip_non_digits]. destruct (is_digit c); cbn [append]; congruence.
Qed.

Lemma digits_value_app a b : forall acc,
  digits_value acc (a ++ b) = digits_value (digits_value acc a) b.
Proof. induction a as [|c a IH]; intros acc; [reflexivity|apply IH]. Qed.

Lemma digits_value_lower s : forall acc,
  (0 <= acc)%Z -> (acc <= digits_value acc (strip_non_digits s))%Z.
Proof.
  induction s as [|c s IH]; intros acc H; cbn [strip_non_digits]; [cbn; lia|].
  destruct (is_digit c) eqn:D; [|auto].
  cbn [digits_value]. apply is_digit_code in D.
  specialize (IH (10 * acc + (code c - 48))%Z ltac:(lia)). lia.
Qed.


Lemma digits_of_S fuel n :
  Sample.digits_of (S fuel) n
  = if (n <? 10)%Z then String (Date.digit n) ""
    else Sample.digits_of fuel (n / 10)%Z ++ String (Date.digit n) "".
Proof. reflexivity. Qed.

(** The decimal digits of a natural number, read back. *)
Lemma digits_of_spec fuel : forall n,
  (0 <= n < 2 ^ (Z.of_nat fuel + 1))%Z ->
  strip_non_digits (Sample.digits_of (S fuel) n) = Sample.digits_of (S fuel) n
  /\ digits_value 0 (Sample.digits_of (S fuel) n) = n.
Proof.
  assert (One : forall n, (0 <= n < 10)%Z ->
            strip_non_digits (String (Date.digit n) "") = String (Date.digit n) ""
            /\ digits_value 0 (String (Date.digit n) "") = n).
  { intros n H. cbn [strip_non_digits digits_value].
    rewrite is_digit_digit, code_digit. rewrite Z.mod_small by lia.
    split; [reflexivity|lia]. }
  induction fuel as [|fuel IH]; intros n H.
  - change (2 ^ (Z.of_nat 0 + 1))%Z with 2%Z in H.
    rewrite digits_of_S. destruct (Z.ltb_spec n 10); [|lia].
    apply One. lia.
  - rewrite digits_of_S.
    destruct (Z.ltb_spec n 10); [apply One; lia|].
    assert (B : (0 <= n / 10 < 2 ^ (Z.of_nat fuel + 1))%Z).
    { split; [apply Z.div_pos; lia|].
      apply Z.div_lt_upper_bound; [lia|].
      replace (Z.of_nat (S fuel) + 1)%Z with (1 + (Z.of_nat fuel + 1))%Z in H by lia.
      rewrite pow2_split in H by lia. change (2 ^ 1)%Z with 2%Z in H.
      pose proof (pow2_pos (Z.of_nat fuel + 1) ltac:(lia)). lia. }
    destruct (IH _ B) as [S1 V1].
    rewrite strip_app, digits_value_app, S1, V1.
    cbn [strip_non_digits digits_value].
    rewrite is_digit_digit, code_digit. split; [reflexivity|].
    pose proof (Z.div_mod n 10 ltac:(lia)). lia.
Qed.

Lemma decimal_spec n :
  (0 <= n)%Z ->
  strip_non_digits (decimal n) = decimal n /\ digits_value 0 (decimal n) = n.
Proof.
  intros H. unfold decimal. apply digits_of_spec.
  rewrite Z2Nat.id by apply Z.log2_nonneg.
  destruct (Z.eq_dec n 0) as [->|N]; [cbn; lia|].
  pose proof (Z.log2_spec n ltac:(lia)). split; [lia|].
  replace (Z.log2 n + 1)%Z with (Z.succ (Z.log2 n)) by lia. lia.
Qed.

Lemma digits_of_not_empty fuel n : Sample.digits_of (S fuel) n <> "".
Proof.
  rewrite digits_of_S. destruct (n <? 10)%Z; [discriminate|].
  destruct (Sample.digits_of fuel (n / 10)); discriminate.
Qed.

Lemma append_nil_r_local (s : string) : s ++ "" = s.
Proof. induction s as [|c s IH]; [reflexivity|cbn; congruence]. Qed.

Lemma toISOString_of_Z n :
  (0 <= n)%Z ->
  Date.toISOString (of_Z n)
  = if (n <=? max_time)%Z then Ok (Date.iso_string n)
    else Throw (RangeError "Invalid time value").
Proof.
  intros H. unfold Date.toISOString. rewrite time_value_of_Z by assumption.
  destruct (n <=? max_time)%Z; reflexivity.
Qed.

(** [parseDate] of a string is decided by its digits alone. *)
Lemma parseDate_digits s d :
  strip_non_digits s = d -> d <> "" ->
  parseDate (VString s)
  = if (digits_value 0 d <=? max_time)%Z then Ok (Date.iso_string (digits_value 0 d))
    else Throw (RangeError "Invalid time value").
Proof.
  intros E N. cbn [parseDate]. rewrite E. unfold parseInt10.
  destruct d as [|c d']; [contradiction|].
  apply toISOString_of_Z. rewrite <- E.
  apply (digits_value_lower s 0). lia.
Qed.


Lemma parseDate_decimal (a b : string) (n : Z) :
  strip_non_digits a = "" -> strip_non_digits b = "" ->
  (0 <= n)%Z ->
  parseDate (VString (a ++ decimal n ++ b))
  = if (n <=? max_time)%Z then Ok (Date.iso_string n)
    else Throw (RangeError "Invalid time value").
Proof.
  intros A B Lo. destruct (decimal_spec n Lo) as [St V].
  rewrite (parseDate_digits _ (decimal n)).
  - rewrite V. reflexivity.
  - rewrite !strip_app, A, B, St. apply append_nil_r_local.
  - apply digits_of_not_empty.
Qed.

Lemma digits_value_pad w : forall acc n,
  (0 <= n)%Z ->
  strip_non_digits (Date.pad w n) = Date.pad w n
  /\ digits_value acc (Date.pad w n) = (acc * 10 ^ Z.of_nat w + n mod 10 ^ Z.of_nat w)%Z.
Proof.
  induction w as [|w IH]; intros acc n H.
  - cbn [Date.pad strip_non_digits digits_value]. change (10 ^ Z.of_nat 0)%Z with 1%Z.
    rewrite Z.mod_1_r. split; [reflexivity|lia].
  - cbn [Date.pad].
    destruct (IH acc (n / 10)%Z ltac:(apply Z.div_pos; lia)) as [St V].
    rewrite strip_app, digits_value_app, St, V.
    cbn [strip_non_digits digits_value]. rewrite is_digit_digit, code_digit.
    split; [reflexivity|].
    replace (Z.of_nat (S w)) with (1 + Z.of_nat w)%Z by lia.
    rewrite Z.pow_add_r by lia. change (10 ^ 1)%Z with 10%Z.
    assert (P : (0 < 10 ^ Z.of_nat w)%Z) by (apply Z.pow_pos_nonneg; lia).
    rewrite (Z.rem_mul_r n 10 (10 ^ Z.of_nat w)) by lia. lia.
Qed.

Section Dates.

(** X14.  [parseDate] of a string keeps the digits and nothing else: when
    there is a digit and the digits denote at most 8.64e15, the result is
    the ISO-8601 text of that many milliseconds after the epoch, also when
    the integer is above [2^53] and [parseInt] rounds it; in every other
    case [toISOString] throws a [RangeError]. *)
Theorem parseDate_string (s : string) :
  parseDate (VString s)
  = if time_stamp (VString s)
    then Ok (Date.iso_string (digits_value 0 (strip_non_digits s)))
    else Throw (RangeError "Invalid time value").
Proof.
  cbn [time_stamp].
  destruct (String.eqb_spec (strip_non_digits s) "") as [E|N]; cbn [negb andb].
  - cbn [parseDate]. rewrite E. reflexivity.
  - apply parseDate_digits; [reflexivity|assumption].
Qed.

(** X15.  The minus sign of a time stamp is not a digit and is dropped: the
    stamp of the instant [n] milliseconds before the epoch is given the
    text of the instant [n] milliseconds after it. *)
Theorem parseDate_before_epoch (n : Z) :
  (0 < n <= max_time)%Z ->
  parseDate (VString ("/Date(-" ++ decimal n ++ ")/")) = Ok (Date.iso_string n).
Proof.
  intros [Lo Hi].
  rewrite (parseDate_decimal "/Date(-" ")/" n) by (reflexivity || lia).
  destruct (Z.leb_spec n max_time); [reflexivity|lia].
Qed.

(** X16.  The digits of a time-zone offset are read as digits of the
    instant: [/Date(<n>+<hhmm>)/] is taken for the instant
    [n * 10000 + hhmm], which is past the last date, 8.64e15, when [n] is
    above 864000000000 (an instant in May 1997). *)
Theorem parseDate_offset (n o : Z) :
  (0 <= n)%Z -> (0 <= o < 10000)%Z ->
  parseDate (VString ("/Date(" ++ decimal n ++ "+" ++ Date.pad 4 o ++ ")/"))
  = if (n * 10000 + o <=? max_time)%Z then Ok (Date.iso_string (n * 10000 + o))
    else Throw (RangeError "Invalid time value").
Proof.
  intros Hn Ho. destruct (decimal_spec n Hn) as [St V].
  destruct (digits_value_pad 4 n o ltac:(lia)) as [Sp Vp].
  change (10 ^ Z.of_nat 4)%Z with 10000%Z in Vp.
  rewrite Z.mod_small in Vp by lia.
  rewrite (parseDate_digits _ (decimal n ++ Date.pad 4 o)).
  - rewrite digits_value_app, V, Vp. reflexivity.
  - change ("/Date(" ++ decimal n ++ "+" ++ Date.pad 4 o ++ ")/")
      with ("/Date(" ++ (decimal n ++ ("+" ++ (Date.pad 4 o ++ ")/")))).
    rewrite !strip_app, St, Sp.
    change (strip_non_digits "/Date(") with "".
    change (strip_non_digits "+") with "".
    change (strip_non_digits ")/") with "".
    cbn [append]. rewrite append_nil_r_local. reflexivity.
  - unfold decimal. 
    pose proof (digits_of_not_empty (Z.to_nat (Z.log2 n)) n) as N.
    destruct (Sample.digits_of (S (Z.to_nat (Z.log2 n))) n); [contradiction|discriminate].
Qed.

End Dates.

(** ** The calendar *)

Module DateFacts.

Local Open Scope Z_scope.

Ltac div_lia := Z.to_euclidean_division_equations; lia.

Lemma DayFromYear_step y :
  Date.DayFromYear (y + 1)
  = Date.DayFromYear y + 365 + (if Date.leap y then 1 else 0).
Proof.
  unfold Date.DayFromYear, Date.leap.
  destruct (Z.eqb_spec (y mod 4) 0), (Z.eqb_spec (y mod 100) 0),
           (Z.eqb_spec (y mod 400) 0); cbn [andb orb negb]; div_lia.
Qed.

Lemma DayFromYear_mono y y' : y <= y' -> Date.DayFromYear y <= Date.DayFromYear y'.
Proof. unfold Date.DayFromYear. div_lia. Qed.

Lemma find_year_spec fuel : forall y0 y d,
  y <= y0 -> y0 - y < Z.of_nat fuel ->
  Date.DayFromYear y <= d < Date.DayFromYear (y + 1) ->
  Date.find_year fuel y0 d = y.
Proof.
  induction fuel as [|fuel IH]; intros y0 y d Lo Hi B; [lia|].
  cbn [Date.find_year].
  destruct (Z.leb_spec (Date.DayFromYear y0) d) as [L|L].
  - destruct (Z.eq_dec y0 y) as [|N]; [assumption|exfalso].
    pose proof (DayFromYear_mono (y + 1) y0 ltac:(lia)). lia.
  - apply IH; try lia.
    destruct (Z.eq_dec y0 y) as [->|N]; lia.
Qed.

Lemma YearFromDay_spec y k :
  1970 <= y <= 275759 -> 0 <= k < 365 + (if Date.leap y then 1 else 0) ->
  Date.YearFromDay (Date.DayFromYear y + k) = y.
Proof.
  intros Hy Hk. unfold Date.YearFromDay.
  pose proof (DayFromYear_step y) as St.
  assert (D0 : 0 <= Date.DayFromYear y + k).
  { pose proof (DayFromYear_mono 1970 y ltac:(lia)) as M.
    change (Date.DayFromYear 1970) with 0 in M. lia. }
  destruct (Z.leb_spec 0 (Date.DayFromYear y + k)); [|lia].
  apply find_year_spec; try lia.
  - unfold Date.DayFromYear in *. destruct (Date.leap y); div_lia.
  - change (Z.of_nat 1000) with 1000.
    unfold Date.DayFromYear in *. destruct (Date.leap y); div_lia.
Qed.

Lemma month_and_date_spec mo dt lp :
  1 <= mo <= 12 -> 1 <= dt <= month_length mo lp ->
  Date.month_and_date (Date.days_before_month mo lp + (dt - 1)) lp = (mo - 1, dt).
Proof.
  intros Hm Hd.
  assert (C : mo = 1 \/ mo = 2 \/ mo = 3 \/ mo = 4 \/ mo = 5 \/ mo = 6 \/ mo = 7
              \/ mo = 8 \/ mo = 9 \/ mo = 10 \/ mo = 11 \/ mo = 12) by lia.
  unfold Date.month_and_date.
  decompose [or] C; subst mo; destruct lp;
    cbn [month_length Date.days_before_month] in *;
    repeat match goal with
           | |- context [?a <? ?b] => destruct (Z.ltb_spec a b); try lia
           end; f_equal; lia.
Qed.

Lemma day_of_year_bound mo dt lp :
  1 <= mo <= 12 -> 1 <= dt <= month_length mo lp ->
  0 <= Date.days_before_month mo lp + (dt - 1) < 365 + (if lp then 1 else 0).
Proof.
  intros Hm Hd.
  assert (C : mo = 1 \/ mo = 2 \/ mo = 3 \/ mo = 4 \/ mo = 5 \/ mo = 6 \/ mo = 7
              \/ mo = 8 \/ mo = 9 \/ mo = 10 \/ mo = 11 \/ mo = 12) by lia.
  decompose [or] C; subst mo; destruct lp;
    cbn [month_length Date.days_before_month] in *; lia.
Qed.

Lemma utc_bounds y mo dt h mi s ms :
  1970 <= y <= 275759 -> 1 <= mo <= 12 ->
  1 <= dt <= month_length mo (Date.leap y) ->
  0 <= h < 24 -> 0 <= mi < 60 -> 0 <= s < 60 -> 0 <= ms < 1000 ->
  0 <= Date.utc y mo dt h mi s ms <= max_time.
Proof.
  intros Hy Hm Hd Hh Hmi Hs Hms.
  pose proof (day_of_year_bound mo dt (Date.leap y) Hm Hd) as K.
  pose proof (DayFromYear_mono 1970 y ltac:(lia)) as Lo.
  pose proof (DayFromYear_mono (y + 1) 275760 ltac:(lia)) as Hi.
  rewrite DayFromYear_step in Hi.
  change (Date.DayFromYear 1970) with 0 in Lo.
  change (Date.DayFromYear 275760) with 99999744 in Hi.
  unfold Date.utc, Date.msPerDay, max_time. lia.
Qed.

Lemma iso_string_utc y mo dt h mi s ms :
  1970 <= y <= 275759 -> 1 <= mo <= 12 ->
  1 <= dt <= month_length mo (Date.leap y) ->
  0 <= h < 24 -> 0 <= mi < 60 -> 0 <= s < 60 -> 0 <= ms < 1000 ->
  Date.iso_string (Date.utc y mo dt h mi s ms)
  = (Date.year_string y ++ "-" ++ Date.pad 2 mo ++ "-" ++ Date.pad 2 dt ++ "T"
     ++ Date.pad 2 h ++ ":" ++ Date.pad 2 mi ++ ":" ++ Date.pad 2 s ++ "."
     ++ Date.pad 3 ms ++ "Z")%string.
Proof.
  intros Hy Hm Hd Hh Hmi Hs Hms.
  pose proof (day_of_year_bound mo dt (Date.leap y) Hm Hd) as K.
  unfold Date.iso_string, Date.utc.
  set (D := Date.DayFromYear y + Date.days_before_month mo (Date.leap y) + (dt - 1)).
  set (tod := h * 3600000 + mi * 60000 + s * 1000 + ms).
  replace (D * Date.msPerDay + h * 3600000 + mi * 60000 + s * 1000 + ms)
    with (D * Date.msPerDay + tod) by (unfold tod; lia).
  assert (T : 0 <= tod < Date.msPerDay) by (unfold tod, Date.msPerDay; lia).
  assert (E1 : (D * Date.msPerDay + tod) / Date.msPerDay = D).
  { symmetry. apply (Z.div_unique _ _ D tod); lia. }
  assert (E2 : (D * Date.msPerDay + tod) mod Date.msPerDay = tod).
  { symmetry. apply (Z.mod_unique _ _ D tod); lia. }
  rewrite E1, E2.
  assert (Y : Date.YearFromDay D = y).
  { unfold D. rewrite <- Z.add_assoc. apply YearFromDay_spec; assumption. }
  rewrite Y.
  replace (D - Date.DayFromYear y)
    with (Date.days_before_month mo (Date.leap y) + (dt - 1)) by (unfold D; lia).
  rewrite month_and_date_spec by assumption.
  replace (mo - 1 + 1) with mo by lia.
  assert (Eh : tod / 3600000 = h) by (unfold tod; div_lia).
  assert (Em : tod / 60000 mod 60 = mi) by (unfold tod; div_lia).
  assert (Es : tod / 1000 mod 60 = s) by (unfold tod; div_lia).
  assert (Ems : tod mod 1000 = ms) by (unfold tod; div_lia).
  rewrite Eh, Em, Es, Ems. reflexivity.
Qed.

End DateFacts.


(** X17.  [parseDate] of the stamp of a calendar instant, from 1970 to the
    end of the year 275759, is the ISO-8601 text of that instant: the
    year, in four digits up to 9999 and with a sign and six digits
    beyond, then the month, the day, the hour, the minute, the second and
    the millisecond in two, two, two, two, two and three digits. *)
Theorem parseDate_calendar (y mo dt h mi s ms : Z) :
  (1970 <= y <= 275759)%Z -> (1 <= mo <= 12)%Z ->
  (1 <= dt <= month_length mo (Date.leap y))%Z ->
  (0 <= h < 24)%Z -> (0 <= mi < 60)%Z -> (0 <= s < 60)%Z -> (0 <= ms < 1000)%Z ->
  parseDate (VString ("/Date(" ++ decimal (Date.utc y mo dt h mi s ms) ++ ")/"))
  = Ok (Date.year_string y ++ "-" ++ Date.pad 2 mo ++ "-" ++ Date.pad 2 dt ++ "T"
        ++ Date.pad 2 h ++ ":" ++ Date.pad 2 mi ++ ":" ++ Date.pad 2 s ++ "."
        ++ Date.pad 3 ms ++ "Z").
Proof.
  intros Hy Hm Hd Hh Hmi Hs Hms.
  destruct (DateFacts.utc_bounds y mo dt h mi s ms) as [Lo Hi]; try assumption.
  rewrite (parseDate_decimal "/Date(" ")/") by (reflexivity || assumption).
  destruct (Z.leb_spec (Date.utc y mo dt h mi s ms) max_time); [|lia].
  rewrite DateFacts.iso_string_utc by assumption. reflexivity.
Qed.

(** ** The assembly *)

(** *** Legs and records *)

Lemma time_stamp_ok v : time_stamp v = true -> exists t, parseDate v = Ok t.
Proof.
  destruct v as [| |b|x|s|items|fields]; try discriminate.
  cbn [time_stamp]. rewrite andb_true_iff, negb_true_iff, Z.leb_le.
  intros [N L]. apply String.eqb_neq in N.
  rewrite (parseDate_digits s _ eq_refl N).
  destruct (Z.leb_spec (digits_value 0 (strip_non_digits s)) max_time); [eauto|lia].
Qed.

Lemma time_stamp_bad v : time_stamp v = false -> exists e, parseDate v = Throw e.
Proof.
  destruct v as [| |b|x|s|items|fields]; cbn [parseDate]; eauto.
  cbn [time_stamp]. intros H.
  destruct (String.eqb_spec (strip_non_digits s) "") as [E|N].
  - rewrite E. cbn. eauto.
  - fold (parseDate (VString s)). rewrite (parseDate_digits s _ eq_refl N).
    cbn [negb andb] in H. rewrite H. eauto.
Qed.

Lemma map_from_all {A : Type} (f : nat -> value -> result A) items :
  forall i,
    (forall k x, nth_error items k = Some x -> exists y, f (i + k)%nat x = Ok y) ->
    exists ys, map_from f i items = Ok ys.
Proof.
  induction items as [|x rest IH]; intros i H; [cbn; eauto|].
  cbn [map_from].
  destruct (H 0%nat x eq_refl) as [y Y]. rewrite Nat.add_0_r in Y. rewrite Y.
  destruct (IH (S i)) as [ys Ys].
  { intros k z Hz. replace (S i + k)%nat with (i + S k)%nat by lia.
    apply H. exact Hz. }
  rewrite Ys. cbn. eauto.
Qed.

Lemma map_from_any_throw {A : Type} (f : nat -> value -> result A) items :
  forall i k x e,
    nth_error items k = Some x -> f (i + k)%nat x = Throw e ->
    exists e', map_from f i items = Throw e'.
Proof.
  induction items as [|y rest IH]; intros i k x e Hk Hf.
  - destruct k; discriminate.
  - cbn [map_from]. destruct k as [|k]; cbn [nth_error] in Hk.
    + inversion Hk; subst. rewrite Nat.add_0_r in Hf. rewrite Hf. cbn. eauto.
    + destruct (f i y); cbn [bind]; [|eauto].
      replace (i + S k)%nat with (S i + k)%nat in Hf by lia.
      destruct (IH _ _ _ _ Hk Hf) as [e' ->]. cbn. eauto.
Qed.

Section Assembly.

Variable s2n : string -> number.
Variable n2s : number -> string.

Lemma leg_record_shape (leg r : value) :
  leg_record n2s leg = Ok r ->
  exists fields t1 t2 line,
    leg = VObject fields
    /\ parseDate (lookup "dtDateTime1" fields) = Ok t1
    /\ parseDate (lookup "dtDateTime2" fields) = Ok t2
    /\ lineName n2s [lookup "sType" fields; lookup "sNum1" fields;
                     lookup "sNum2" fields; lookup "sNum3" fields] = Ok line
    /\ r = VObject [("depTime", VString t1); ("arrTime", VString t2);
                    ("depName", lookup "sStationName1" fields);
                    ("destName", lookup "sStationName2" fields);
                    ("lineName", VString line)].
Proof.
  intros H. destruct (leg_record_object n2s leg r H) as [fields ->].
  unfold leg_record in H. cbn [get bind] in H.
  destruct (parseDate (lookup "dtDateTime1" fields)) as [t1|] eqn:T1;
    cbn [bind] in H; [|discriminate].
  destruct (parseDate (lookup "dtDateTime2" fields)) as [t2|] eqn:T2;
    cbn [bind] in H; [|discriminate].
  destruct (lineName n2s _) as [line|] eqn:L; cbn [bind] in H; [|discriminate].
  inversion H. exists fields, t1, t2, line. auto.
Qed.

Lemma connection_record_shape prices i c record :
  connection_record s2n n2s prices i c = Ok record ->
  exists cid p legs rs,
    get c "iID" = Ok cid
    /\ nth_error prices i = Some p
    /\ get c "aoTrains" = Ok (VArray legs)
    /\ map_from (fun _ leg => leg_record n2s leg) 0 legs = Ok rs
    /\ record = VObject [("id", cid); ("priceCzk", VNumber (czk p));
                         ("priceEur", VNumber (eur p));
                         ("transfers",
                          VNumber (fsub (of_Z (Z.of_nat (List.length legs)))
                                        (of_Z 1)));
                         ("legs", VArray rs)].
Proof.
  unfold connection_record. intros H.
  destruct (get c "iID") as [cid|] eqn:I; cbn [bind] in H; [|discriminate].
  destruct (nth_error prices i) as [p|]; cbn [bind] in H; [|discriminate].
  destruct (get c "aoTrains") as [trains|] eqn:T; cbn [bind] in H; [|discriminate].
  destruct trains as [| |b|x|s|legs|fields];
    try (cbn in H; discriminate H);
    try (do 2 peel H; cbn in H; discriminate H).
  cbn [get bind] in H. change (String.eqb "length" "length") with true in H.
  cbn [to_number bind array_map] in H.
  destruct (map_from _ 0 legs) as [rs|] eqn:R; cbn [bind] in H; [|discriminate].
  inversion H. exists cid, p, legs, rs. auto.
Qed.


Lemma leg_record_plain leg :
  plain_leg leg = true -> exists r, leg_record n2s leg = Ok r.
Proof.
  destruct leg as [| |b|x|s|items|fields]; try discriminate.
  cbn [plain_leg]. rewrite !andb_true_iff. intros [[T1 T2] Tk].
  destruct (time_stamp_ok _ T1) as [t1 E1].
  destruct (time_stamp_ok _ T2) as [t2 E2].
  unfold leg_record. cbn [get bind]. rewrite E1, E2. cbn [bind].
  rewrite (lineName_tokens n2s _ Tk). cbn [bind]. eauto.
Qed.

Lemma connection_record_plain prices i c :
  plain_connection c = true -> (i < List.length prices)%nat ->
  exists record, connection_record s2n n2s prices i c = Ok record.
Proof.
  destruct c as [| |b|x|s|items|fields]; try discriminate.
  cbn [plain_connection].
  destruct (lookup "aoTrains" fields) as [| |b|x|s|legs|fs] eqn:T;
    try discriminate.
  intros P L. unfold connection_record. cbn [get bind].
  destruct (nth_error prices i) as [p|] eqn:N;
    [|apply nth_error_None in N; lia].
  cbn [bind]. rewrite T. cbn [get bind].
  change (String.eqb "length" "length") with true.
  cbn [to_number bind array_map].
  destruct (map_from_all (fun _ leg => leg_record n2s leg) legs 0) as [rs ->].
  { intros k leg Hk. apply leg_record_plain.
    rewrite forallb_forall in P. apply P. eapply nth_error_In. exact Hk. }
  cbn [bind]. eauto.
Qed.

(** X18.  The assembly succeeds when there is a price for every connection
    and every leg carries two time stamps and string, [null] or absent
    line tokens: the handler then answers 200 with one record per
    connection; prices beyond the last connection are ignored. *)
Theorem plain_connections_200 (w : world) (q : query) (cls : number)
  (f : fetched) (calls : list request) (cs : list value) :
  missing q = false ->
  travel_class s2n n2s q = Ok cls ->
  fetch_all s2n n2s w q cls = (Ok f, calls) ->
  f_connections f = VArray cs ->
  forallb plain_connection cs = true ->
  (List.length cs <= List.length (f_prices f))%nat ->
  exists out,
    connections_handler s2n n2s w q
    = ({| status := 200; body := VArray out |}, calls)
    /\ List.length out = List.length cs.
Proof.
  intros Mq C F Cs P L.
  destruct (map_from_all (connection_record s2n n2s (f_prices f)) cs 0)
    as [out A].
  { intros k c Hk. apply connection_record_plain.
    - rewrite forallb_forall in P. apply P. eapply nth_error_In. exact Hk.
    - assert (k < List.length cs)%nat by (apply nth_error_Some; congruence).
      cbn [Nat.add]. lia. }
  exists out. split.
  - rewrite (handler_eq s2n n2s w q cls Mq C), F. cbn [fst snd].
    rewrite Cs. cbn [assemble array_map]. rewrite A. reflexivity.
  - apply (map_from_spec _ _ _ _ A).
Qed.

(** X19.  One leg without a time stamp that [parseDate] accepts fails the
    whole response: the assembly throws, and the handler answers 500 and
    sends no record at all. *)
Theorem bad_time_stamp_500 (w : world) (q : query) (cls : number)
  (f : fetched) (calls : list request) (cs legs : list value)
  (c leg : list (string * value)) :
  missing q = false ->
  travel_class s2n n2s q = Ok cls ->
  fetch_all s2n n2s w q cls = (Ok f, calls) ->
  f_connections f = VArray cs ->
  In (VObject c) cs ->
  lookup "aoTrains" c = VArray legs ->
  In (VObject leg) legs ->
  time_stamp (lookup "dtDateTime1" leg) = false
  \/ time_stamp (lookup "dtDateTime2" leg) = false ->
  exists e,
    connections_handler s2n n2s w q
    = ({| status := 500; body := VObject [("error", VString (message e))] |},
       calls).
Proof.
  intros Mq C F Cs Ic T Il Bad.
  assert (Leg : exists e, leg_record n2s (VObject leg) = Throw e).
  { unfold leg_record. cbn [get bind].
    destruct (parseDate (lookup "dtDateTime1" leg)) as [t1|e1] eqn:E1;
      cbn [bind]; [|eauto].
    destruct Bad as [B|B].
    - destruct (time_stamp_bad _ B) as [e E]. congruence.
    - destruct (time_stamp_bad _ B) as [e ->]. cbn [bind]. eauto. }
  destruct Leg as [el Leg].
  destruct (In_nth_error _ _ Il) as [kl Hl].
  destruct (In_nth_error _ _ Ic) as [kc Hc].
  assert (Rec : exists e, connection_record s2n n2s (f_prices f) kc (VObject c)
                          = Throw e).
  { unfold connection_record. cbn [get bind].
    destruct (nth_error (f_prices f) kc); cbn [bind]; [|eauto].
    rewrite T. cbn [get bind]. change (String.eqb "length" "length") with true.
    cbn [to_number bind array_map].
    destruct (map_from_any_throw (fun _ l => leg_record n2s l) legs 0 kl
                (VObject leg) el Hl Leg) as [e ->].
    cbn [bind]. eauto. }
  destruct Rec as [er Rec].
  destruct (map_from_any_throw (connection_record s2n n2s (f_prices f)) cs 0 kc
              (VObject c) er Hc Rec) as [e A].
  exists e. rewrite (handler_eq s2n n2s w q cls Mq C), F. cbn [fst snd].
  rewrite Cs. cbn [assemble array_map]. rewrite A. reflexivity.
Qed.

(** X20.  A connection without legs is given [transfers = -1] and an empty
    [legs]: the length is not checked. *)
Theorem no_legs_minus_one (prices : list price) (i : nat) (c record : value) :
  get c "aoTrains" = Ok (VArray []) ->
  connection_record s2n n2s prices i c = Ok record ->
  get record "transfers" = Ok (num (-1))
  /\ get record "legs" = Ok (VArray []).
Proof.
  intros T H.
  destruct (connection_record_shape _ _ _ _ H)
    as (cid & p & legs & rs & _ & _ & T' & R & ->).
  rewrite T in T'. inversion T'; subst legs. cbn in R. inversion R; subst rs.
  split; reflexivity.
Qed.

(** X21.  The [legs] of a record are the legs of the connection, one for
    one and in their order: each has the two station names of its leg and
    the ISO-8601 texts of its two time stamps. *)
Theorem legs_in_order (prices : list price) (i : nat) (c record : value) :
  connection_record s2n n2s prices i c = Ok record ->
  exists legs rs,
    get c "aoTrains" = Ok (VArray legs)
    /\ get record "legs" = Ok (VArray rs)
    /\ Forall2
         (fun leg r =>
            exists t1 t2,
              (let* dt := get leg "dtDateTime1" in parseDate dt) = Ok t1
              /\ (let* dt := get leg "dtDateTime2" in parseDate dt) = Ok t2
              /\ get r "depTime" = Ok (VString t1)
              /\ get r "arrTime" = Ok (VString t2)
              /\ get r "depName" = get leg "sStationName1"
              /\ get r "destName" = get leg "sStationName2")
         legs rs.
Proof.
  intros H.
  destruct (connection_record_shape _ _ _ _ H)
    as (cid & p & legs & rs & _ & _ & T & R & ->).
  exists legs, rs. split; [exact T|]. split; [reflexivity|].
  apply map_from_Forall2 in R. clear H T.
  induction R as [|leg r legs' rs' Hr _ IH]; [constructor|].
  constructor; [|exact IH].
  destruct (leg_record_shape _ _ Hr) as (fields & t1 & t2 & line & -> & P1 & P2 & _ & ->).
  exists t1, t2. cbn [get bind]. repeat split; assumption || reflexivity.
Qed.


(** X22.  On a 200 the value handed to [res.json] is an array of
    objects, each with the properties [id], [priceCzk], [priceEur],
    [transfers] and [legs], in this order.  [priceCzk] and [priceEur]
    hold numbers that [Number(x.toFixed(2))] leaves unchanged ([NaN] and
    the infinities among them), or the [-0] of a negative amount that
    rounds to zero; [transfers] holds a number; [legs] holds an array of
    objects with the properties [depTime], [arrTime], [depName],
    [destName] and [lineName], of which the times and the line name hold
    strings.  [id], [depName] and [destName] hold what the replies hold,
    [undefined] included.  This is the value before [JSON.stringify],
    which leaves out a property that holds [undefined] and writes [NaN]
    and the infinities as [null]. *)
Theorem record_shape (w : world) (q : query) (out : list value) :
  fst (connections_handler s2n n2s w q) = {| status := 200; body := VArray out |} ->
  Forall
    (fun record =>
       exists cid c e t legs,
         record = VObject [("id", cid); ("priceCzk", VNumber c);
                           ("priceEur", VNumber e); ("transfers", VNumber t);
                           ("legs", VArray legs)]
         /\ (c = S754_zero true \/ round2 c = c)
         /\ (e = S754_zero true \/ round2 e = e)
         /\ Forall
              (fun leg =>
                 exists t1 t2 from to line,
                   leg = VObject [("depTime", VString t1); ("arrTime", VString t2);
                                  ("depName", from); ("destName", to);
                                  ("lineName", VString line)])
              legs)
    out.
Proof.
  intros H.
  destruct (handler_200 s2n n2s _ _ _ H) as (cls & f & calls & Fa & A).
  destruct (fetch_all_ok s2n n2s _ _ _ _ _ Fa)
    as (cs & items & earlier & pb & Cs & _ & _ & Prices & _ & _).
  rewrite Cs in A. cbn [assemble array_map] in A.
  destruct (map_from_spec _ _ _ _ A) as (_ & _ & G).
  destruct (map_from_spec _ _ _ _ Prices) as (_ & _ & Gp).
  apply Forall_forall. intros record I.
  destruct (In_nth_error _ _ I) as [i Hi].
  destruct (G i record Hi) as (c & _ & Rc).
  destruct (connection_record_shape _ _ _ _ Rc)
    as (cid & p & legs & rs & _ & P & _ & R & ->).
  destruct (Gp _ _ P) as (item & _ & Pi).
  destruct (price_of_item_two_decimals s2n n2s _ _ _ Pi) as [Pc Pe].
  exists cid, (czk p), (eur p), (fsub (of_Z (Z.of_nat (List.length legs))) (of_Z 1)), rs.
  split; [reflexivity|]. split; [exact Pc|]. split; [exact Pe|].
  apply map_from_Forall2 in R. clear - R.
  induction R as [|leg r legs' rs' Hr _ IH]; constructor; [|exact IH].
  destruct (leg_record_shape _ _ Hr) as (fields & t1 & t2 & line & _ & _ & _ & _ & ->).
  eauto 10.
Qed.

(** X23.  One [null] entry in the list of the price service fails the
    whole batch: [getPrices] throws, whatever the other entries. *)
Theorem null_price_entry_fails (st : Z) (stt : string) (txt : result string)
  (fields : list (string * value)) (items ids : list value)
  (item sid handle rate : value) (cls age : number) :
  ok st = true ->
  lookup "d" fields = VArray items ->
  In item items ->
  nullish item = true ->
  exists e,
    fst (getPrices s2n n2s (Response st stt txt (Ok (VObject fields)))
           sid handle ids cls age rate) = Throw e.
Proof.
  intros Hok D I N. unfold getPrices, postJSON. rewrite Hok.
  cbn [bindM lift fst get bind]. rewrite D. unfold or_else.
  cbn [truthy array_map].
  destruct (In_nth_error _ _ I) as [k Hk].
  assert (T : exists e, price_of_item s2n n2s rate item = Throw e).
  { unfold price_of_item. destruct item; try discriminate; cbn; eauto. }
  destruct T as [e T].
  apply (map_from_any_throw (fun _ x => price_of_item s2n n2s rate x)
           items 0 k item e Hk T).
Qed.

(** X24.  The departure goes out in the notation the times of the legs
    come back in: when the runtime prints the departure [depMs] as the
    decimal digits of [n] milliseconds, [0 <= n <= 8.64e15], then
    [parseDate] of the [dtDateTime] of the journey request is the
    ISO-8601 text of [n]. *)
Theorem departure_reads_back (r : reply) (sid : value) (from to : station)
  (depMs cls age : number) (n : Z) :
  n2s depMs = decimal n ->
  (0 <= n <= max_time)%Z ->
  exists search,
    snd (searchJourneys n2s r sid from to depMs cls age)
    = [POST journey_url (VObject search)]
    /\ parseDate (lookup "dtDateTime" search) = Ok (Date.iso_string n).
Proof.
  intros P [Lo Hi].
  destruct (searchJourneys_calls n2s r sid from to depMs cls age)
    as (search & E & _ & D & _).
  exists search. split; [exact E|]. rewrite D, P.
  rewrite (parseDate_decimal "/Date(" ")/" n) by (reflexivity || lia).
  destruct (Z.leb_spec n max_time); [reflexivity|lia].
Qed.

End Assembly.

(** ** The further properties on concrete inputs *)

(** X2 on services where the lookup of [from] is down, that of [to] finds
    nothing, and [from] settles first: the answer is the failure of
    [from]. *)
Lemma station_failure_witness :
  missing Sample.praha_brno = false
  /\ fst (searchStation Sample.NumberToString
            (station_from_reply Cases.stations_down) (VString "Praha"))
     = Throw (Error ("POST " ++ station_url ++ " → 503 Service Unavailable: try later"))
  /\ to_settles_first Cases.stations_down = false
  /\ exists body1 body2,
       Sample.handler Cases.stations_down Sample.praha_brno
       = ({| status := 500;
             body := VObject [("error",
                       VString ("POST " ++ station_url
                                  ++ " → 503 Service Unavailable: try later"))] |},
          [POST station_url (VObject body1); POST station_url (VObject body2)])
       /\ lookup "sMask" body1 = VString "Praha"
       /\ lookup "sMask" body2 = VString "Brno".
Proof.
  split; [reflexivity|]. split; [reflexivity|]. split; [reflexivity|].
  apply (station_failure Sample.StringToNumber Sample.NumberToString
           Cases.stations_down Sample.praha_brno
           (Error ("POST " ++ station_url ++ " → 503 Service Unavailable: try later"))).
  - reflexivity.
  - left. split; [reflexivity|left; reflexivity].
Defined.

(** X3 on a session service that answers 503. *)
Lemma session_failure_witness :
  fst (createSession Sample.NumberToString (session_reply Cases.session_down))
  = Throw (Error ("POST " ++ session_url ++ " → 503 Service Unavailable: try later"))
  /\ In session_url
        (map request_url (snd (Sample.handler Cases.session_down Sample.praha_brno)))
  /\ fst (Sample.handler Cases.session_down Sample.praha_brno)
     = {| status := 500;
          body := VObject [("error",
                    VString ("POST " ++ session_url
                               ++ " → 503 Service Unavailable: try later"))] |}
  /\ map request_url (snd (Sample.handler Cases.session_down Sample.praha_brno))
     = [station_url; station_url; session_url].
Proof.
  split; [reflexivity|]. split; [vm_compute; auto|].
  apply (session_failure Sample.StringToNumber Sample.NumberToString
           Cases.session_down Sample.praha_brno
           (Error ("POST " ++ session_url ++ " → 503 Service Unavailable: try later"))).
  - reflexivity.
  - vm_compute. auto.
Defined.


(** X5 on a rate service that cannot be reached. *)
Lemma rate_failure_witness :
  fst (fetchCzkRate (rate_reply Cases.rate_down)) = Throw Cases.timeout
  /\ In rate_url
        (map request_url (snd (Sample.handler Cases.rate_down Sample.praha_brno)))
  /\ fst (Sample.handler Cases.rate_down Sample.praha_brno)
     = {| status := 500;
          body := VObject [("error", VString (message Cases.timeout))] |}
  /\ map request_url (snd (Sample.handler Cases.rate_down Sample.praha_brno))
     = [station_url; station_url; session_url; journey_url; rate_url].
Proof.
  split; [reflexivity|]. split; [vm_compute; auto 7|].
  apply (rate_failure Sample.StringToNumber Sample.NumberToString
           Cases.rate_down Sample.praha_brno Cases.timeout).
  - reflexivity.
  - vm_compute. auto 7.
Defined.

(** X6 on a price service that answers 503. *)
Lemma price_http_error_witness :
  price_reply Cases.price_down
  = Response 503 "Service Unavailable" (Ok "try later")
             (Throw (FetchError "invalid json response body"))
  /\ ok 503 = false
  /\ In price_url
        (map request_url (snd (Sample.handler Cases.price_down Sample.praha_brno)))
  /\ fst (Sample.handler Cases.price_down Sample.praha_brno)
     = {| status := 500;
          body := VObject [("error",
                    VString ("POST " ++ price_url ++ " → "
                               ++ Sample.NumberToString (of_Z 503) ++ " "
                               ++ "Service Unavailable" ++ ": " ++ "try later"))] |}.
Proof.
  split; [reflexivity|]. split; [reflexivity|]. split; [vm_compute; auto 8|].
  apply (price_http_error Sample.StringToNumber Sample.NumberToString
           Cases.price_down Sample.praha_brno 503%Z "Service Unavailable"
           "try later" (Throw (FetchError "invalid json response body"))).
  - reflexivity.
  - reflexivity.
  - vm_compute. auto 8.
Defined.

(** X7 on the sample request. *)
Lemma price_request_repeats_search_witness :
  In price_url
     (map request_url (snd (Sample.handler Sample.services Sample.praha_brno)))
  /\ exists c1 c2 c3 search prices request st stt txt json d,
       snd (Sample.handler Sample.services Sample.praha_brno)
       = [c1; c2; c3; POST journey_url (VObject search); GET rate_url;
          POST price_url (VObject prices)]
       /\ fst (createSession Sample.NumberToString (session_reply Sample.services))
          = Ok (lookup "sSessionID" search)
       /\ lookup "sSessionID" prices = lookup "sSessionID" search
       /\ lookup "oPriceRequest" prices = VObject request
       /\ lookup "oClass" request = lookup "oPriceRequestClass" search
       /\ lookup "aoPassengers" request = lookup "aoPassengers" search
       /\ journey_reply Sample.services = Response st stt txt (Ok json)
       /\ get json "d" = Ok d
       /\ get d "iHandle" = Ok (lookup "iHandle" prices).
Proof.
  split; [vm_compute; auto 8|].
  apply (price_request_repeats_search Sample.StringToNumber Sample.NumberToString
           Sample.services Sample.praha_brno).
  vm_compute. auto 8.
Defined.

(** X8 on the sample request without an age and with an empty class. *)
Lemma journey_request_of_query_witness :
  In (POST journey_url
        (VObject (Cases.search_of (snd (Sample.handler Sample.services Cases.bare)))))
     (snd (Sample.handler Sample.services Cases.bare))
  /\ lookup "oPriceRequestClass"
       (Cases.search_of (snd (Sample.handler Sample.services Cases.bare)))
     = VObject [("iClass", num 2); ("bBusiness", VBool false)]
  /\ lookup "aoPassengers"
       (Cases.search_of (snd (Sample.handler Sample.services Cases.bare)))
     = passengers (of_Z (-1)).
Proof.
  split; [vm_compute; auto 8|].
  pose proof (journey_request_of_query Sample.StringToNumber Sample.NumberToString
                Sample.services Cases.bare
                (Cases.search_of (snd (Sample.handler Sample.services Cases.bare))))
    as H.
  destruct H as (H1 & H2 & _); [vm_compute; auto 8|].
  split; [exact H1|exact H2].
Defined.

(** X9 on a journey search that answers [{ d: { iHandle: 78 } }]: the
    six calls are made and the answer is 200 with the empty array. *)
Lemma no_connections_empty_array_witness :
  missing Sample.praha_brno = false
  /\ journey_reply Cases.no_journeys
     = Response 200 "OK" (Ok "") (Ok (VObject [("d", VObject [("iHandle", num 78)])]))
  /\ ok 200 = true
  /\ nullish (lookup "oConnInfo" [("iHandle", num 78)]) = true
  /\ fst (fetchCzkRate (rate_reply Cases.no_journeys)) = Ok (num 25)
  /\ (exists c1 c2 c3 c4 prices,
         snd (Sample.handler Cases.no_journeys Sample.praha_brno)
         = [c1; c2; c3; c4; GET rate_url; POST price_url (VObject prices)]
         /\ lookup "aiConnID" prices = VArray []
         /\ lookup "iHandle" prices = lookup "iHandle" [("iHandle", num 78)])
  /\ (status (fst (Sample.handler Cases.no_journeys Sample.praha_brno)) = 200%Z ->
      body (fst (Sample.handler Cases.no_journeys Sample.praha_brno)) = VArray [])
  /\ status (fst (Sample.handler Cases.no_journeys Sample.praha_brno)) = 200%Z.
Proof.
  split; [reflexivity|]. split; [reflexivity|]. split; [reflexivity|].
  split; [reflexivity|]. split; [reflexivity|].
  assert (T := no_connections_empty_array Sample.StringToNumber
                 Sample.NumberToString Cases.no_journeys Sample.praha_brno
                 {| id := num 5457076; name := VString "Praha hl.n." |}
                 {| id := num 5433426; name := VString "Brno hl.n." |}
                 (VString "S1") (num 25) 200%Z "OK" (Ok "")
                 [("d", VObject [("iHandle", num 78)])] [("iHandle", num 78)]
                 eq_refl eq_refl eq_refl eq_refl eq_refl eq_refl eq_refl
                 (or_introl eq_refl) eq_refl).
  destruct T as [T1 T2]. split; [exact T1|]. split; [exact T2|].
  vm_compute. reflexivity.
Defined.

(** X10 on a reply with status 503, for the session step. *)
Lemma post_status_error_witness :
  ok 503 = false
  /\ fst (createSession Sample.NumberToString
            (Response 503 "Service Unavailable" (Ok "try later") (Ok (VObject []))))
     = Throw (Error ("POST " ++ session_url ++ " → "
                       ++ Sample.NumberToString (of_Z 503) ++ " "
                       ++ "Service Unavailable" ++ ": " ++ "try later")).
Proof.
  split; [reflexivity|].
  apply (post_status_error Sample.StringToNumber Sample.NumberToString
           503%Z "Service Unavailable" "try later" (Ok (VObject []))
           VUndefined VUndefined VUndefined VUndefined
           {| id := VUndefined; name := VUndefined |}
           {| id := VUndefined; name := VUndefined |}
           S754_nan S754_nan S754_nan [] eq_refl).
Defined.


(** X12 on a reply with two matches. *)
Lemma station_is_first_match_witness :
  ok 200 = true
  /\ fst (searchStation Sample.NumberToString
            (Response 200 "OK" (Ok "")
               (Ok (VObject [("d",
                      VArray [VObject [("oItem",
                                VObject [("iListID", num 1); ("sName", VString "Praha hl.n.")])];
                              VObject [("oItem",
                                VObject [("iListID", num 2); ("sName", VString "Praha-Smichov")])]])])))
            (VString "Praha"))
     = Ok {| id := lookup "iListID" [("iListID", num 1); ("sName", VString "Praha hl.n.")];
             name := lookup "sName" [("iListID", num 1); ("sName", VString "Praha hl.n.")] |}.
Proof.
  split; [reflexivity|].
  apply (station_is_first_match Sample.NumberToString 200%Z "OK" (Ok "")
           _ [("oItem", VObject [("iListID", num 1); ("sName", VString "Praha hl.n.")])]
           [("iListID", num 1); ("sName", VString "Praha hl.n.")]
           [VObject [("oItem",
              VObject [("iListID", num 2); ("sName", VString "Praha-Smichov")])]]
           (VString "Praha")); reflexivity.
Defined.

(** X13 on the sample rate, 25. *)
Lemma rate_is_truthy_witness :
  fst (fetchCzkRate (rate_reply Sample.services)) = Ok (num 25)
  /\ truthy (num 25) = true
  /\ of_Z 25 <> S754_nan.
Proof.
  split; [reflexivity|].
  destruct (rate_is_truthy (rate_reply Sample.services) (num 25) eq_refl) as [T N].
  split; [exact T|]. exact (proj1 (N (of_Z 25) eq_refl)).
Defined.

(** X23 on a list of a price and [null]. *)
Lemma null_price_entry_fails_witness :
  ok 200 = true
  /\ In VNull [VObject [("iPrice", num 21900)]; VNull]
  /\ nullish VNull = true
  /\ exists e,
       fst (getPrices Sample.StringToNumber Sample.NumberToString
              (Response 200 "OK" (Ok "")
                 (Ok (VObject [("d", VArray [VObject [("iPrice", num 21900)]; VNull])])))
              (VString "S1") (num 77) [num 11; num 12] (of_Z 2) (of_Z 25) (num 25))
       = Throw e.
Proof.
  split; [reflexivity|]. split; [right; left; reflexivity|]. split; [reflexivity|].
  apply (null_price_entry_fails Sample.StringToNumber Sample.NumberToString
           200%Z "OK" (Ok "")
           [("d", VArray [VObject [("iPrice", num 21900)]; VNull])]
           [VObject [("iPrice", num 21900)]; VNull] [num 11; num 12]
           VNull (VString "S1") (num 77) (num 25) (of_Z 2) (of_Z 25)).
  - reflexivity.
  - reflexivity.
  - right; left; reflexivity.
  - reflexivity.
Defined.

(** X22 on the value the sample request hands to [res.json]. *)
Lemma record_shape_witness :
  fst (Sample.handler Sample.services Sample.praha_brno)
  = {| status := 200;
       body := VArray (Cases.records
                         (fst (Sample.handler Sample.services Sample.praha_brno))) |}
  /\ Forall
       (fun record =>
          exists cid c e t legs,
            record = VObject [("id", cid); ("priceCzk", VNumber c);
                              ("priceEur", VNumber e); ("transfers", VNumber t);
                              ("legs", VArray legs)]
            /\ (c = S754_zero true \/ round2 c = c)
            /\ (e = S754_zero true \/ round2 e = e)
            /\ Forall
                 (fun leg =>
                    exists t1 t2 from to line,
                      leg = VObject [("depTime", VString t1); ("arrTime", VString t2);
                                     ("depName", from); ("destName", to);
                                     ("lineName", VString line)])
                 legs)
       (Cases.records (fst (Sample.handler Sample.services Sample.praha_brno))).
Proof.
  split; [vm_compute; reflexivity|].
  apply (record_shape Sample.StringToNumber Sample.NumberToString
           Sample.services Sample.praha_brno).
  vm_compute. reflexivity.
Defined.

(** X18 on the sample request. *)
Lemma plain_connections_200_witness :
  missing Sample.praha_brno = false
  /\ Sample.run = (Ok (Sample.fetched_of Sample.run), snd Sample.run)
  /\ f_connections (Sample.fetched_of Sample.run)
     = VArray [Sample.direct; Sample.one_change]
  /\ forallb plain_connection [Sample.direct; Sample.one_change] = true
  /\ (List.length [Sample.direct; Sample.one_change]
      <= List.length (f_prices (Sample.fetched_of Sample.run)))%nat
  /\ exists out,
       Sample.handler Sample.services Sample.praha_brno
       = ({| status := 200; body := VArray out |}, snd Sample.run)
       /\ List.length out = List.length [Sample.direct; Sample.one_change].
Proof.
  split; [reflexivity|]. split; [vm_compute; reflexivity|].
  split; [vm_compute; reflexivity|]. split; [vm_compute; reflexivity|].
  split; [vm_compute; lia|].
  apply (plain_connections_200 Sample.StringToNumber Sample.NumberToString
           Sample.services Sample.praha_brno (of_Z 2)
           (Sample.fetched_of Sample.run) (snd Sample.run)
           [Sample.direct; Sample.one_change]).
  - reflexivity.
  - vm_compute; reflexivity.
  - vm_compute; reflexivity.
  - vm_compute; reflexivity.
  - vm_compute; reflexivity.
  - vm_compute; lia.
Defined.

(** X19 on a journey search whose second connection departs [soon]. *)
Lemma bad_time_stamp_500_witness :
  missing Sample.praha_brno = false
  /\ Cases.run Cases.undated_journey
     = (Ok (Sample.fetched_of (Cases.run Cases.undated_journey)),
        snd (Cases.run Cases.undated_journey))
  /\ f_connections (Sample.fetched_of (Cases.run Cases.undated_journey))
     = VArray [Sample.direct; VObject Cases.late]
  /\ lookup "aoTrains" Cases.late = VArray [VObject Cases.undated]
  /\ time_stamp (lookup "dtDateTime1" Cases.undated) = false
  /\ exists e,
       Sample.handler Cases.undated_journey Sample.praha_brno
       = ({| status := 500; body := VObject [("error", VString (message e))] |},
          snd (Cases.run Cases.undated_journey)).
Proof.
  split; [reflexivity|]. split; [vm_compute; reflexivity|].
  split; [vm_compute; reflexivity|]. split; [reflexivity|].
  split; [vm_compute; reflexivity|].
  apply (bad_time_stamp_500 Sample.StringToNumber Sample.NumberToString
           Cases.undated_journey Sample.praha_brno (of_Z 2)
           (Sample.fetched_of (Cases.run Cases.undated_journey))
           (snd (Cases.run Cases.undated_journey))
           [Sample.direct; VObject Cases.late] [VObject Cases.undated]
           Cases.late Cases.undated).
  - reflexivity.
  - vm_compute; reflexivity.
  - vm_compute; reflexivity.
  - vm_compute; reflexivity.
  - right; left; reflexivity.
  - reflexivity.
  - left; reflexivity.
  - left. vm_compute; reflexivity.
Defined.

(** X20 on a connection without legs. *)
Lemma no_legs_minus_one_witness :
  get Cases.stay "aoTrains" = Ok (VArray [])
  /\ exists record,
       connection_record Sample.StringToNumber Sample.NumberToString
         [{| czk := of_Z 219; eur := of_Z 9 |}] 0 Cases.stay = Ok record
       /\ get record "transfers" = Ok (num (-1))
       /\ get record "legs" = Ok (VArray []).
Proof.
  split; [reflexivity|].
  eexists. split; [vm_compute; reflexivity|].
  refine (no_legs_minus_one Sample.StringToNumber Sample.NumberToString
            [{| czk := of_Z 219; eur := of_Z 9 |}] 0 Cases.stay _ _ _).
  - reflexivity.
  - vm_compute; reflexivity.
Defined.

(** X21 on the sample connection with two legs. *)
Lemma legs_in_order_witness :
  exists record,
    connection_record Sample.StringToNumber Sample.NumberToString
      [{| czk := of_Z 219; eur := of_Z 9 |}] 0 Sample.one_change = Ok record
    /\ exists legs rs,
         get Sample.one_change "aoTrains" = Ok (VArray legs)
         /\ get record "legs" = Ok (VArray rs)
         /\ Forall2
              (fun leg r =>
                 exists t1 t2,
                   (let* dt := get leg "dtDateTime1" in parseDate dt) = Ok t1
                   /\ (let* dt := get leg "dtDateTime2" in parseDate dt) = Ok t2
                   /\ get r "depTime" = Ok (VString t1)
                   /\ get r "arrTime" = Ok (VString t2)
                   /\ get r "depName" = get leg "sStationName1"
                   /\ get r "destName" = get leg "sStationName2")
              legs rs.
Proof.
  eexists. split; [vm_compute; reflexivity|].
  refine (legs_in_order Sample.StringToNumber Sample.NumberToString
            [{| czk := of_Z 219; eur := of_Z 9 |}] 0 Sample.one_change _ _).
  vm_compute; reflexivity.
Defined.

(** X15 on one second before the epoch. *)
Lemma parseDate_before_epoch_witness :
  (0 < 1000 <= max_time)%Z
  /\ parseDate (VString ("/Date(-" ++ decimal 1000 ++ ")/"))
     = Ok (Date.iso_string 1000).
Proof.
  split; [unfold max_time; lia|].
  apply (parseDate_before_epoch 1000). unfold max_time. lia.
Defined.

(** X16 on [/Date(1700000000000+0100)/]. *)
Lemma parseDate_offset_witness :
  (0 <= 1700000000000)%Z /\ (0 <= 100 < 10000)%Z
  /\ parseDate (VString ("/Date(" ++ decimal 1700000000000 ++ "+"
                           ++ Date.pad 4 100 ++ ")/"))
     = Throw (RangeError "Invalid time value").
Proof.
  split; [lia|]. split; [lia|].
  apply (parseDate_offset 1700000000000 100); lia.
Defined.

(** X17 on 29 February 2024, 23:59:58.007. *)
Lemma parseDate_calendar_witness :
  (1970 <= 2024 <= 275759)%Z /\ (1 <= 2 <= 12)%Z
  /\ (1 <= 29 <= month_length 2 (Date.leap 2024))%Z
  /\ parseDate (VString ("/Date(" ++ decimal (Date.utc 2024 2 29 23 59 58 7) ++ ")/"))
     = Ok "2024-02-29T23:59:58.007Z".
Proof.
  split; [lia|]. split; [lia|]. split; [vm_compute; split; discriminate|].
  apply (parseDate_calendar 2024 2 29 23 59 58 7); try lia.
  vm_compute. split; discriminate.
Defined.

(** X24 on the departure of the sample request. *)
Lemma departure_reads_back_witness :
  Sample.NumberToString (of_Z 1700000000000) = decimal 1700000000000
  /\ (0 <= 1700000000000 <= max_time)%Z
  /\ exists search,
       snd (searchJourneys Sample.NumberToString (journey_reply Sample.services)
              (VString "S1")
              {| id := num 5457076; name := VString "Praha hl.n." |}
              {| id := num 5433426; name := VString "Brno hl.n." |}
              (of_Z 1700000000000) (of_Z 2) (of_Z 25))
       = [POST journey_url (VObject search)]
       /\ parseDate (lookup "dtDateTime" search) = Ok (Date.iso_string 1700000000000).
Proof.
  split; [vm_compute; reflexivity|]. split; [unfold max_time; lia|].
  apply (departure_reads_back Sample.NumberToString (journey_reply Sample.services)
           (VString "S1")
           {| id := num 5457076; name := VString "Praha hl.n." |}
           {| id := num 5433426; name := VString "Brno hl.n." |}
           (of_Z 1700000000000) (of_Z 2) (of_Z 25) 1700000000000).
  - vm_compute; reflexivity.
  - unfold max_time; lia.
Defined.
